(** * Student Management System API: a shallow embedding of [app.py]

    The Flask service keeps student records either in a MongoDB collection
    or, when no connection is configured, in the module-level list
    [SAMPLE_STUDENTS].  This development embeds the record-store functions
    and the route handlers of [app.py] and proves the properties stated in
    the specification of the service.

    Conventions of the embedding:
    - a Python [str] is the list of its code points, a [str]; white space,
      case mapping and decimal digits are those of CPython 3.11 (Unicode
      Character Database 14.0.0); [u "text"] is the [str] of a literal of
      ASCII text;
    - Python [int] is [Z]; a finite [float] is the exact binary rational
      [m * 2^e], next to the two infinities and NaN;
    - a Python [dict] with string keys is a [gmap string pyval]: keys are
      only compared with each other, and stay [string]s;
    - an exception is a value of [exn], and code that may raise returns
      a [res]; handlers thread the process state ([world]) explicitly;
    - [logger] calls have no effect on results and are left out;
    - the MongoDB driver (pymongo, bson) is a parameter, the record
      [Driver]: every theorem holds for every driver. *)

From Stdlib Require Import Ascii ZArith NArith Lia DecimalString DecimalZ HexadecimalN.
From stdpp Require Import gmap strings list fin_maps.

Set Warnings "-register-all".
#[local] Open Scope Z_scope.

(** ** Python values and primitives *)

Module Py.

(** Exceptions that the modelled code can meet.  [DriverError] stands for
    whatever pymongo or bson raise (connection failures, [InvalidId]);
    [RequestError] for what [request.get_json()] raises on an unparseable
    body or a wrong content type. *)
Inductive exn : Type :=
| ValueError
| TypeError
| OverflowError
| AttributeError
| KeyError
| DriverError
| RequestError.

Inductive res (A : Type) : Type :=
| Ok (a : A)
| Raise (e : exn).
Arguments Ok {A} a.
Arguments Raise {A} e.

#[global] Instance res_ret : MRet res := fun _ a => Ok a.
#[global] Instance res_bind : MBind res := fun _ _ f m =>
  match m with
  | Ok a => f a
  | Raise e => Raise e
  end.

(** [[f(x) for x in l]], stopping at the first element that raises. *)
Fixpoint res_mapM {A B : Type} (f : A -> res B) (l : list A) : res (list B) :=
  match l with
  | [] => Ok []
  | x :: r =>
      match f x with
      | Raise e => Raise e
      | Ok y =>
          match res_mapM f r with
          | Raise e => Raise e
          | Ok ys => Ok (y :: ys)
          end
      end
  end.

(** [[x for x in l if p(x)]] where the test itself may raise. *)
Fixpoint res_filter {A : Type} (p : A -> res bool) (l : list A) : res (list A) :=
  match l with
  | [] => Ok []
  | x :: r =>
      match p x with
      | Raise e => Raise e
      | Ok b =>
          match res_filter p r with
          | Raise e => Raise e
          | Ok ys => Ok (if b then x :: ys else ys)
          end
      end
  end.

(** *** Strings *)

(** A [str]: its code points, each a number from 0 to 0x10FFFF. *)
Definition str : Type := list N.

Definition ord (c : ascii) : N := N_of_ascii c.

(** The [str] of a literal of ASCII text. *)
Fixpoint u (s : string) : str :=
  match s with
  | EmptyString => []
  | String c r => ord c :: u r
  end.

(** [s == t] for two strings. *)
Definition str_eq (s t : str) : bool := bool_decide (s = t).

(** Membership in a table of ranges of code points, bounds included. *)
Definition in_ranges (c : N) (table : list (N * N)) : bool :=
  existsb (fun r => (fst r <=? c)%N && (c <=? snd r)%N) table.

(** The code points for which [str.isspace()] holds, the ones that
    [str.strip()] removes: TAB to CR, FS to US, SPACE, NEL, NO-BREAK SPACE,
    OGHAM SPACE MARK, EN QUAD to HAIR SPACE, the line and paragraph
    separators, the narrow no-break, medium mathematical and ideographic
    spaces. *)
Definition whitespace : list (N * N) :=
  [ (0x9, 0xD); (0x1C, 0x20); (0x85, 0x85); (0xA0, 0xA0); (0x1680, 0x1680);
    (0x2000, 0x200A); (0x2028, 0x2029); (0x202F, 0x202F); (0x205F, 0x205F);
    (0x3000, 0x3000) ]%N.

Definition is_space (c : N) : bool := in_ranges c whitespace.

(** [s] without its longest prefix of code points that pass [p]. *)
Fixpoint lstrip_with (p : N -> bool) (s : str) : str :=
  match s with
  | [] => []
  | c :: r => if p c then lstrip_with p r else s
  end.

(** [s] without its longest suffix of code points that pass [p]. *)
Fixpoint rstrip_with (p : N -> bool) (s : str) : str :=
  match s with
  | [] => []
  | c :: r =>
      match rstrip_with p r with
      | [] => if p c then [] else [c]
      | r' => c :: r'
      end
  end.

(** [s.strip()] *)
Definition strip (s : str) : str := rstrip_with is_space (lstrip_with is_space s).

(** The case-ignorable code points (Unicode 14.0.0). *)
Definition case_ignorable_ranges : list (N * N) :=
  [
    (0x27, 0x27); (0x2E, 0x2E); (0x3A, 0x3A); (0x5E, 0x5E); (0x60, 0x60);
    (0xA8, 0xA8); (0xAD, 0xAD); (0xAF, 0xAF); (0xB4, 0xB4); (0xB7, 0xB8);
    (0x2B0, 0x36F); (0x374, 0x375); (0x37A, 0x37A); (0x384, 0x385);
    (0x387, 0x387); (0x483, 0x489); (0x559, 0x559); (0x55F, 0x55F);
    (0x591, 0x5BD); (0x5BF, 0x5BF); (0x5C1, 0x5C2); (0x5C4, 0x5C5);
    (0x5C7, 0x5C7); (0x5F4, 0x5F4); (0x600, 0x605); (0x610, 0x61A);
    (0x61C, 0x61C); (0x640, 0x640); (0x64B, 0x65F); (0x670, 0x670);
    (0x6D6, 0x6DD); (0x6DF, 0x6E8); (0x6EA, 0x6ED); (0x70F, 0x70F);
    (0x711, 0x711); (0x730, 0x74A); (0x7A6, 0x7B0); (0x7EB, 0x7F5);
    (0x7FA, 0x7FA); (0x7FD, 0x7FD); (0x816, 0x82D); (0x859, 0x85B);
    (0x888, 0x888); (0x890, 0x891); (0x898, 0x89F); (0x8C9, 0x902);
    (0x93A, 0x93A); (0x93C, 0x93C); (0x941, 0x948); (0x94D, 0x94D);
    (0x951, 0x957); (0x962, 0x963); (0x971, 0x971); (0x981, 0x981);
    (0x9BC, 0x9BC); (0x9C1, 0x9C4); (0x9CD, 0x9CD); (0x9E2, 0x9E3);
    (0x9FE, 0x9FE); (0xA01, 0xA02); (0xA3C, 0xA3C); (0xA41, 0xA42);
    (0xA47, 0xA48); (0xA4B, 0xA4D); (0xA51, 0xA51); (0xA70, 0xA71);
    (0xA75, 0xA75); (0xA81, 0xA82); (0xABC, 0xABC); (0xAC1, 0xAC5);
    (0xAC7, 0xAC8); (0xACD, 0xACD); (0xAE2, 0xAE3); (0xAFA, 0xAFF);
    (0xB01, 0xB01); (0xB3C, 0xB3C); (0xB3F, 0xB3F); (0xB41, 0xB44);
    (0xB4D, 0xB4D); (0xB55, 0xB56); (0xB62, 0xB63); (0xB82, 0xB82);
    (0xBC0, 0xBC0); (0xBCD, 0xBCD); (0xC00, 0xC00); (0xC04, 0xC04);
    (0xC3C, 0xC3C); (0xC3E, 0xC40); (0xC46, 0xC48); (0xC4A, 0xC4D);
    (0xC55, 0xC56); (0xC62, 0xC63); (0xC81, 0xC81); (0xCBC, 0xCBC);
    (0xCBF, 0xCBF); (0xCC6, 0xCC6); (0xCCC, 0xCCD); (0xCE2, 0xCE3);
    (0xD00, 0xD01); (0xD3B, 0xD3C); (0xD41, 0xD44); (0xD4D, 0xD4D);
    (0xD62, 0xD63); (0xD81, 0xD81); (0xDCA, 0xDCA); (0xDD2, 0xDD4);
    (0xDD6, 0xDD6); (0xE31, 0xE31); (0xE34, 0xE3A); (0xE46, 0xE4E);
    (0xEB1, 0xEB1); (0xEB4, 0xEBC); (0xEC6, 0xEC6); (0xEC8, 0xECD);
    (0xF18, 0xF19); (0xF35, 0xF35); (0xF37, 0xF37); (0xF39, 0xF39);
    (0xF71, 0xF7E); (0xF80, 0xF84); (0xF86, 0xF87); (0xF8D, 0xF97);
    (0xF99, 0xFBC); (0xFC6, 0xFC6); (0x102D, 0x1030); (0x1032, 0x1037);
    (0x1039, 0x103A); (0x103D, 0x103E); (0x1058, 0x1059); (0x105E, 0x1060);
    (0x1071, 0x1074); (0x1082, 0x1082); (0x1085, 0x1086); (0x108D, 0x108D);
    (0x109D, 0x109D); (0x10FC, 0x10FC); (0x135D, 0x135F); (0x1712, 0x1714);
    (0x1732, 0x1733); (0x1752, 0x1753); (0x1772, 0x1773); (0x17B4, 0x17B5);
    (0x17B7, 0x17BD); (0x17C6, 0x17C6); (0x17C9, 0x17D3); (0x17D7, 0x17D7);
    (0x17DD, 0x17DD); (0x180B, 0x180F); (0x1843, 0x1843); (0x1885, 0x1886);
    (0x18A9, 0x18A9); (0x1920, 0x1922); (0x1927, 0x1928); (0x1932, 0x1932);
    (0x1939, 0x193B); (0x1A17, 0x1A18); (0x1A1B, 0x1A1B); (0x1A56, 0x1A56);
    (0x1A58, 0x1A5E); (0x1A60, 0x1A60); (0x1A62, 0x1A62); (0x1A65, 0x1A6C);
    (0x1A73, 0x1A7C); (0x1A7F, 0x1A7F); (0x1AA7, 0x1AA7); (0x1AB0, 0x1ACE);
    (0x1B00, 0x1B03); (0x1B34, 0x1B34); (0x1B36, 0x1B3A); (0x1B3C, 0x1B3C);
    (0x1B42, 0x1B42); (0x1B6B, 0x1B73); (0x1B80, 0x1B81); (0x1BA2, 0x1BA5);
    (0x1BA8, 0x1BA9); (0x1BAB, 0x1BAD); (0x1BE6, 0x1BE6); (0x1BE8, 0x1BE9);
    (0x1BED, 0x1BED); (0x1BEF, 0x1BF1); (0x1C2C, 0x1C33); (0x1C36, 0x1C37);
    (0x1C78, 0x1C7D); (0x1CD0, 0x1CD2); (0x1CD4, 0x1CE0); (0x1CE2, 0x1CE8);
    (0x1CED, 0x1CED); (0x1CF4, 0x1CF4); (0x1CF8, 0x1CF9); (0x1D2C, 0x1D6A);
    (0x1D78, 0x1D78); (0x1D9B, 0x1DFF); (0x1FBD, 0x1FBD); (0x1FBF, 0x1FC1);
    (0x1FCD, 0x1FCF); (0x1FDD, 0x1FDF); (0x1FED, 0x1FEF); (0x1FFD, 0x1FFE);
    (0x200B, 0x200F); (0x2018, 0x2019); (0x2024, 0x2024); (0x2027, 0x2027);
    (0x202A, 0x202E); (0x2060, 0x2064); (0x2066, 0x206F); (0x2071, 0x2071);
    (0x207F, 0x207F); (0x2090, 0x209C); (0x20D0, 0x20F0); (0x2C7C, 0x2C7D);
    (0x2CEF, 0x2CF1); (0x2D6F, 0x2D6F); (0x2D7F, 0x2D7F); (0x2DE0, 0x2DFF);
    (0x2E2F, 0x2E2F); (0x3005, 0x3005); (0x302A, 0x302D); (0x3031, 0x3035);
    (0x303B, 0x303B); (0x3099, 0x309E); (0x30FC, 0x30FE); (0xA015, 0xA015);
    (0xA4F8, 0xA4FD); (0xA60C, 0xA60C); (0xA66F, 0xA672); (0xA674, 0xA67D);
    (0xA67F, 0xA67F); (0xA69C, 0xA69F); (0xA6F0, 0xA6F1); (0xA700, 0xA721);
    (0xA770, 0xA770); (0xA788, 0xA78A); (0xA7F2, 0xA7F4); (0xA7F8, 0xA7F9);
    (0xA802, 0xA802); (0xA806, 0xA806); (0xA80B, 0xA80B); (0xA825, 0xA826);
    (0xA82C, 0xA82C); (0xA8C4, 0xA8C5); (0xA8E0, 0xA8F1); (0xA8FF, 0xA8FF);
    (0xA926, 0xA92D); (0xA947, 0xA951); (0xA980, 0xA982); (0xA9B3, 0xA9B3);
    (0xA9B6, 0xA9B9); (0xA9BC, 0xA9BD); (0xA9CF, 0xA9CF); (0xA9E5, 0xA9E6);
    (0xAA29, 0xAA2E); (0xAA31, 0xAA32); (0xAA35, 0xAA36); (0xAA43, 0xAA43);
    (0xAA4C, 0xAA4C); (0xAA70, 0xAA70); (0xAA7C, 0xAA7C); (0xAAB0, 0xAAB0);
    (0xAAB2, 0xAAB4); (0xAAB7, 0xAAB8); (0xAABE, 0xAABF); (0xAAC1, 0xAAC1);
    (0xAADD, 0xAADD); (0xAAEC, 0xAAED); (0xAAF3, 0xAAF4); (0xAAF6, 0xAAF6);
    (0xAB5B, 0xAB5F); (0xAB69, 0xAB6B); (0xABE5, 0xABE5); (0xABE8, 0xABE8);
    (0xABED, 0xABED); (0xFB1E, 0xFB1E); (0xFBB2, 0xFBC2); (0xFE00, 0xFE0F);
    (0xFE13, 0xFE13); (0xFE20, 0xFE2F); (0xFE52, 0xFE52); (0xFE55, 0xFE55);
    (0xFEFF, 0xFEFF); (0xFF07, 0xFF07); (0xFF0E, 0xFF0E); (0xFF1A, 0xFF1A);
    (0xFF3E, 0xFF3E); (0xFF40, 0xFF40); (0xFF70, 0xFF70); (0xFF9E, 0xFF9F);
    (0xFFE3, 0xFFE3); (0xFFF9, 0xFFFB); (0x101FD, 0x101FD);
    (0x102E0, 0x102E0); (0x10376, 0x1037A); (0x10780, 0x10785);
    (0x10787, 0x107B0); (0x107B2, 0x107BA); (0x10A01, 0x10A03);
    (0x10A05, 0x10A06); (0x10A0C, 0x10A0F); (0x10A38, 0x10A3A);
    (0x10A3F, 0x10A3F); (0x10AE5, 0x10AE6); (0x10D24, 0x10D27);
    (0x10EAB, 0x10EAC); (0x10F46, 0x10F50); (0x10F82, 0x10F85);
    (0x11001, 0x11001); (0x11038, 0x11046); (0x11070, 0x11070);
    (0x11073, 0x11074); (0x1107F, 0x11081); (0x110B3, 0x110B6);
    (0x110B9, 0x110BA); (0x110BD, 0x110BD); (0x110C2, 0x110C2);
    (0x110CD, 0x110CD); (0x11100, 0x11102); (0x11127, 0x1112B);
    (0x1112D, 0x11134); (0x11173, 0x11173); (0x11180, 0x11181);
    (0x111B6, 0x111BE); (0x111C9, 0x111CC); (0x111CF, 0x111CF);
    (0x1122F, 0x11231); (0x11234, 0x11234); (0x11236, 0x11237);
    (0x1123E, 0x1123E); (0x112DF, 0x112DF); (0x112E3, 0x112EA);
    (0x11300, 0x11301); (0x1133B, 0x1133C); (0x11340, 0x11340);
    (0x11366, 0x1136C); (0x11370, 0x11374); (0x11438, 0x1143F);
    (0x11442, 0x11444); (0x11446, 0x11446); (0x1145E, 0x1145E);
    (0x114B3, 0x114B8); (0x114BA, 0x114BA); (0x114BF, 0x114C0);
    (0x114C2, 0x114C3); (0x115B2, 0x115B5); (0x115BC, 0x115BD);
    (0x115BF, 0x115C0); (0x115DC, 0x115DD); (0x11633, 0x1163A);
    (0x1163D, 0x1163D); (0x1163F, 0x11640); (0x116AB, 0x116AB);
    (0x116AD, 0x116AD); (0x116B0, 0x116B5); (0x116B7, 0x116B7);
    (0x1171D, 0x1171F); (0x11722, 0x11725); (0x11727, 0x1172B);
    (0x1182F, 0x11837); (0x11839, 0x1183A); (0x1193B, 0x1193C);
    (0x1193E, 0x1193E); (0x11943, 0x11943); (0x119D4, 0x119D7);
    (0x119DA, 0x119DB); (0x119E0, 0x119E0); (0x11A01, 0x11A0A);
    (0x11A33, 0x11A38); (0x11A3B, 0x11A3E); (0x11A47, 0x11A47);
    (0x11A51, 0x11A56); (0x11A59, 0x11A5B); (0x11A8A, 0x11A96);
    (0x11A98, 0x11A99); (0x11C30, 0x11C36); (0x11C38, 0x11C3D);
    (0x11C3F, 0x11C3F); (0x11C92, 0x11CA7); (0x11CAA, 0x11CB0);
    (0x11CB2, 0x11CB3); (0x11CB5, 0x11CB6); (0x11D31, 0x11D36);
    (0x11D3A, 0x11D3A); (0x11D3C, 0x11D3D); (0x11D3F, 0x11D45);
    (0x11D47, 0x11D47); (0x11D90, 0x11D91); (0x11D95, 0x11D95);
    (0x11D97, 0x11D97); (0x11EF3, 0x11EF4); (0x13430, 0x13438);
    (0x16AF0, 0x16AF4); (0x16B30, 0x16B36); (0x16B40, 0x16B43);
    (0x16F4F, 0x16F4F); (0x16F8F, 0x16F9F); (0x16FE0, 0x16FE1);
    (0x16FE3, 0x16FE4); (0x1AFF0, 0x1AFF3); (0x1AFF5, 0x1AFFB);
    (0x1AFFD, 0x1AFFE); (0x1BC9D, 0x1BC9E); (0x1BCA0, 0x1BCA3);
    (0x1CF00, 0x1CF2D); (0x1CF30, 0x1CF46); (0x1D167, 0x1D169);
    (0x1D173, 0x1D182); (0x1D185, 0x1D18B); (0x1D1AA, 0x1D1AD);
    (0x1D242, 0x1D244); (0x1DA00, 0x1DA36); (0x1DA3B, 0x1DA6C);
    (0x1DA75, 0x1DA75); (0x1DA84, 0x1DA84); (0x1DA9B, 0x1DA9F);
    (0x1DAA1, 0x1DAAF); (0x1E000, 0x1E006); (0x1E008, 0x1E018);
    (0x1E01B, 0x1E021); (0x1E023, 0x1E024); (0x1E026, 0x1E02A);
    (0x1E130, 0x1E13D); (0x1E2AE, 0x1E2AE); (0x1E2EC, 0x1E2EF);
    (0x1E8D0, 0x1E8D6); (0x1E944, 0x1E94B); (0x1F3FB, 0x1F3FF);
    (0xE0001, 0xE0001); (0xE0020, 0xE007F); (0xE0100, 0xE01EF) ]%N.

(** The cased code points that are not case-ignorable (Unicode 14.0.0). *)
Definition cased_ranges : list (N * N) :=
  [
    (0x41, 0x5A); (0x61, 0x7A); (0xAA, 0xAA); (0xB5, 0xB5); (0xBA, 0xBA);
    (0xC0, 0xD6); (0xD8, 0xF6); (0xF8, 0x1BA); (0x1BC, 0x1BF); (0x1C4, 0x293);
    (0x295, 0x2AF); (0x370, 0x373); (0x376, 0x377); (0x37B, 0x37D);
    (0x37F, 0x37F); (0x386, 0x386); (0x388, 0x38A); (0x38C, 0x38C);
    (0x38E, 0x3A1); (0x3A3, 0x3F5); (0x3F7, 0x481); (0x48A, 0x52F);
    (0x531, 0x556); (0x560, 0x588); (0x10A0, 0x10C5); (0x10C7, 0x10C7);
    (0x10CD, 0x10CD); (0x10D0, 0x10FA); (0x10FD, 0x10FF); (0x13A0, 0x13F5);
    (0x13F8, 0x13FD); (0x1C80, 0x1C88); (0x1C90, 0x1CBA); (0x1CBD, 0x1CBF);
    (0x1D00, 0x1D2B); (0x1D6B, 0x1D77); (0x1D79, 0x1D9A); (0x1E00, 0x1F15);
    (0x1F18, 0x1F1D); (0x1F20, 0x1F45); (0x1F48, 0x1F4D); (0x1F50, 0x1F57);
    (0x1F59, 0x1F59); (0x1F5B, 0x1F5B); (0x1F5D, 0x1F5D); (0x1F5F, 0x1F7D);
    (0x1F80, 0x1FB4); (0x1FB6, 0x1FBC); (0x1FBE, 0x1FBE); (0x1FC2, 0x1FC4);
    (0x1FC6, 0x1FCC); (0x1FD0, 0x1FD3); (0x1FD6, 0x1FDB); (0x1FE0, 0x1FEC);
    (0x1FF2, 0x1FF4); (0x1FF6, 0x1FFC); (0x2102, 0x2102); (0x2107, 0x2107);
    (0x210A, 0x2113); (0x2115, 0x2115); (0x2119, 0x211D); (0x2124, 0x2124);
    (0x2126, 0x2126); (0x2128, 0x2128); (0x212A, 0x212D); (0x212F, 0x2134);
    (0x2139, 0x2139); (0x213C, 0x213F); (0x2145, 0x2149); (0x214E, 0x214E);
    (0x2160, 0x217F); (0x2183, 0x2184); (0x24B6, 0x24E9); (0x2C00, 0x2C7B);
    (0x2C7E, 0x2CE4); (0x2CEB, 0x2CEE); (0x2CF2, 0x2CF3); (0x2D00, 0x2D25);
    (0x2D27, 0x2D27); (0x2D2D, 0x2D2D); (0xA640, 0xA66D); (0xA680, 0xA69B);
    (0xA722, 0xA76F); (0xA771, 0xA787); (0xA78B, 0xA78E); (0xA790, 0xA7CA);
    (0xA7D0, 0xA7D1); (0xA7D3, 0xA7D3); (0xA7D5, 0xA7D9); (0xA7F5, 0xA7F6);
    (0xA7FA, 0xA7FA); (0xAB30, 0xAB5A); (0xAB60, 0xAB68); (0xAB70, 0xABBF);
    (0xFB00, 0xFB06); (0xFB13, 0xFB17); (0xFF21, 0xFF3A); (0xFF41, 0xFF5A);
    (0x10400, 0x1044F); (0x104B0, 0x104D3); (0x104D8, 0x104FB);
    (0x10570, 0x1057A); (0x1057C, 0x1058A); (0x1058C, 0x10592);
    (0x10594, 0x10595); (0x10597, 0x105A1); (0x105A3, 0x105B1);
    (0x105B3, 0x105B9); (0x105BB, 0x105BC); (0x10C80, 0x10CB2);
    (0x10CC0, 0x10CF2); (0x118A0, 0x118DF); (0x16E40, 0x16E7F);
    (0x1D400, 0x1D454); (0x1D456, 0x1D49C); (0x1D49E, 0x1D49F);
    (0x1D4A2, 0x1D4A2); (0x1D4A5, 0x1D4A6); (0x1D4A9, 0x1D4AC);
    (0x1D4AE, 0x1D4B9); (0x1D4BB, 0x1D4BB); (0x1D4BD, 0x1D4C3);
    (0x1D4C5, 0x1D505); (0x1D507, 0x1D50A); (0x1D50D, 0x1D514);
    (0x1D516, 0x1D51C); (0x1D51E, 0x1D539); (0x1D53B, 0x1D53E);
    (0x1D540, 0x1D544); (0x1D546, 0x1D546); (0x1D54A, 0x1D550);
    (0x1D552, 0x1D6A5); (0x1D6A8, 0x1D6C0); (0x1D6C2, 0x1D6DA);
    (0x1D6DC, 0x1D6FA); (0x1D6FC, 0x1D714); (0x1D716, 0x1D734);
    (0x1D736, 0x1D74E); (0x1D750, 0x1D76E); (0x1D770, 0x1D788);
    (0x1D78A, 0x1D7A8); (0x1D7AA, 0x1D7C2); (0x1D7C4, 0x1D7CB);
    (0x1DF00, 0x1DF09); (0x1DF0B, 0x1DF1E); (0x1E900, 0x1E943);
    (0x1F130, 0x1F149); (0x1F150, 0x1F169); (0x1F170, 0x1F189) ]%N.

(** The lower-case mapping of single code points (Unicode 14.0.0).  A row
    [(first, last, step, shift)] maps each of [first], [first + step], ...,
    [last] to itself plus [shift]. *)
Definition lower_rows : list (Z * Z * Z * Z) :=
  [
    (0x41, 0x5A, 1, 32); (0xC0, 0xD6, 1, 32); (0xD8, 0xDE, 1, 32);
    (0x100, 0x12E, 2, 1); (0x132, 0x136, 2, 1); (0x139, 0x147, 2, 1);
    (0x14A, 0x176, 2, 1); (0x178, 0x178, 1, (-121)); (0x179, 0x17D, 2, 1);
    (0x181, 0x181, 1, 210); (0x182, 0x184, 2, 1); (0x186, 0x186, 1, 206);
    (0x187, 0x187, 1, 1); (0x189, 0x18A, 1, 205); (0x18B, 0x18B, 1, 1);
    (0x18E, 0x18E, 1, 79); (0x18F, 0x18F, 1, 202); (0x190, 0x190, 1, 203);
    (0x191, 0x191, 1, 1); (0x193, 0x193, 1, 205); (0x194, 0x194, 1, 207);
    (0x196, 0x196, 1, 211); (0x197, 0x197, 1, 209); (0x198, 0x198, 1, 1);
    (0x19C, 0x19C, 1, 211); (0x19D, 0x19D, 1, 213); (0x19F, 0x19F, 1, 214);
    (0x1A0, 0x1A4, 2, 1); (0x1A6, 0x1A6, 1, 218); (0x1A7, 0x1A7, 1, 1);
    (0x1A9, 0x1A9, 1, 218); (0x1AC, 0x1AC, 1, 1); (0x1AE, 0x1AE, 1, 218);
    (0x1AF, 0x1AF, 1, 1); (0x1B1, 0x1B2, 1, 217); (0x1B3, 0x1B5, 2, 1);
    (0x1B7, 0x1B7, 1, 219); (0x1B8, 0x1B8, 1, 1); (0x1BC, 0x1BC, 1, 1);
    (0x1C4, 0x1C4, 1, 2); (0x1C5, 0x1C5, 1, 1); (0x1C7, 0x1C7, 1, 2);
    (0x1C8, 0x1C8, 1, 1); (0x1CA, 0x1CA, 1, 2); (0x1CB, 0x1DB, 2, 1);
    (0x1DE, 0x1EE, 2, 1); (0x1F1, 0x1F1, 1, 2); (0x1F2, 0x1F4, 2, 1);
    (0x1F6, 0x1F6, 1, (-97)); (0x1F7, 0x1F7, 1, (-56)); (0x1F8, 0x21E, 2, 1);
    (0x220, 0x220, 1, (-130)); (0x222, 0x232, 2, 1); (0x23A, 0x23A, 1, 10795);
    (0x23B, 0x23B, 1, 1); (0x23D, 0x23D, 1, (-163)); (0x23E, 0x23E, 1, 10792);
    (0x241, 0x241, 1, 1); (0x243, 0x243, 1, (-195)); (0x244, 0x244, 1, 69);
    (0x245, 0x245, 1, 71); (0x246, 0x24E, 2, 1); (0x370, 0x372, 2, 1);
    (0x376, 0x376, 1, 1); (0x37F, 0x37F, 1, 116); (0x386, 0x386, 1, 38);
    (0x388, 0x38A, 1, 37); (0x38C, 0x38C, 1, 64); (0x38E, 0x38F, 1, 63);
    (0x391, 0x3A1, 1, 32); (0x3A3, 0x3AB, 1, 32); (0x3CF, 0x3CF, 1, 8);
    (0x3D8, 0x3EE, 2, 1); (0x3F4, 0x3F4, 1, (-60)); (0x3F7, 0x3F7, 1, 1);
    (0x3F9, 0x3F9, 1, (-7)); (0x3FA, 0x3FA, 1, 1); (0x3FD, 0x3FF, 1, (-130));
    (0x400, 0x40F, 1, 80); (0x410, 0x42F, 1, 32); (0x460, 0x480, 2, 1);
    (0x48A, 0x4BE, 2, 1); (0x4C0, 0x4C0, 1, 15); (0x4C1, 0x4CD, 2, 1);
    (0x4D0, 0x52E, 2, 1); (0x531, 0x556, 1, 48); (0x10A0, 0x10C5, 1, 7264);
    (0x10C7, 0x10C7, 1, 7264); (0x10CD, 0x10CD, 1, 7264);
    (0x13A0, 0x13EF, 1, 38864); (0x13F0, 0x13F5, 1, 8);
    (0x1C90, 0x1CBA, 1, (-3008)); (0x1CBD, 0x1CBF, 1, (-3008));
    (0x1E00, 0x1E94, 2, 1); (0x1E9E, 0x1E9E, 1, (-7615));
    (0x1EA0, 0x1EFE, 2, 1); (0x1F08, 0x1F0F, 1, (-8));
    (0x1F18, 0x1F1D, 1, (-8)); (0x1F28, 0x1F2F, 1, (-8));
    (0x1F38, 0x1F3F, 1, (-8)); (0x1F48, 0x1F4D, 1, (-8));
    (0x1F59, 0x1F5F, 2, (-8)); (0x1F68, 0x1F6F, 1, (-8));
    (0x1F88, 0x1F8F, 1, (-8)); (0x1F98, 0x1F9F, 1, (-8));
    (0x1FA8, 0x1FAF, 1, (-8)); (0x1FB8, 0x1FB9, 1, (-8));
    (0x1FBA, 0x1FBB, 1, (-74)); (0x1FBC, 0x1FBC, 1, (-9));
    (0x1FC8, 0x1FCB, 1, (-86)); (0x1FCC, 0x1FCC, 1, (-9));
    (0x1FD8, 0x1FD9, 1, (-8)); (0x1FDA, 0x1FDB, 1, (-100));
    (0x1FE8, 0x1FE9, 1, (-8)); (0x1FEA, 0x1FEB, 1, (-112));
    (0x1FEC, 0x1FEC, 1, (-7)); (0x1FF8, 0x1FF9, 1, (-128));
    (0x1FFA, 0x1FFB, 1, (-126)); (0x1FFC, 0x1FFC, 1, (-9));
    (0x2126, 0x2126, 1, (-7517)); (0x212A, 0x212A, 1, (-8383));
    (0x212B, 0x212B, 1, (-8262)); (0x2132, 0x2132, 1, 28);
    (0x2160, 0x216F, 1, 16); (0x2183, 0x2183, 1, 1); (0x24B6, 0x24CF, 1, 26);
    (0x2C00, 0x2C2F, 1, 48); (0x2C60, 0x2C60, 1, 1);
    (0x2C62, 0x2C62, 1, (-10743)); (0x2C63, 0x2C63, 1, (-3814));
    (0x2C64, 0x2C64, 1, (-10727)); (0x2C67, 0x2C6B, 2, 1);
    (0x2C6D, 0x2C6D, 1, (-10780)); (0x2C6E, 0x2C6E, 1, (-10749));
    (0x2C6F, 0x2C6F, 1, (-10783)); (0x2C70, 0x2C70, 1, (-10782));
    (0x2C72, 0x2C72, 1, 1); (0x2C75, 0x2C75, 1, 1);
    (0x2C7E, 0x2C7F, 1, (-10815)); (0x2C80, 0x2CE2, 2, 1);
    (0x2CEB, 0x2CED, 2, 1); (0x2CF2, 0x2CF2, 1, 1); (0xA640, 0xA66C, 2, 1);
    (0xA680, 0xA69A, 2, 1); (0xA722, 0xA72E, 2, 1); (0xA732, 0xA76E, 2, 1);
    (0xA779, 0xA77B, 2, 1); (0xA77D, 0xA77D, 1, (-35332));
    (0xA77E, 0xA786, 2, 1); (0xA78B, 0xA78B, 1, 1);
    (0xA78D, 0xA78D, 1, (-42280)); (0xA790, 0xA792, 2, 1);
    (0xA796, 0xA7A8, 2, 1); (0xA7AA, 0xA7AA, 1, (-42308));
    (0xA7AB, 0xA7AB, 1, (-42319)); (0xA7AC, 0xA7AC, 1, (-42315));
    (0xA7AD, 0xA7AD, 1, (-42305)); (0xA7AE, 0xA7AE, 1, (-42308));
    (0xA7B0, 0xA7B0, 1, (-42258)); (0xA7B1, 0xA7B1, 1, (-42282));
    (0xA7B2, 0xA7B2, 1, (-42261)); (0xA7B3, 0xA7B3, 1, 928);
    (0xA7B4, 0xA7C2, 2, 1); (0xA7C4, 0xA7C4, 1, (-48));
    (0xA7C5, 0xA7C5, 1, (-42307)); (0xA7C6, 0xA7C6, 1, (-35384));
    (0xA7C7, 0xA7C9, 2, 1); (0xA7D0, 0xA7D0, 1, 1); (0xA7D6, 0xA7D8, 2, 1);
    (0xA7F5, 0xA7F5, 1, 1); (0xFF21, 0xFF3A, 1, 32);
    (0x10400, 0x10427, 1, 40); (0x104B0, 0x104D3, 1, 40);
    (0x10570, 0x1057A, 1, 39); (0x1057C, 0x1058A, 1, 39);
    (0x1058C, 0x10592, 1, 39); (0x10594, 0x10595, 1, 39);
    (0x10C80, 0x10CB2, 1, 64); (0x118A0, 0x118BF, 1, 32);
    (0x16E40, 0x16E5F, 1, 32); (0x1E900, 0x1E921, 1, 34) ].

(** [_PyUnicode_IsCaseIgnorable(c)] *)
Definition case_ignorable (c : N) : bool := in_ranges c case_ignorable_ranges.

(** [_PyUnicode_IsCased(c)], for a [c] that is not case-ignorable. *)
Definition cased (c : N) : bool := in_ranges c cased_ranges.

Definition in_row (c : Z) (row : Z * Z * Z * Z) : bool :=
  let '(first, last, step, _) := row in
  (first <=? c) && (c <=? last) && ((c - first) mod step =? 0).

(** [_PyUnicode_ToLowerFull(c)]: the lower case of one code point; only
    U+0130, the capital I with a dot above, becomes two code points. *)
Definition to_lower (c : N) : str :=
  if (c =? 0x130)%N then [0x69; 0x307]%N
  else
    match List.find (in_row (Z.of_N c)) lower_rows with
    | Some (_, _, _, shift) => [Z.to_N (Z.of_N c + shift)]
    | None => [c]
    end.

(** After any case-ignorable code points, [s] goes on with a cased one. *)
Fixpoint followed_by_cased (s : str) : bool :=
  match s with
  | [] => false
  | c :: r => if case_ignorable c then followed_by_cased r else cased c
  end.

(** [s.lower()] for the rest [s] of a string.  [after_cased] tells whether
    the last code point before [s] that is not case-ignorable exists and is
    cased.  A capital sigma U+03A3 becomes the final sigma U+03C2 when it
    comes after a cased letter and no cased letter follows it, and the
    small sigma U+03C3 otherwise. *)
Fixpoint lower_from (after_cased : bool) (s : str) : str :=
  match s with
  | [] => []
  | c :: r =>
      (if (c =? 0x3A3)%N then
         [if after_cased && negb (followed_by_cased r) then 0x3C2 else 0x3C3]%N
       else to_lower c)
      ++ lower_from (if case_ignorable c then after_cased else cased c) r
  end.

(** [s.lower()] *)
Definition lower (s : str) : str := lower_from false s.

(** [hay.startswith(needle)] *)
Fixpoint startswith (hay needle : str) : bool :=
  match needle, hay with
  | [], _ => true
  | _ :: _, [] => false
  | a :: n', b :: h' => (a =? b)%N && startswith h' n'
  end.

(** [needle in hay] for two strings. *)
Fixpoint str_contains (hay needle : str) : bool :=
  startswith hay needle ||
  match hay with
  | [] => false
  | _ :: h' => str_contains h' needle
  end.

(** *** Integers *)

(** [sys.get_int_max_str_digits()], the default: [int(str)] and [str(int)]
    raise ValueError above that many digits. *)
Definition max_str_digits : Z := 4300.

Fixpoint chars_of_uint (d : Decimal.uint) : str :=
  match d with
  | Decimal.Nil => []
  | Decimal.D0 r => 48%N :: chars_of_uint r
  | Decimal.D1 r => 49%N :: chars_of_uint r
  | Decimal.D2 r => 50%N :: chars_of_uint r
  | Decimal.D3 r => 51%N :: chars_of_uint r
  | Decimal.D4 r => 52%N :: chars_of_uint r
  | Decimal.D5 r => 53%N :: chars_of_uint r
  | Decimal.D6 r => 54%N :: chars_of_uint r
  | Decimal.D7 r => 55%N :: chars_of_uint r
  | Decimal.D8 r => 56%N :: chars_of_uint r
  | Decimal.D9 r => 57%N :: chars_of_uint r
  end.

(** [str(n)] for an [int]: the decimal digits, after a minus sign for a
    negative number. *)
Definition str_of_int (z : Z) : res str :=
  let '(sign, digits) :=
    match Z.to_int z with
    | Decimal.Pos d => ([], chars_of_uint d)
    | Decimal.Neg d => ([ord "-"], chars_of_uint d)
    end in
  if max_str_digits <? Z.of_nat (length digits) then Raise ValueError
  else Ok (sign ++ digits).

(** The decimal digits of Unicode (general category Nd, Unicode 14.0.0),
    by the code point of each digit zero: the nine code points after it are
    the digits one to nine. *)
Definition digit_zeros : list N :=
  [
    0x30; 0x660; 0x6F0; 0x7C0; 0x966; 0x9E6; 0xA66; 0xAE6; 0xB66; 0xBE6;
    0xC66; 0xCE6; 0xD66; 0xDE6; 0xE50; 0xED0; 0xF20; 0x1040; 0x1090; 0x17E0;
    0x1810; 0x1946; 0x19D0; 0x1A80; 0x1A90; 0x1B50; 0x1BB0; 0x1C40; 0x1C50;
    0xA620; 0xA8D0; 0xA900; 0xA9D0; 0xA9F0; 0xAA50; 0xABF0; 0xFF10; 0x104A0;
    0x10D30; 0x11066; 0x110F0; 0x11136; 0x111D0; 0x112F0; 0x11450; 0x114D0;
    0x11650; 0x116C0; 0x11730; 0x118E0; 0x11950; 0x11C50; 0x11D50; 0x11DA0;
    0x16A60; 0x16AC0; 0x16B50; 0x1D7CE; 0x1D7D8; 0x1D7E2; 0x1D7EC; 0x1D7F6;
    0x1E140; 0x1E2F0; 0x1E950; 0x1FBF0 ]%N.

(** [Py_UNICODE_TODECIMAL(c)] *)
Definition decimal (c : N) : option N :=
  match List.find (fun zero => (zero <=? c)%N && (c <? zero + 10)%N) digit_zeros with
  | Some zero => Some (c - zero)%N
  | None => None
  end.

(** What [int] reads in place of the code point [c]: itself below 127, a
    space for white space, the ASCII digit for a decimal digit, and a
    question mark for anything else (the reading ends there, and a question
    mark is not part of a number). *)
Definition to_ascii (c : N) : N :=
  if (c <? 127)%N then c
  else if is_space c then ord " "
  else
    match decimal c with
    | Some d => (ord "0" + d)%N
    | None => ord "?"
    end.

(** [Py_ISSPACE(c)]: TAB to CR, and SPACE. *)
Definition is_ascii_space (c : N) : bool :=
  (9 <=? c)%N && (c <=? 13)%N || (c =? 32)%N.

Definition is_digit (c : N) : bool := (48 <=? c)%N && (c <=? 57)%N.

(** Underscores in an integer literal stand singly between two other
    characters; [prev] tells whether the previous character was one that an
    underscore may follow. *)
Fixpoint underscores_ok (prev : bool) (s : str) : bool :=
  match s with
  | [] => prev
  | c :: r =>
      if (c =? ord "_")%N then prev && underscores_ok false r
      else underscores_ok true r
  end.

Fixpoint remove_underscores (s : str) : str :=
  match s with
  | [] => []
  | c :: r =>
      if (c =? ord "_")%N then remove_underscores r
      else c :: remove_underscores r
  end.

(** The number written by ASCII digits; nothing when one is not a digit. *)
Fixpoint uint_of_chars (s : str) : option Decimal.uint :=
  match s with
  | [] => Some Decimal.Nil
  | c :: r =>
      d ← uint_of_chars r;
      match (c - 48)%N with
      | 0%N => if (48 <=? c)%N then Some (Decimal.D0 d) else None
      | 1%N => Some (Decimal.D1 d)
      | 2%N => Some (Decimal.D2 d)
      | 3%N => Some (Decimal.D3 d)
      | 4%N => Some (Decimal.D4 d)
      | 5%N => Some (Decimal.D5 d)
      | 6%N => Some (Decimal.D6 d)
      | 7%N => Some (Decimal.D7 d)
      | 8%N => Some (Decimal.D8 d)
      | 9%N => Some (Decimal.D9 d)
      | _ => None
      end
  end.

(** [int(s)] for a [str]: white space around the number is skipped, one
    sign is allowed, then come decimal digits with optional single
    underscores between them; anything else, and more than
    [max_str_digits] digits, is a ValueError. *)
Definition int_of_str (s : str) : res Z :=
  let t := rstrip_with is_ascii_space (lstrip_with is_ascii_space (to_ascii <$> s)) in
  let '(negative, body) :=
    match t with
    | c :: r =>
        if (c =? ord "-")%N then (true, r)
        else if (c =? ord "+")%N then (false, r)
        else (false, t)
    | [] => (false, t)
    end in
  if underscores_ok false body then
    match uint_of_chars (remove_underscores body) with
    | Some d =>
        if max_str_digits <? Z.of_nat (Decimal.nb_digits d) then Raise ValueError
        else Ok (if negative : bool then - Z.of_uint d else Z.of_uint d)
    | None => Raise ValueError
    end
  else Raise ValueError.

(** *** Floats *)

Inductive pyfloat : Type :=
| FFinite (m e : Z)      (* the number m * 2^e *)
| FInf (negative : bool)
| FNaN.

(** [int(x)] for a [float]: truncation toward zero; [OverflowError] on an
    infinity, [ValueError] on NaN. *)
Definition int_of_float (f : pyfloat) : res Z :=
  match f with
  | FFinite m e => Ok (if 0 <=? e then m * 2 ^ e else Z.quot m (2 ^ (- e)))
  | FInf _ => Raise OverflowError
  | FNaN => Raise ValueError
  end.

(** *** Values *)

(** A [datetime], known by its ISO-8601 rendering. *)
Inductive datetime : Type := Datetime (iso : str).

Definition isoformat (t : datetime) : str :=
  match t with Datetime iso => iso end.

Inductive pyval : Type :=
| PNone
| PBool (b : bool)
| PInt (z : Z)
| PFloat (f : pyfloat)
| PStr (s : str)
| PList (l : list pyval)
| PDict (d : gmap string pyval)
| PDatetime (t : datetime).

Abbreviation pydict := (gmap string pyval).

(** Truth value of an object, as [if x:] and [not x] take it. *)
Definition truthy (v : pyval) : bool :=
  match v with
  | PNone => false
  | PBool b => b
  | PInt z => negb (z =? 0)
  | PFloat (FFinite m _) => negb (m =? 0)
  | PFloat _ => true
  | PStr s => match s with [] => false | _ => true end
  | PList l => match l with [] => false | _ => true end
  | PDict d => negb (bool_decide (d = ∅))
  | PDatetime _ => true
  end.

(** [v == s] where [s] is a [str]: only an equal string compares equal. *)
Definition eq_str (v : pyval) (s : str) : bool :=
  match v with
  | PStr t => str_eq t s
  | _ => false
  end.

(** [key in v] for a literal key: key membership on a dict, element
    membership on a list, substring test on a string; other JSON values
    are not containers. *)
Definition contains (v : pyval) (key : string) : res bool :=
  match v with
  | PDict d => Ok (bool_decide (is_Some (d !! key)))
  | PList l => Ok (existsb (fun x => eq_str x (u key)) l)
  | PStr s => Ok (str_contains s (u key))
  | _ => Raise TypeError
  end.

(** [d[key]] on a dict. *)
Definition dict_getitem (d : pydict) (key : string) : res pyval :=
  match d !! key with
  | Some v => Ok v
  | None => Raise KeyError
  end.

(** [v[key]] for a [str] key: lists and strings take integer indices only. *)
Definition getitem (v : pyval) (key : string) : res pyval :=
  match v with
  | PDict d => dict_getitem d key
  | _ => Raise TypeError
  end.

(** [v[key] = x] for a [str] key. *)
Definition setitem (v : pyval) (key : string) (x : pyval) : res pyval :=
  match v with
  | PDict d => Ok (PDict (<[key := x]> d))
  | _ => Raise TypeError
  end.

(** [int(v)] *)
Definition int_ (v : pyval) : res Z :=
  match v with
  | PInt z => Ok z
  | PBool b => Ok (if b then 1 else 0)
  | PFloat f => int_of_float f
  | PStr s => int_of_str s
  | PNone | PList _ | PDict _ | PDatetime _ => Raise TypeError
  end.

(** [v.strip()]: only strings have the method. *)
Definition strip_ (v : pyval) : res str :=
  match v with
  | PStr s => Ok (strip s)
  | _ => Raise AttributeError
  end.

(** [v.lower()] *)
Definition lower_ (v : pyval) : res str :=
  match v with
  | PStr s => Ok (lower s)
  | _ => Raise AttributeError
  end.

(** [max(l)] of a non-empty list of integers, first element apart. *)
Definition max_list (x : Z) (l : list Z) : Z := fold_left Z.max l x.

End Py.
Export Py.

(** ** The program *)

Module App.

(** *** The MongoDB driver *)

(** A bson [ObjectId]: twelve bytes, known by the number that they write
    in base 256. *)
Inductive ObjectId : Type := Oid (value : N).

Fixpoint chars_of_hex (d : Hexadecimal.uint) : str :=
  match d with
  | Hexadecimal.Nil => []
  | Hexadecimal.D0 r => ord "0" :: chars_of_hex r
  | Hexadecimal.D1 r => ord "1" :: chars_of_hex r
  | Hexadecimal.D2 r => ord "2" :: chars_of_hex r
  | Hexadecimal.D3 r => ord "3" :: chars_of_hex r
  | Hexadecimal.D4 r => ord "4" :: chars_of_hex r
  | Hexadecimal.D5 r => ord "5" :: chars_of_hex r
  | Hexadecimal.D6 r => ord "6" :: chars_of_hex r
  | Hexadecimal.D7 r => ord "7" :: chars_of_hex r
  | Hexadecimal.D8 r => ord "8" :: chars_of_hex r
  | Hexadecimal.D9 r => ord "9" :: chars_of_hex r
  | Hexadecimal.Da r => ord "a" :: chars_of_hex r
  | Hexadecimal.Db r => ord "b" :: chars_of_hex r
  | Hexadecimal.Dc r => ord "c" :: chars_of_hex r
  | Hexadecimal.Dd r => ord "d" :: chars_of_hex r
  | Hexadecimal.De r => ord "e" :: chars_of_hex r
  | Hexadecimal.Df r => ord "f" :: chars_of_hex r
  end.

(** [str(oid)]: the twelve bytes in hexadecimal, 24 digits in lower case. *)
Definition str_of_ObjectId (o : ObjectId) : str :=
  match o with
  | Oid value =>
      let digits := chars_of_hex (N.to_hex_uint value) in
      replicate (24 - length digits) (ord "0") ++ digits
  end.

(** A document read from the collection: its [_id] and its other fields. *)
Record document : Type := Document {
  doc_id : ObjectId;
  doc_fields : pydict;
}.

(** What the program calls in pymongo and bson.  The state of the database
    server and of the network is the [Collection] value; every call returns
    the next one, with a result or an exception. *)
Record Driver : Type := {
  Collection : Type;
  (* MongoClient(uri), the ping and the lookup of student_db.students *)
  MongoClient : str -> res Collection;
  (* ObjectId(student_id) *)
  new_ObjectId : str -> res ObjectId;
  (* collection.insert_one(doc).inserted_id *)
  insert_one : Collection -> pydict -> Collection * res ObjectId;
  (* list(collection.find()) *)
  find : Collection -> Collection * res (list document);
  (* collection.find_one({"_id": oid}) *)
  find_one : Collection -> ObjectId -> Collection * res (option document);
  (* collection.delete_one({"_id": oid}).deleted_count *)
  delete_one : Collection -> ObjectId -> Collection * res Z;
  (* the documents yielded by collection.find({"name": {"$regex": r, "$options": o}}) *)
  find_regex : Collection -> str -> str -> Collection * res (list document);
}.

Section Program.

Context (D : Driver).

(** *** Process state *)

(** The module-level variables that the functions read and write. *)
Record world : Type := World {
  DB_CONNECTED : bool;
  students_collection : option (Collection D);
  SAMPLE_STUDENTS : list pydict;
}.

Definition set_collection (w : world) (c : Collection D) : world :=
  World (DB_CONNECTED w) (Some c) (SAMPLE_STUDENTS w).

Definition set_samples (w : world) (l : list pydict) : world :=
  World (DB_CONNECTED w) (students_collection w) l.

(** [DB_CONNECTED and students_collection is not None] *)
Definition connected (w : world) : option (Collection D) :=
  if DB_CONNECTED w then students_collection w else None.

(** [connect_to_mongodb()]: the collection and the connected flag. *)
Definition connect_to_mongodb (MONGO_URI : option str)
  : option (Collection D) * bool :=
  match MONGO_URI with
  | None => (None, false)
  | Some uri =>
      if negb (truthy (PStr uri)) then (None, false)
      else
        match MongoClient D uri with
        | Ok c => (Some c, true)
        | Raise _ => (None, false)
        end
  end.

Definition sample (id name : string) (age : Z) : pydict :=
  {[ "_id" := PStr (u id); "name" := PStr (u name); "age" := PInt age ]}.

(** The state of the process once the module is loaded. *)
Definition initial_world (MONGO_URI : option str) : world :=
  let '(collection, ok) := connect_to_mongodb MONGO_URI in
  {| DB_CONNECTED := ok;
     students_collection := collection;
     SAMPLE_STUDENTS :=
       [ sample "1" "John Doe" 20;
         sample "2" "Jane Smith" 22;
         sample "3" "Alice Johnson" 19;
         sample "4" "Bob Wilson" 21 ] |}.

(** *** Record store *)

(** [int(s["_id"])] *)
Definition sample_number (s : pydict) : res Z :=
  v ← dict_getitem s "_id"; int_ v.

Definition get_next_sample_id (samples : list pydict) : res str :=
  match samples with
  | [] => Ok (u "1")
  | _ =>
      ids ← res_mapM sample_number samples;
      match ids with
      | [] => Raise ValueError
      | i :: r => str_of_int (max_list i r + 1)
      end
  end.

(** The body of [add_student]; its [except] clause logs and re-raises, so
    the function is its body. *)
Definition add_student (data : pyval) (now : datetime) (w : world)
  : world * res pydict :=
  match (name ← getitem data "name"; age ← getitem data "age"; Ok (name, age)) with
  | Raise e => (w, Raise e)
  | Ok (name, age) =>
      let student : pydict :=
        {[ "name" := name; "age" := age; "created_at" := PDatetime now ]} in
      match connected w with
      | Some collection =>
          let '(collection', r) := insert_one D collection student in
          (set_collection w collection',
           inserted_id ← r;
           Ok (<["_id" := PStr (str_of_ObjectId inserted_id)]> student))
      | None =>
          match get_next_sample_id (SAMPLE_STUDENTS w) with
          | Raise e => (w, Raise e)
          | Ok id =>
              let student := <["_id" := PStr id]> student in
              let student := <["created_at" := PStr (isoformat now)]> student in
              (set_samples w (SAMPLE_STUDENTS w ++ [student]), Ok student)
          end
      end
  end.

(** [{"_id": str(student["_id"]), "name": student["name"], "age": student["age"]}] *)
Definition project (student : document) : res pydict :=
  name ← dict_getitem (doc_fields student) "name";
  age ← dict_getitem (doc_fields student) "age";
  Ok ({[ "_id" := PStr (str_of_ObjectId (doc_id student));
         "name" := name; "age" := age ]} : pydict).

Definition get_students (w : world) : world * res (list pydict) :=
  match connected w with
  | Some collection =>
      let '(collection', r) := find D collection in
      let w' := set_collection w collection' in
      match r ≫= res_mapM project with
      | Ok students => (w', Ok students)
      | Raise _ => (w', Ok (SAMPLE_STUDENTS w'))
      end
  | None => (w, Ok (SAMPLE_STUDENTS w))
  end.

(** [next((s for s in samples if s["_id"] == student_id), None)] *)
Fixpoint next_by_id (samples : list pydict) (student_id : str)
  : res (option pydict) :=
  match samples with
  | [] => Ok None
  | s :: r =>
      match dict_getitem s "_id" with
      | Raise e => Raise e
      | Ok v => if eq_str v student_id then Ok (Some s) else next_by_id r student_id
      end
  end.

Definition get_student_by_id (student_id : str) (w : world)
  : world * res (option pydict) :=
  match connected w with
  | Some collection =>
      match new_ObjectId D student_id with
      | Raise _ => (w, next_by_id (SAMPLE_STUDENTS w) student_id)
      | Ok oid =>
          let '(collection', r) := find_one D collection oid in
          let w' := set_collection w collection' in
          match r with
          | Raise _ => (w', next_by_id (SAMPLE_STUDENTS w') student_id)
          | Ok None => (w', Ok None)
          | Ok (Some student) =>
              (w', Ok (Some (<["_id" := PStr (str_of_ObjectId (doc_id student))]>
                               (doc_fields student))))
          end
      end
  | None =>
      match next_by_id (SAMPLE_STUDENTS w) student_id with
      | Ok r => (w, Ok r)
      | Raise _ => (w, next_by_id (SAMPLE_STUDENTS w) student_id)
      end
  end.

Definition deleted : pydict :=
  {[ "message" := PStr (u "Student deleted successfully") ]}.
Definition error (msg : string) : pydict := {[ "error" := PStr (u msg) ]}.

(** [samples.remove(x)] for the [x] that [next] found: the first element
    equal to [x] is [x] itself, the first one whose [_id] is the wanted one
    (an equal dict before it would have the same [_id] and would have been
    the one found). *)
Fixpoint remove_found (samples : list pydict) (student_id : str) : list pydict :=
  match samples with
  | [] => []
  | s :: r =>
      match dict_getitem s "_id" with
      | Ok v => if eq_str v student_id then r else s :: remove_found r student_id
      | Raise _ => s :: r
      end
  end.

Definition delete_student (student_id : str) (w : world) : world * pydict :=
  match connected w with
  | Some collection =>
      match new_ObjectId D student_id with
      | Raise _ => (w, error "Failed to delete student")
      | Ok oid =>
          let '(collection', r) := delete_one D collection oid in
          let w' := set_collection w collection' in
          match r with
          | Raise _ => (w', error "Failed to delete student")
          | Ok deleted_count =>
              if 0 <? deleted_count then (w', deleted)
              else (w', error "Student not found")
          end
      end
  | None =>
      match next_by_id (SAMPLE_STUDENTS w) student_id with
      | Raise _ => (w, error "Failed to delete student")
      | Ok None => (w, error "Student not found")
      | Ok (Some student_to_remove) =>
          if truthy (PDict student_to_remove) then
            (set_samples w (remove_found (SAMPLE_STUDENTS w) student_id), deleted)
          else (w, error "Student not found")
      end
  end.

(** [name.lower() in s["name"].lower()] *)
Definition name_matches (name : str) (s : pydict) : res bool :=
  v ← dict_getitem s "name";
  n ← lower_ v;
  Ok (str_contains n (lower name)).

Definition search_samples (name : str) (samples : list pydict)
  : res (list pydict) :=
  res_filter (name_matches name) samples.

Definition search_students_by_name (name : str) (w : world)
  : world * res (list pydict) :=
  match connected w with
  | Some collection =>
      let '(collection', r) :=
        find_regex D collection (u ".*" ++ name ++ u ".*") (u "i") in
      let w' := set_collection w collection' in
      match r ≫= res_mapM project with
      | Ok students => (w', Ok students)
      | Raise _ => (w', search_samples name (SAMPLE_STUDENTS w'))
      end
  | None =>
      match search_samples name (SAMPLE_STUDENTS w) with
      | Ok students => (w, Ok students)
      | Raise _ => (w, search_samples name (SAMPLE_STUDENTS w))
      end
  end.

(** *** Route handlers *)

(** A response: the value given to [jsonify] and the status code. *)
Definition response : Type := pyval * Z.

Definition jsonify_error (msg : string) (status : Z) : response :=
  (PDict (error msg), status).

(** ["name" not in data or "age" not in data] *)
Definition missing_fields (data : pyval) : res bool :=
  has_name ← contains data "name";
  if negb has_name then Ok true
  else has_age ← contains data "age"; Ok (negb has_age).

(** The inner [try] block of [add], up to its [except]: either the
    response of the [return] in it, or [data] after [data["age"] = age]. *)
Definition validate_age (data : pyval) : res (response + pyval) :=
  v ← getitem data "age";
  age ← int_ v;
  if (age <? 0) || (150 <? age) then
    Ok (inl (jsonify_error "Age must be between 0 and 150" 400))
  else
    data' ← setitem data "age" (PInt age);
    Ok (inr data').

(** [not data["name"].strip()] *)
Definition name_is_blank (data : pyval) : res bool :=
  v ← getitem data "name";
  s ← strip_ v;
  Ok (negb (truthy (PStr s))).

(** POST /students.  [request_json] is what [request.get_json()] gives,
    [now] what [datetime.utcnow()] gives. *)
Definition add (request_json : res pyval) (now : datetime) (w : world)
  : world * response :=
  let failed := jsonify_error "Failed to add student" 500 in
  match request_json with
  | Raise _ => (w, failed)
  | Ok data =>
      if negb (truthy data) then (w, jsonify_error "No JSON data provided" 400)
      else
        match missing_fields data with
        | Raise _ => (w, failed)
        | Ok true =>
            (w, jsonify_error "Missing required fields: 'name' and 'age'" 400)
        | Ok false =>
            match validate_age data with
            | Raise ValueError | Raise TypeError =>
                (w, jsonify_error "Age must be a valid number" 400)
            | Raise _ => (w, failed)
            | Ok (inl early) => (w, early)
            | Ok (inr data) =>
                match name_is_blank data with
                | Raise _ => (w, failed)
                | Ok true => (w, jsonify_error "Name cannot be empty" 400)
                | Ok false =>
                    match add_student data now w with
                    | (w', Raise _) => (w', failed)
                    | (w', Ok student) => (w', (PDict student, 201))
                    end
                end
            end
        end
  end.

(** GET /students *)
Definition get_all (w : world) : world * response :=
  match get_students w with
  | (w', Ok students) => (w', (PList (PDict <$> students), 200))
  | (w', Raise _) => (w', jsonify_error "Failed to retrieve students" 500)
  end.

(** GET /students/<student_id> *)
Definition get_by_id (student_id : str) (w : world) : world * response :=
  match get_student_by_id student_id w with
  | (w', Ok (Some student)) =>
      if truthy (PDict student) then (w', (PDict student, 200))
      else (w', jsonify_error "Student not found" 404)
  | (w', Ok None) => (w', jsonify_error "Student not found" 404)
  | (w', Raise _) => (w', jsonify_error "Failed to retrieve student" 500)
  end.

(** DELETE /students/<student_id> *)
Definition delete (student_id : str) (w : world) : world * response :=
  let '(w', result) := delete_student student_id w in
  match contains (PDict result) "error" with
  | Ok true => (w', (PDict result, 404))
  | Ok false => (w', (PDict result, 200))
  | Raise _ => (w', jsonify_error "Failed to delete student" 500)
  end.

(** GET /students/name/<name> *)
Definition get_by_name (name : str) (w : world) : world * response :=
  match search_students_by_name name w with
  | (w', Ok students_list) =>
      if truthy (PList (PDict <$> students_list)) then
        (w', (PList (PDict <$> students_list), 200))
      else (w', jsonify_error "No students found with the given name" 404)
  | (w', Raise _) => (w', jsonify_error "Failed to search students" 500)
  end.

(** *** The service as a transition system *)

Inductive request : Type :=
| POST_students (request_json : res pyval) (now : datetime)
| GET_students
| GET_student (student_id : str)
| DELETE_student (student_id : str)
| GET_students_name (name : str).

Definition handle (rq : request) (w : world) : world * response :=
  match rq with
  | POST_students request_json now => add request_json now w
  | GET_students => get_all w
  | GET_student student_id => get_by_id student_id w
  | DELETE_student student_id => delete student_id w
  | GET_students_name name => get_by_name name w
  end.

(** The requests of a process, served one after the other. *)
Fixpoint serve (rqs : list request) (w : world) : world * list response :=
  match rqs with
  | [] => (w, [])
  | rq :: rest =>
      let '(w1, r) := handle rq w in
      let '(w2, rs) := serve rest w1 in
      (w2, r :: rs)
  end.

(** The [_id] that a Create answered, if the exchange is a successful
    Create. *)
Definition issued_id (rq : request) (r : response) : option str :=
  match rq, r with
  | POST_students _ _, (PDict student, 201) =>
      match student !! "_id" with
      | Some (PStr id) => Some id
      | _ => None
      end
  | _, _ => None
  end.

(** The ids returned by the Creates among the requests served from [w]. *)
Fixpoint issued_ids (rqs : list request) (w : world) : list str :=
  match rqs with
  | [] => []
  | rq :: rest =>
      let '(w1, r) := handle rq w in
      match issued_id rq r with
      | Some id => id :: issued_ids rest w1
      | None => issued_ids rest w1
      end
  end.

End Program.

End App.

(** ** Vocabulary of the specification *)

Module Spec.
Import App.

(** The white space of Python strings, one code point after the other. *)
Definition white_space : list N :=
  [ 0x9; 0xA; 0xB; 0xC; 0xD; 0x1C; 0x1D; 0x1E; 0x1F; 0x20; 0x85; 0xA0;
    0x1680; 0x2000; 0x2001; 0x2002; 0x2003; 0x2004; 0x2005; 0x2006; 0x2007;
    0x2008; 0x2009; 0x200A; 0x2028; 0x2029; 0x202F; 0x205F; 0x3000 ]%N.

(** A name is blank when it has white space only (the empty name is). *)
Fixpoint whitespace_only (s : str) : Prop :=
  match s with
  | [] => True
  | c :: r => c ∈ white_space /\ whitespace_only r
  end.

(** A string of ASCII text. *)
Definition is_ascii (s : str) : Prop := Forall (fun c => (c < 128)%N) s.

(** The lower case of ASCII: the capital letters A to Z (65 to 90) become
    the small ones, 32 further. *)
Definition ascii_lower (c : N) : N :=
  if (65 <=? c)%N && (c <=? 90)%N then (c + 32)%N else c.

(** Two code points that are the same letter, whatever their case: the
    same code point, or one of the capital letters A to Z (65 to 90) and its
    small letter, 32 further. *)
Definition same_letter (a b : N) : Prop :=
  a = b \/
  ((65 <= a <= 90)%N /\ b = (a + 32)%N) \/
  ((65 <= b <= 90)%N /\ a = (b + 32)%N).

Fixpoint same_ignoring_case (s t : str) : Prop :=
  match s, t with
  | [], [] => True
  | a :: s', b :: t' => same_letter a b /\ same_ignoring_case s' t'
  | _, _ => False
  end.

(** [name] contains [query] as a substring, ignoring case: some stretch of
    [name] is [query] letter for letter. *)
Definition contains_ignoring_case (name query : str) : Prop :=
  exists before stretch after : str,
    name = before ++ stretch ++ after /\ same_ignoring_case stretch query.

(** [name] contains [query] once both are put in lower case. *)
Definition contains_lowered (name query : str) : Prop :=
  exists before after : str, lower name = before ++ lower query ++ after.

(** [kept P l l']: [l'] is [l] with exactly the elements that satisfy [P],
    in the same order. *)
Inductive kept {A : Type} (P : A -> Prop) : list A -> list A -> Prop :=
| kept_nil : kept P [] []
| kept_yes x l l' : P x -> kept P l l' -> kept P (x :: l) (x :: l')
| kept_no x l l' : ~ P x -> kept P l l' -> kept P (x :: l) l'.

(** The student's name contains the query, ignoring case. *)
Definition name_contains (query : str) (s : pydict) : Prop :=
  exists n, s !! "name" = Some (PStr n) /\ contains_ignoring_case n query.

(** The student's name contains the query, both in lower case. *)
Definition name_contains_lowered (query : str) (s : pydict) : Prop :=
  exists n, s !! "name" = Some (PStr n) /\ contains_lowered n query.

(** The record has a string [name] of ASCII text. *)
Definition ascii_named (s : pydict) : Prop :=
  exists n, s !! "name" = Some (PStr n) /\ is_ascii n.

(** The [_id] of a stored record, when it is a string. *)
Definition sample_id (s : pydict) : option str :=
  match s !! "_id" with
  | Some (PStr id) => Some id
  | _ => None
  end.

Definition sample_ids (samples : list pydict) : list str :=
  omap sample_id samples.

(** [r] is the first record of [samples] whose [_id] is [id], and nothing
    when no record has that [_id]. *)
Definition first_with_id (id : str) (samples : list pydict)
    (r : option pydict) : Prop :=
  match r with
  | Some s =>
      exists before after,
        samples = before ++ s :: after /\ sample_id s = Some id /\
        id ∉ sample_ids before
  | None => id ∉ sample_ids samples
  end.

(** The record has a string [_id] that reads as an integer. *)
Definition numbered (s : pydict) : Prop :=
  exists id z, s !! "_id" = Some (PStr id) /\ int_of_str id = Ok z.

(** The record has a string [name]. *)
Definition named (s : pydict) : Prop :=
  exists n, s !! "name" = Some (PStr n).

(** Records as the program stores them. *)
Definition stored (s : pydict) : Prop := numbered s /\ named s.

(** The invariant of the fallback list: stored records, no [_id] twice. *)
Definition consistent (samples : list pydict) : Prop :=
  Forall stored samples /\ NoDup (sample_ids samples).

(** The number of decimal digits that write the integer [z]. *)
Definition decimal_digits (z : Z) : nat :=
  match Z.to_int z with
  | Decimal.Pos d | Decimal.Neg d => Decimal.nb_digits d
  end.

(** There is room after the record: the integer after its [_id] has no
    more than the 4300 digits that [str] prints. *)
Definition room (s : pydict) : Prop :=
  forall id z, s !! "_id" = Some (PStr id) -> int_of_str id = Ok z ->
               Z.of_nat (decimal_digits (z + 1)) <= 4300.

(** [m] is the greatest of the integers [l]. *)
Definition greatest (m : Z) (l : list Z) : Prop :=
  m ∈ l /\ Forall (fun k => k <= m) l.

(** The record that a Create stores in the fallback list and answers. *)
Definition created (id name : str) (age : Z) (now : datetime) : pydict :=
  {[ "_id" := PStr id; "name" := PStr name; "age" := PInt age;
     "created_at" := PStr (isoformat now) ]}.

(** The document handed to [insert_one]. *)
Definition new_document (name : str) (age : Z) (now : datetime) : pydict :=
  {[ "name" := PStr name; "age" := PInt age; "created_at" := PDatetime now ]}.

(** A JSON number that lies outside the interval from 0 to 150. *)
Definition outside_range (v : pyval) : Prop :=
  match v with
  | PInt z => z < 0 \/ 150 < z
  | PFloat (FFinite m e) =>
      m < 0 \/ (0 <= e /\ 150 < m * 2 ^ e) \/ (e < 0 /\ 150 * 2 ^ (- e) < m)
  | PFloat (FInf _) => True
  | _ => False
  end.

(** The ids of the records that the module starts with. *)
Definition seeded_ids : list str := [u "1"; u "2"; u "3"; u "4"].

End Spec.

(** ** Example drivers and states *)

Module Examples.
Import App.

(** bson's reading of an id: 24 hexadecimal digits. *)
Definition hex_value (c : N) : option N :=
  if is_digit c then Some (c - 48)%N
  else if (97 <=? c)%N && (c <=? 102)%N then Some (c - 87)%N
  else if (65 <=? c)%N && (c <=? 70)%N then Some (c - 55)%N
  else None.

Fixpoint hex_number (acc : N) (s : str) : option N :=
  match s with
  | [] => Some acc
  | c :: r => d ← hex_value c; hex_number (16 * acc + d)%N r
  end.

Definition ObjectId_of_str (s : str) : res ObjectId :=
  if (length s =? 24)%nat then
    match hex_number 0 s with
    | Some n => Ok (Oid n)
    | None => Raise DriverError
    end
  else Raise DriverError.

Definition same_oid (a b : ObjectId) : bool :=
  match a, b with Oid x, Oid y => (x =? y)%N end.

(** No server answers: every call raises. *)
Definition offline : Driver := {|
  Collection := unit;
  MongoClient := fun _ => Raise DriverError;
  new_ObjectId := fun _ => Raise DriverError;
  insert_one := fun c _ => (c, Raise DriverError);
  find := fun c => (c, Raise DriverError);
  find_one := fun c _ => (c, Raise DriverError);
  delete_one := fun c _ => (c, Raise DriverError);
  find_regex := fun c _ _ => (c, Raise DriverError);
|}.

(** The connection was made, then the server went away: ids are still
    built, every call on the collection raises. *)
Definition unreachable : Driver := {|
  Collection := unit;
  MongoClient := fun _ => Ok tt;
  new_ObjectId := ObjectId_of_str;
  insert_one := fun c _ => (c, Raise DriverError);
  find := fun c => (c, Raise DriverError);
  find_one := fun c _ => (c, Raise DriverError);
  delete_one := fun c _ => (c, Raise DriverError);
  find_regex := fun c _ _ => (c, Raise DriverError);
|}.

(** A collection kept in memory, the documents in insertion order; ids are
    the count of the inserts so far. *)
Definition memory : Driver := {|
  Collection := nat * list document;
  MongoClient := fun _ => Ok (0%nat, []);
  new_ObjectId := ObjectId_of_str;
  insert_one := fun c d =>
    let oid := Oid (N.of_nat (fst c)) in
    ((S (fst c), snd c ++ [Document oid d]), Ok oid);
  find := fun c => (c, Ok (snd c));
  find_one := fun c oid =>
    (c, Ok (List.find (fun d => same_oid (doc_id d) oid) (snd c)));
  delete_one := fun c oid =>
    let keep d := negb (same_oid (doc_id d) oid) in
    ((fst c, List.filter keep (snd c)),
     Ok (Z.of_nat (length (snd c)) - Z.of_nat (length (List.filter keep (snd c)))));
  find_regex := fun c _ _ => (c, Ok (snd c));
|}.

Definition noon : datetime := Datetime (u "2024-05-01T12:00:00").

(** The process started without MONGO_URI. *)
Definition fallback_world : world offline := initial_world offline None.

(** A process that connected, with the seeded fallback list. *)
Definition lost_world : world unreachable :=
  initial_world unreachable (Some (u "mongodb://db")).

Definition memory_world : world memory :=
  initial_world memory (Some (u "mongodb://db")).

(** A process on the collection in memory, which holds one document. *)
Definition stocked_world : world memory :=
  set_collection memory memory_world
    (1%nat,
     [ Document (Oid 0)
         {[ "name" := PStr (u "Jane Smith"); "age" := PInt 22;
            "created_at" := PDatetime noon ]} ]).

Definition john : pydict :=
  {[ "name" := PStr (u "John Doe"); "age" := PInt 25 ]}.

(** The age -0.5, that is -1 * 2^-1. *)
Definition minus_half : pyval := PFloat (FFinite (-1) (-1)).

Definition jane (age : pyval) : pydict :=
  {[ "name" := PStr (u "Jane Doe"); "age" := age ]}.

(** The request body with the two fields. *)
Definition body (name age : pyval) : pydict :=
  {[ "name" := name; "age" := age ]}.

(** A well-formed ObjectId string, and the ObjectId that it writes. *)
Definition some_oid : str := u "507f1f77bcf86cd799439011".
Definition some_ObjectId : ObjectId := Oid 0x507f1f77bcf86cd799439011.

(** The Greek words ΑΣΑ and ΑΣ, in capital letters: alpha, sigma, alpha. *)
Definition asa : str := [0x391; 0x3A3; 0x391]%N.
Definition as_ : str := [0x391; 0x3A3]%N.

(** A fallback list whose one record is named ΑΣΑ. *)
Definition greek_world : world offline :=
  set_samples offline fallback_world
    [ {[ "_id" := PStr (u "1"); "name" := PStr asa; "age" := PInt 30 ]} ].

End Examples.

(** ** The status routes *)

Module Status.
Import App.

Section Routes.

Context (D : Driver).

(** [db.command('ping')] on the database of the connection. *)
Variable ping : Collection D -> Collection D * res unit.

(** [str(e)] for a caught exception. *)
Variable str_of_exn : exn -> str.

(** [bool(MONGO_URI)]: the variable is set, and not to the empty string. *)
Definition secret_configured (MONGO_URI : option str) : bool :=
  match MONGO_URI with
  | Some uri => truthy (PStr uri)
  | None => false
  end.

Definition endpoints : pydict :=
  {[ "GET /students" := PStr (u "Get all students");
     "POST /students" := PStr (u "Add new student (requires: name, age)");
     "GET /students/{id}" := PStr (u "Get student by ID");
     "DELETE /students/{id}" := PStr (u "Delete student by ID");
     "GET /students/name/{name}" := PStr (u "Search students by name");
     "GET /health" := PStr (u "Health check for CI/CD monitoring") ]}.

(** The body that [home] answers. *)
Definition welcome (db_status : string) (total_students : Z)
    (MONGO_URI : option str) (now : datetime) : pydict :=
  {[ "message" := PStr (u "Welcome to the Student Management System API!");
     "status" := PStr (u "operational");
     "database_status" := PStr (u db_status);
     "total_students" := PInt total_students;
     "secret_configured" := PBool (secret_configured MONGO_URI);
     "timestamp" := PStr (isoformat now);
     "endpoints" := PDict endpoints ]}.

(** GET / *)
Definition home (MONGO_URI : option str) (now : datetime) (w : world D)
  : world D * response :=
  let db_status :=
    if DB_CONNECTED D w then "Connected via GitHub/Jenkins Secrets"%string
    else "Using Sample Data (No MongoDB Secret)"%string in
  match get_students D w with
  | (w', Ok students) =>
      (w', (PDict (welcome db_status (Z.of_nat (length students)) MONGO_URI now),
            200))
  | (w', Raise _) => (w', jsonify_error "Internal server error" 500)
  end.

(** The body that [health_check] answers from its [try] block. *)
Definition healthy (db_status : string) (total_students : Z)
    (MONGO_URI : option str) (now : datetime) : pydict :=
  {[ "status" := PStr (u "healthy");
     "database" := PStr (u db_status);
     "mongo_secret_configured" := PBool (secret_configured MONGO_URI);
     "timestamp" := PStr (isoformat now);
     "total_students" := PInt total_students;
     "ready_for_deployment" := PBool true ]}.

(** The body that [health_check] answers from its [except] clause. *)
Definition degraded (e : exn) (now : datetime) : pydict :=
  {[ "status" := PStr (u "healthy_with_fallback");
     "database" := PStr (u "fallback_mode");
     "error" := PStr (str_of_exn e);
     "timestamp" := PStr (isoformat now) ]}.

(** GET /health *)
Definition health_check (MONGO_URI : option str) (now : datetime)
    (w : world D) : world D * response :=
  let report (w1 : world D) (db_status : string) : world D * response :=
    match get_students D w1 with
    | (w2, Ok students) =>
        (w2, (PDict (healthy db_status (Z.of_nat (length students)) MONGO_URI now),
              200))
    | (w2, Raise e) => (w2, (PDict (degraded e now), 200))
    end in
  match connected D w with
  | Some collection =>
      let '(collection', r) := ping collection in
      match r with
      | Ok _ => report (set_collection D w collection') "connected_via_secrets"%string
      | Raise e => (set_collection D w collection', (PDict (degraded e now), 200))
      end
  | None => report w "fallback_mode_no_secret"%string
  end.

End Routes.

End Status.

(** ** More example states *)

Module Fixtures.
Import App.

(** A list with a record whose [_id] does not read as an integer. *)
Definition odd_world : world Examples.offline :=
  set_samples Examples.offline Examples.fallback_world
    [ sample "1" "John Doe" 20; sample "abc" "Jane Smith" 22 ].

(** A collection with a document that has no [name]. *)
Definition nameless_world : world Examples.memory :=
  set_collection Examples.memory Examples.memory_world
    (1%nat, [ Document (Oid 0) {[ "age" := PInt 30 ]} ]).

(** Pings that succeed, and pings that raise. *)
Definition ping_ok (c : unit) : unit * res unit := (c, Ok tt).
Definition ping_lost (c : unit) : unit * res unit := (c, Raise DriverError).

Definition exn_text (e : exn) : str := u "connection lost".

(** A collection whose ids are 24 hexadecimal digits, that finds and
    deletes nothing and takes no insert. *)
Definition strict : Driver := {|
  Collection := list document;
  MongoClient := fun _ => Ok [];
  new_ObjectId := Examples.ObjectId_of_str;
  insert_one := fun c d => (c, Raise DriverError);
  find := fun c => (c, Ok c);
  find_one := fun c oid => (c, Ok None);
  delete_one := fun c oid => (c, Ok 0);
  find_regex := fun c _ _ => (c, Ok c);
|}.

Definition strict_world : world strict :=
  initial_world strict (Some (u "mongodb://db")).

(** A body without [name]. *)
Definition only_age : pydict := {[ "age" := PInt 25 ]}.

(** The requests of a short session. *)
Definition session : list request :=
  [ POST_students (Ok (PDict Examples.john)) Examples.noon;
    DELETE_student (u "2");
    GET_students ].

End Fixtures.

Import App Spec Examples Status Fixtures.

(** [x ∉ [a; b; ...]] for distinct literals. *)
Ltac absent :=
  repeat (apply not_elem_of_cons; split; [discriminate|]); apply not_elem_of_nil.

(** [same_ignoring_case s t] for two literals. *)
Ltac same_case :=
  cbn; repeat split;
  first [ left; reflexivity
        | right; left; split; [lia | reflexivity]
        | right; right; split; [lia | reflexivity] ].

(** ** Facts about the Python primitives *)

(** *** Printing and reading integers *)

Lemma is_digit_cases c :
  is_digit c = true ->
  to_ascii c = c /\ is_ascii_space c = false /\ (c =? ord "_")%N = false /\
  (c =? ord "-")%N = false /\ (c =? ord "+")%N = false.
Proof.
  unfold is_digit, to_ascii, is_ascii_space.
  change (ord "_") with 95%N. change (ord "-") with 45%N. change (ord "+") with 43%N.
  rewrite andb_true_iff, !N.leb_le. intros [H1 H2].
  replace (c <? 127)%N with true by (symmetry; apply N.ltb_lt; lia).
  replace (c <=? 13)%N with false by (symmetry; apply N.leb_gt; lia).
  rewrite andb_false_r.
  replace (c =? 32)%N with false by (symmetry; apply N.eqb_neq; lia).
  replace (c =? 95)%N with false by (symmetry; apply N.eqb_neq; lia).
  replace (c =? 45)%N with false by (symmetry; apply N.eqb_neq; lia).
  replace (c =? 43)%N with false by (symmetry; apply N.eqb_neq; lia).
  auto.
Qed.

Lemma chars_of_uint_digits d : forallb is_digit (chars_of_uint d) = true.
Proof. induction d; cbn; auto. Qed.

Lemma chars_of_uint_length d : length (chars_of_uint d) = Decimal.nb_digits d.
Proof. induction d; cbn; auto. Qed.

Lemma uint_of_chars_of_uint d : uint_of_chars (chars_of_uint d) = Some d.
Proof. induction d; cbn; [reflexivity | rewrite IHd; reflexivity ..]. Qed.

Lemma digits_to_ascii s : forallb is_digit s = true -> to_ascii <$> s = s.
Proof.
  induction s as [|c r IH]; [reflexivity|]. rewrite fmap_cons. cbn [forallb].
  intros [Hc Hr]%andb_prop. destruct (is_digit_cases c Hc) as [-> _]. now rewrite IH.
Qed.

Lemma lstrip_with_head p c r : p c = false -> lstrip_with p (c :: r) = c :: r.
Proof. intros H. cbn. now rewrite H. Qed.

Lemma rstrip_with_none p s :
  forallb (fun c => negb (p c)) s = true -> rstrip_with p s = s.
Proof.
  induction s as [|c r IH]; cbn; [reflexivity|].
  intros [Hc Hr]%andb_prop. rewrite (IH Hr). apply negb_true_iff in Hc. rewrite Hc.
  now destruct r.
Qed.

Lemma digits_no_space s :
  forallb is_digit s = true ->
  forallb (fun c => negb (is_ascii_space c)) s = true.
Proof.
  induction s as [|c r IH]; cbn [forallb]; [reflexivity|].
  intros [Hc Hr]%andb_prop. destruct (is_digit_cases c Hc) as (_ & -> & _). cbn. auto.
Qed.

Lemma digits_underscores_ok s :
  forallb is_digit s = true -> underscores_ok true s = true.
Proof.
  induction s as [|c r IH]; cbn [forallb underscores_ok]; [reflexivity|].
  intros [Hc Hr]%andb_prop. destruct (is_digit_cases c Hc) as (_ & _ & -> & _). auto.
Qed.

Lemma digits_remove_underscores s :
  forallb is_digit s = true -> remove_underscores s = s.
Proof.
  induction s as [|c r IH]; cbn [forallb remove_underscores]; [reflexivity|].
  intros [Hc Hr]%andb_prop. destruct (is_digit_cases c Hc) as (_ & _ & -> & _).
  now rewrite IH.
Qed.

(** Reading the digits of [d], after a sign or not. *)
Lemma int_of_digits (negative : bool) d :
  d <> Decimal.Nil ->
  int_of_str ((if negative then [ord "-"] else []) ++ chars_of_uint d) =
    if max_str_digits <? Z.of_nat (Decimal.nb_digits d) then Raise ValueError
    else Ok (if negative then - Z.of_uint d else Z.of_uint d).
Proof.
  intros Hd. pose proof (chars_of_uint_digits d) as Hdig.
  destruct (chars_of_uint d) as [|c r] eqn:E.
  { destruct d; cbn in E; congruence. }
  cbn [forallb] in Hdig. apply andb_prop in Hdig as [Hc Hr].
  destruct (is_digit_cases c Hc) as (Ha & Hsp & Hus & Hmi & Hpl).
  assert (Hall : forallb is_digit (c :: r) = true) by (cbn; now rewrite Hc, Hr).
  unfold int_of_str. rewrite fmap_app, (digits_to_ascii _ Hall).
  assert (Hbody : underscores_ok false (c :: r) = true).
  { cbn [underscores_ok]. rewrite Hus. now apply digits_underscores_ok. }
  destruct negative.
  - change (to_ascii <$> [ord "-"]) with [45%N]. cbn [app].
    rewrite lstrip_with_head by reflexivity.
    rewrite rstrip_with_none
      by exact (proj2 (andb_true_iff _ _) (conj eq_refl (digits_no_space _ Hall))).
    change (45 =? ord "-")%N with true. cbv iota beta.
    rewrite Hbody, (digits_remove_underscores _ Hall), <- E, uint_of_chars_of_uint.
    reflexivity.
  - cbn [fmap list_fmap app].
    rewrite lstrip_with_head by assumption.
    rewrite rstrip_with_none by (now apply digits_no_space).
    rewrite Hmi, Hpl.
    rewrite Hbody, (digits_remove_underscores _ Hall), <- E, uint_of_chars_of_uint.
    reflexivity.
Qed.

Lemma pos_to_uint_nonnil p : Pos.to_uint p <> Decimal.Nil.
Proof.
  intros H. pose proof (DecimalPos.Unsigned.of_to p) as E. rewrite H in E. discriminate.
Qed.

(** What [str] prints, [int] reads back. *)
Lemma int_of_str_of_int z s : str_of_int z = Ok s -> int_of_str s = Ok z.
Proof.
  unfold str_of_int. pose proof (DecimalZ.of_to z) as E.
  destruct z as [|p|p]; cbn [Z.to_int] in *.
  - intros [= <-]. reflexivity.
  - rewrite chars_of_uint_length.
    pose proof (int_of_digits false (Pos.to_uint p) (pos_to_uint_nonnil p)) as H.
    cbn [app] in *. cbn [Z.of_int] in E.
    destruct (max_str_digits <? _); [discriminate|]. intros [= <-]. now rewrite H, E.
  - rewrite chars_of_uint_length.
    pose proof (int_of_digits true (Pos.to_uint p) (pos_to_uint_nonnil p)) as H.
    cbv iota in H. cbn [Z.of_int] in E.
    destruct (max_str_digits <? _); [discriminate|]. intros [= <-].
    rewrite <- E. exact H.
Qed.

Lemma str_of_int_nonempty z s : str_of_int z = Ok s -> s <> [].
Proof.
  intros H ->. apply int_of_str_of_int in H. discriminate.
Qed.

(** [str] prints the integers of at most 4300 digits. *)
Lemma str_of_int_room z :
  Z.of_nat (decimal_digits z) <= 4300 -> exists s, str_of_int z = Ok s.
Proof.
  unfold decimal_digits, str_of_int, max_str_digits. intros H.
  destruct (Z.to_int z) as [d|d]; rewrite chars_of_uint_length;
    (replace (4300 <? Z.of_nat (Decimal.nb_digits d)) with false
       by (symmetry; apply Z.ltb_ge; lia)); eauto.
Qed.

(** *** White space and stripping *)

Lemma is_space_spec c : is_space c = true <-> c ∈ white_space.
Proof.
  unfold white_space. rewrite !elem_of_cons, elem_of_nil. split.
  - unfold is_space, in_ranges, whitespace. cbn [existsb fst snd].
    rewrite !orb_true_iff, !andb_true_iff, !N.leb_le. lia.
  - intros H.
    repeat (destruct H as [->|H]; [reflexivity|]). destruct H.
Qed.

Lemma whitespace_only_spec s : whitespace_only s <-> forallb is_space s = true.
Proof.
  induction s as [|c r IH]; cbn [whitespace_only forallb]; [tauto|].
  now rewrite andb_true_iff, IH, is_space_spec.
Qed.

Lemma lstrip_with_blank p s : lstrip_with p s = [] <-> forallb p s = true.
Proof.
  induction s as [|c r IH]; cbn; [tauto|].
  destruct (p c); cbn; [assumption|]. split; discriminate.
Qed.

Lemma rstrip_with_blank p s : rstrip_with p s = [] <-> forallb p s = true.
Proof.
  induction s as [|c r IH]; cbn; [tauto|].
  destruct (rstrip_with p r) eqn:E.
  - destruct (p c); cbn; [tauto|]. split; discriminate.
  - split; [discriminate|]. intros [_ H]%andb_prop. apply IH in H. discriminate.
Qed.

Lemma lstrip_with_all p s : forallb p (lstrip_with p s) = forallb p s.
Proof.
  induction s as [|c r IH]; cbn; [reflexivity|].
  destruct (p c) eqn:E; cbn; [assumption | now rewrite E].
Qed.

Lemma strip_blank s : strip s = [] <-> whitespace_only s.
Proof.
  unfold strip. now rewrite rstrip_with_blank, lstrip_with_all, whitespace_only_spec.
Qed.

(** [~ whitespace_only s] for a literal. *)
Ltac not_blank := intros H; apply strip_blank in H; vm_compute in H; discriminate.

(** *** Lower case *)

Lemma in_letters a : (65 <= a <= 90)%N -> a ∈ N.of_nat <$> seq 65 26.
Proof.
  intros H. apply list_elem_of_fmap. exists (N.to_nat a).
  split; [lia | apply elem_of_seq; lia].
Qed.

Lemma under_128 c : (c < 128)%N -> c ∈ N.of_nat <$> seq 0 128.
Proof.
  intros H. apply list_elem_of_fmap. exists (N.to_nat c).
  split; [lia | apply elem_of_seq; lia].
Qed.

(** On ASCII text [lower] maps the capital letters, code point by code
    point. *)
Lemma to_lower_ascii c :
  (c < 128)%N -> (c =? 0x3A3)%N = false /\ to_lower c = [ascii_lower c].
Proof.
  intros H%under_128.
  assert (Hall : forallb (fun c => negb (c =? 0x3A3)%N &&
                                   bool_decide (to_lower c = [ascii_lower c]))
                         (N.of_nat <$> seq 0 128) = true) by (vm_compute; reflexivity).
  rewrite forallb_forall in Hall. apply list_elem_of_In, Hall in H.
  apply andb_prop in H as [H1 H2]. apply negb_true_iff in H1.
  now apply bool_decide_eq_true in H2.
Qed.

Lemma lower_from_ascii b s : is_ascii s -> lower_from b s = ascii_lower <$> s.
Proof.
  intros H. revert b. induction H as [|c r Hc _ IH]; intros b; [reflexivity|].
  cbn [lower_from]. destruct (to_lower_ascii c Hc) as [-> ->]. now rewrite IH.
Qed.

Lemma lower_ascii s : is_ascii s -> lower s = ascii_lower <$> s.
Proof. apply lower_from_ascii. Qed.

(** A capital letter A to Z and its small letter are alike for [lower]. *)
Lemma letter_pair a :
  (65 <= a <= 90)%N ->
  (a =? 0x3A3)%N = false /\ (a + 32 =? 0x3A3)%N = false /\
  to_lower a = to_lower (a + 32) /\
  case_ignorable a = case_ignorable (a + 32) /\ cased a = cased (a + 32).
Proof.
  intros H%in_letters.
  assert (Hall : forallb (fun a =>
             negb (a =? 0x3A3)%N && negb (a + 32 =? 0x3A3)%N &&
             bool_decide (to_lower a = to_lower (a + 32)) &&
             bool_decide (case_ignorable a = case_ignorable (a + 32)) &&
             bool_decide (cased a = cased (a + 32)))
           (N.of_nat <$> seq 65 26) = true) by (vm_compute; reflexivity).
  rewrite forallb_forall in Hall. apply list_elem_of_In, Hall in H.
  repeat (apply andb_prop in H as [H ?]).
  repeat match goal with
         | X : negb _ = true |- _ => apply negb_true_iff in X
         | X : bool_decide _ = true |- _ => apply bool_decide_eq_true in X
         end.
  auto.
Qed.

Lemma same_letter_lower a b :
  same_letter a b ->
  (a =? 0x3A3)%N = (b =? 0x3A3)%N /\ to_lower a = to_lower b /\
  case_ignorable a = case_ignorable b /\ cased a = cased b.
Proof.
  intros [-> | [[H ->] | [H ->]]]; [auto | |];
    destruct (letter_pair _ H) as (H1 & H2 & H3 & H4 & H5);
    rewrite H1, H2; auto.
Qed.

Lemma same_followed s t :
  same_ignoring_case s t -> followed_by_cased s = followed_by_cased t.
Proof.
  revert t. induction s as [|a s IH]; intros [|b t];
    cbn [same_ignoring_case followed_by_cased]; try tauto.
  intros [Hab Hst]. destruct (same_letter_lower a b Hab) as (_ & _ & -> & ->).
  now rewrite (IH t Hst).
Qed.

(** Strings that differ by the case of letters A to Z only have the same
    lower case. *)
Lemma lower_same s t : same_ignoring_case s t -> lower s = lower t.
Proof.
  unfold lower. generalize false. revert t.
  induction s as [|a s IH]; intros [|b t] after; cbn [same_ignoring_case lower_from];
    try tauto.
  intros [Hab Hst]. destruct (same_letter_lower a b Hab) as (-> & -> & -> & ->).
  now rewrite (same_followed s t Hst), (IH t _ Hst).
Qed.

Lemma ascii_lower_eq a b :
  (a < 128)%N -> (b < 128)%N -> ascii_lower a = ascii_lower b -> same_letter a b.
Proof.
  unfold ascii_lower, same_letter. intros Ha Hb.
  destruct (N.leb_spec 65 a), (N.leb_spec a 90), (N.leb_spec 65 b), (N.leb_spec b 90);
    cbn [andb]; lia.
Qed.

Lemma ascii_lower_same s t :
  is_ascii s -> is_ascii t -> ascii_lower <$> s = ascii_lower <$> t ->
  same_ignoring_case s t.
Proof.
  intros Hs. revert t. induction Hs as [|a s Ha _ IH]; intros [|b t] Ht; cbn;
    try discriminate; [tauto|].
  apply Forall_cons in Ht as [Hb Ht]. intros [= Hab Hst].
  split; [now apply ascii_lower_eq | now apply IH].
Qed.

(** *** Substrings *)

Lemma startswith_spec hay needle :
  startswith hay needle = true <-> exists rest, hay = needle ++ rest.
Proof.
  revert hay. induction needle as [|a n IH]; intros hay.
  - split; [intros _; now exists hay | intros _; now destruct hay].
  - destruct hay as [|b h]; cbn [startswith].
    + split; [discriminate | intros [r H]; discriminate].
    + rewrite andb_true_iff, IH, N.eqb_eq. split.
      * intros [-> [r ->]]. now exists r.
      * intros [r [= -> ->]]. split; [reflexivity | now exists r].
Qed.

Lemma str_contains_spec hay needle :
  str_contains hay needle = true <->
  exists before after, hay = before ++ needle ++ after.
Proof.
  induction hay as [|b h IH]; cbn [str_contains].
  - rewrite orb_false_r, startswith_spec. split.
    + intros [r H]. now exists [], r.
    + intros ([|c p] & r & H); cbn in H; [now exists r | discriminate].
  - rewrite orb_true_iff, IH, startswith_spec. split.
    + intros [[r H] | (p & r & ->)].
      * now exists [], r.
      * now exists (b :: p), r.
    + intros ([|c p] & r & H); cbn in H.
      * left. now exists r.
      * right. injection H as -> ->. now exists p, r.
Qed.

(** The test of the search is containment of the lower-cased strings. *)
Lemma contains_lowered_spec name query :
  str_contains (lower name) (lower query) = true <-> contains_lowered name query.
Proof. apply str_contains_spec. Qed.

(** For ASCII text, containment of the lower-cased strings is containment
    ignoring case. *)
Lemma contains_lowered_ascii name query :
  is_ascii name -> is_ascii query ->
  contains_lowered name query <-> contains_ignoring_case name query.
Proof.
  intros Hn Hq. unfold contains_lowered, contains_ignoring_case.
  rewrite (lower_ascii name Hn). split.
  - rewrite (lower_ascii query Hq). intros (p & r & H).
    apply fmap_app_inv in H as (n1 & n23 & -> & H & ->). symmetry in H.
    apply fmap_app_inv in H as (n2 & n3 & H & -> & ->).
    exists n1, n2, n3. split; [reflexivity|].
    apply Forall_app in Hn as [_ Hn]. apply Forall_app in Hn as [Hn _].
    now apply ascii_lower_same.
  - intros (n1 & n2 & n3 & -> & H). apply lower_same in H.
    exists (ascii_lower <$> n1), (ascii_lower <$> n3).
    apply Forall_app in Hn as [_ Hn]. apply Forall_app in Hn as [Hn _].
    rewrite !fmap_app, <- H. now rewrite (lower_ascii n2 Hn).
Qed.

Lemma contains_same name query :
  same_ignoring_case name query -> contains_lowered name query.
Proof.
  intros H%lower_same. exists [], []. now rewrite H, app_nil_r.
Qed.

(** *** ObjectIds *)

Lemma chars_of_hex_inj d d' : chars_of_hex d = chars_of_hex d' -> d = d'.
Proof.
  revert d'. induction d; intros []; cbn; intros H; try discriminate;
    try reflexivity; injection H as H; f_equal; auto.
Qed.

Lemma leading_zeros k d :
  replicate k (ord "0") ++ chars_of_hex d = chars_of_hex (Nat.iter k Hexadecimal.D0 d) /\
  N.of_hex_uint (Nat.iter k Hexadecimal.D0 d) = N.of_hex_uint d.
Proof.
  induction k as [|k [IH1 IH2]]; [split; reflexivity|].
  cbn [replicate app Nat.iter chars_of_hex]. rewrite IH1. split; [reflexivity|].
  exact IH2.
Qed.

(** Two ObjectIds with the same string are the same. *)
Lemma str_of_ObjectId_inj o o' : str_of_ObjectId o = str_of_ObjectId o' -> o = o'.
Proof.
  destruct o as [n], o' as [m]. unfold str_of_ObjectId. cbv zeta.
  set (k := (24 - _)%nat). set (k' := (24 - _)%nat). intros H.
  destruct (leading_zeros k (N.to_hex_uint n)) as [E1 V1].
  destruct (leading_zeros k' (N.to_hex_uint m)) as [E2 V2].
  rewrite E1, E2 in H. apply chars_of_hex_inj in H.
  rewrite <- (Unsigned.of_to n), <- (Unsigned.of_to m), <- V1, <- V2. now rewrite H.
Qed.

Lemma str_of_ObjectId_length o : (24 <= length (str_of_ObjectId o))%nat.
Proof.
  destruct o as [n]. unfold str_of_ObjectId. cbv zeta.
  rewrite length_app, length_replicate. lia.
Qed.

(** *** The primitives at some inputs *)

(** A no-break space is white space; white space inside a name stays. *)
Lemma strip_examples :
  strip [0xA0]%N = [] /\ strip (u "  John Doe  ") = u "John Doe" /\
  strip [0x2003; 0x4A; 0x3000]%N = [0x4A]%N.
Proof. repeat split; reflexivity. Qed.

(** [int] reads white space and decimal digits of any script, a sign and
    single underscores; the separators FS to US are white space for [strip]
    and not for [int]. *)
Lemma int_examples :
  int_of_str (u " 42 ") = Ok 42 /\ int_of_str (u "-1_000") = Ok (-1000) /\
  int_of_str [0xA0; 0x35]%N = Ok 5 /\ int_of_str [0x663]%N = Ok 3 /\
  int_of_str [0x1C; 0x35]%N = Raise ValueError /\
  int_of_str (u "1__0") = Raise ValueError /\
  int_of_str (u "12a") = Raise ValueError /\
  int_of_str [] = Raise ValueError.
Proof. repeat split; reflexivity. Qed.

(** Above 4300 digits [str] raises. *)
Lemma str_of_int_limit z :
  4300 < Z.of_nat (decimal_digits z) -> str_of_int z = Raise ValueError.
Proof.
  unfold decimal_digits, str_of_int, max_str_digits. intros H.
  destruct (Z.to_int z) as [d|d]; rewrite chars_of_uint_length;
    (replace (4300 <? Z.of_nat (Decimal.nb_digits d)) with true
       by (symmetry; apply Z.ltb_lt; lia)); reflexivity.
Qed.

(** Lower case: ASCII capitals, a final sigma, the dotted capital I. *)
Lemma lower_examples :
  lower (u "Alice Johnson") = u "alice johnson" /\
  lower [0x391; 0x3A3]%N = [0x3B1; 0x3C2]%N /\
  lower [0x391; 0x3A3; 0x391]%N = [0x3B1; 0x3C3; 0x3B1]%N /\
  lower [0x130]%N = [0x69; 0x307]%N /\
  lower [0xC9; 0x10400]%N = [0xE9; 0x10428]%N.
Proof. repeat split; vm_compute; reflexivity. Qed.

(** ** The fallback list *)

Lemma str_eq_spec s t : reflect (s = t) (str_eq s t).
Proof. unfold str_eq. apply bool_decide_reflect. Qed.

Lemma str_eq_refl s : str_eq s s = true.
Proof. now destruct (str_eq_spec s s). Qed.

Lemma stored_id s :
  stored s ->
  exists id z, dict_getitem s "_id" = Ok (PStr id) /\ sample_id s = Some id /\
               int_of_str id = Ok z.
Proof.
  intros [(id & z & Hid & Hz) _]. exists id, z.
  unfold dict_getitem, sample_id. now rewrite Hid.
Qed.

Lemma sample_ids_cons s samples id :
  sample_id s = Some id -> sample_ids (s :: samples) = id :: sample_ids samples.
Proof. intros H. unfold sample_ids. cbn. now rewrite H. Qed.

Lemma sample_ids_app l1 l2 : sample_ids (l1 ++ l2) = sample_ids l1 ++ sample_ids l2.
Proof. apply omap_app. Qed.

Lemma elem_of_sample_ids id samples :
  id ∈ sample_ids samples <-> exists s, s ∈ samples /\ sample_id s = Some id.
Proof. unfold sample_ids. apply list_elem_of_omap. Qed.

Lemma next_by_id_absent samples id :
  Forall stored samples -> id ∉ sample_ids samples ->
  next_by_id samples id = Ok None.
Proof.
  induction 1 as [|s r Hs _ IH]; intros Hid; [reflexivity|].
  destruct (stored_id s Hs) as (i & z & Hg & Hi & _).
  rewrite (sample_ids_cons _ _ _ Hi) in Hid. apply not_elem_of_cons in Hid as [Hne Hr].
  cbn [next_by_id]. rewrite Hg. cbn [eq_str].
  destruct (str_eq_spec i id); [congruence | auto].
Qed.

Lemma next_by_id_present samples id :
  Forall stored samples -> id ∈ sample_ids samples ->
  exists s, next_by_id samples id = Ok (Some s) /\ s ∈ samples /\ sample_id s = Some id.
Proof.
  induction 1 as [|s r Hs _ IH]; intros Hid.
  { cbn in Hid. now apply elem_of_nil in Hid. }
  destruct (stored_id s Hs) as (i & z & Hg & Hi & _).
  rewrite (sample_ids_cons _ _ _ Hi) in Hid.
  cbn [next_by_id]. rewrite Hg. cbn [eq_str].
  destruct (str_eq_spec i id) as [->|Hne].
  - exists s. split; [reflexivity|]. split; [apply list_elem_of_here | assumption].
  - apply elem_of_cons in Hid as [->|Hid]; [congruence|].
    destruct (IH Hid) as (s' & E & Hin & Hs').
    exists s'. split; [assumption|]. split; [now apply list_elem_of_further | assumption].
Qed.

(** The scan for an id gives the first record that has it. *)
Lemma next_by_id_first samples id :
  Forall stored samples ->
  exists r, next_by_id samples id = Ok r /\ first_with_id id samples r.
Proof.
  induction 1 as [|s r Hs _ (found & E & Hfirst)].
  - exists None. split; [reflexivity | apply not_elem_of_nil].
  - destruct (stored_id s Hs) as (i & z & Hg & Hi & _).
    cbn [next_by_id]. rewrite Hg. cbn [eq_str].
    destruct (str_eq_spec i id) as [->|Hne].
    + exists (Some s). split; [reflexivity|].
      exists [], r. split; [reflexivity|]. split; [assumption | apply not_elem_of_nil].
    + exists found. split; [assumption|]. destruct found as [s'|]; cbn [first_with_id] in *.
      * destruct Hfirst as (before & after & -> & Hid & Hout).
        exists (s :: before), after. split; [reflexivity|]. split; [assumption|].
        rewrite (sample_ids_cons _ _ _ Hi). apply not_elem_of_cons. split; congruence.
      * rewrite (sample_ids_cons _ _ _ Hi). apply not_elem_of_cons. split; congruence.
Qed.

Lemma stored_truthy s : stored s -> truthy (PDict s) = true.
Proof.
  intros [(id & z & Hid & _) _]. cbn. apply negb_true_iff, bool_decide_eq_false.
  intros ->. rewrite lookup_empty in Hid. discriminate.
Qed.

Lemma remove_found_absent samples id :
  Forall stored samples -> id ∉ sample_ids samples -> remove_found samples id = samples.
Proof.
  induction 1 as [|s r Hs _ IH]; intros Hid; [reflexivity|].
  destruct (stored_id s Hs) as (i & z & Hg & Hi & _).
  rewrite (sample_ids_cons _ _ _ Hi) in Hid. apply not_elem_of_cons in Hid as [Hne Hr].
  cbn [remove_found]. rewrite Hg. cbn [eq_str].
  destruct (str_eq_spec i id); [congruence|]. now rewrite IH.
Qed.

Lemma filter_absent samples id :
  Forall stored samples -> id ∉ sample_ids samples ->
  filter (fun s => sample_id s <> Some id) samples = samples.
Proof.
  induction 1 as [|s r Hs _ IH]; intros Hid; [reflexivity|].
  destruct (stored_id s Hs) as (i & z & Hg & Hi & _).
  rewrite (sample_ids_cons _ _ _ Hi) in Hid. apply not_elem_of_cons in Hid as [Hne Hr].
  rewrite filter_cons_True by congruence. now rewrite IH.
Qed.

(** With no [_id] twice, removing the found record removes every record of
    that [_id]. *)
Lemma remove_found_filter samples id :
  Forall stored samples -> NoDup (sample_ids samples) ->
  remove_found samples id = filter (fun s => sample_id s <> Some id) samples.
Proof.
  induction 1 as [|s r Hs Hr IH]; intros Hnd; [reflexivity|].
  destruct (stored_id s Hs) as (i & z & Hg & Hi & _).
  rewrite (sample_ids_cons _ _ _ Hi) in Hnd. apply NoDup_cons in Hnd as [Hni Hnd].
  cbn [remove_found]. rewrite Hg. cbn [eq_str].
  destruct (str_eq_spec i id) as [->|Hne].
  - rewrite filter_cons_False by (intros H; now apply H).
    symmetry. now apply filter_absent.
  - rewrite filter_cons_True by congruence. now rewrite IH.
Qed.

Lemma remove_found_sublist samples id : sublist (remove_found samples id) samples.
Proof.
  induction samples as [|s r IH]; cbn [remove_found]; [constructor|].
  destruct (dict_getitem s "_id") as [v|]; [|reflexivity].
  destruct (eq_str v id); [now apply sublist_cons | now apply sublist_skip].
Qed.

Lemma sample_ids_sublist l1 l2 : sublist l1 l2 -> sublist (sample_ids l1) (sample_ids l2).
Proof.
  induction 1 as [|x l1 l2 _ IH|x l1 l2 _ IH]; unfold sample_ids in *; cbn.
  - constructor.
  - destruct (sample_id x); [now apply sublist_skip | assumption].
  - destruct (sample_id x); [now apply sublist_cons | assumption].
Qed.

Lemma consistent_sublist l1 l2 : sublist l1 l2 -> consistent l2 -> consistent l1.
Proof.
  intros Hs [Hf Hn]. split.
  - rewrite Forall_forall in *. intros x Hx. apply Hf. eapply elem_of_sublist; eauto.
  - eapply sublist_NoDup; [eassumption | now apply sample_ids_sublist].
Qed.

(** *** The next id *)

Lemma max_list_greatest x l : greatest (max_list x l) (x :: l).
Proof.
  unfold greatest, max_list. revert x. induction l as [|y l IH]; intros x; cbn [fold_left].
  - split; [apply list_elem_of_here | repeat constructor; lia].
  - destruct (IH (Z.max x y)) as [Hin Hall]. apply Forall_cons in Hall as [Hm Hall]. split.
    + apply elem_of_cons in Hin as [E|Hin].
      * rewrite E. destruct (Z.max_spec x y) as [[_ ->]|[_ ->]].
        -- apply list_elem_of_further, list_elem_of_here.
        -- apply list_elem_of_here.
      * now do 2 apply list_elem_of_further.
    + repeat (apply Forall_cons; split); [lia | lia | assumption].
Qed.

Lemma sample_numbers samples :
  Forall stored samples ->
  exists nums, res_mapM sample_number samples = Ok nums /\
    Forall2 (fun s z => exists id, sample_id s = Some id /\ int_of_str id = Ok z)
            samples nums.
Proof.
  induction 1 as [|s r Hs _ (nums & E & Hall)].
  - exists []. split; [reflexivity | constructor].
  - destruct (stored_id s Hs) as (i & z & Hg & Hi & Hz).
    exists (z :: nums). split.
    + cbn [res_mapM]. unfold sample_number at 1. rewrite Hg. cbn. now rewrite Hz, E.
    + constructor; [now exists i | assumption].
Qed.

(** The id that [get_next_sample_id] returns, when it returns one. *)
Lemma next_id_shape samples id :
  Forall stored samples -> get_next_sample_id samples = Ok id ->
  (samples = [] -> id = u "1") /\
  (samples <> [] -> exists nums m,
      res_mapM sample_number samples = Ok nums /\ greatest m nums /\
      str_of_int (m + 1) = Ok id).
Proof.
  intros Hs. destruct (sample_numbers samples Hs) as (nums & E & Hall).
  destruct samples as [|s r].
  - intros [= <-]. split; [reflexivity | congruence].
  - unfold get_next_sample_id. rewrite E. cbn [mbind res_bind].
    destruct nums as [|i nums]; [inversion Hall|]. intros Hid.
    split; [congruence|].
    intros _. exists (i :: nums), (max_list i nums).
    split; [reflexivity|]. split; [apply max_list_greatest | assumption].
Qed.

(** With room after every record, [get_next_sample_id] returns an id. *)
Lemma next_id_exists samples :
  Forall stored samples -> Forall room samples ->
  exists id, get_next_sample_id samples = Ok id.
Proof.
  intros Hs Hroom. destruct (sample_numbers samples Hs) as (nums & E & Hall).
  destruct samples as [|s r] eqn:Es; [now exists (u "1")|]. rewrite <- Es in *.
  unfold get_next_sample_id. rewrite E. cbn [mbind res_bind].
  destruct nums as [|i nums]; [rewrite Es in Hall; inversion Hall|].
  destruct (max_list_greatest i nums) as [Hin _].
  apply list_elem_of_lookup in Hin as [k Hk].
  destruct (Forall2_lookup_r _ _ _ _ _ Hall Hk) as (s' & Hs' & id' & Hid' & Hparse).
  rewrite Forall_forall in Hroom.
  assert (Hr : room s') by (apply Hroom; eapply list_elem_of_lookup_2; eauto).
  unfold sample_id in Hid'. destruct (s' !! "_id") as [[]|] eqn:Hl; try discriminate.
  injection Hid' as ->.
  destruct (str_of_int_room _ (Hr id' _ Hl Hparse)) as [id ->].
  rewrite Es. now exists id.
Qed.

Lemma next_id_numeric samples id :
  Forall stored samples -> get_next_sample_id samples = Ok id ->
  exists z, int_of_str id = Ok z.
Proof.
  intros Hs E. destruct (next_id_shape samples id Hs E) as [H0 H1].
  destruct samples as [|s r].
  - rewrite H0 by reflexivity. now exists 1.
  - destruct H1 as (nums & m & _ & _ & Hm); [congruence|].
    exists (m + 1). now apply int_of_str_of_int.
Qed.

Lemma next_id_fresh samples id :
  Forall stored samples -> get_next_sample_id samples = Ok id ->
  id ∉ sample_ids samples.
Proof.
  intros Hs E Hin. destruct (next_id_shape samples id Hs E) as [_ H1].
  destruct samples as [|s0 r0] eqn:Es; [now apply elem_of_nil in Hin|]. rewrite <- Es in *.
  destruct H1 as (nums & m & En & [_ Hmax] & Hm); [congruence|].
  destruct (sample_numbers samples Hs) as (nums' & En' & Hall).
  rewrite En in En'. injection En' as <-.
  apply elem_of_sample_ids in Hin as (s & Hin & Hid).
  apply list_elem_of_lookup in Hin as [k Hk].
  destruct (Forall2_lookup_l _ _ _ _ _ Hall Hk) as (z & Hz & id' & Hid' & Hparse).
  rewrite Hid in Hid'. injection Hid' as <-.
  rewrite (int_of_str_of_int _ _ Hm) in Hparse. injection Hparse as <-.
  rewrite Forall_forall in Hmax.
  assert (m + 1 <= m) by (apply Hmax; eapply list_elem_of_lookup_2; eauto). lia.
Qed.

Section Handlers.

Context (D : Driver).
Implicit Types (w : world D) (d student : pydict) (samples : list pydict).

Lemma connected_set_samples w l : connected D (set_samples D w l) = connected D w.
Proof. reflexivity. Qed.

Lemma set_samples_same w : set_samples D w (SAMPLE_STUDENTS D w) = w.
Proof. now destruct w. Qed.

(** *** Create *)

Lemma dict_truthy d key v : d !! key = Some v -> truthy (PDict d) = true.
Proof.
  intros H. cbn. apply negb_true_iff, bool_decide_eq_false.
  intros ->. rewrite lookup_empty in H. discriminate.
Qed.

Lemma missing_fields_present d vname vage :
  d !! "name" = Some vname -> d !! "age" = Some vage ->
  missing_fields (PDict d) = Ok false.
Proof.
  intros Hn Ha. unfold missing_fields, contains. cbn.
  rewrite !bool_decide_eq_true_2 by (rewrite ?Hn, ?Ha; eauto). reflexivity.
Qed.

Lemma validate_age_in_range d vage a :
  d !! "age" = Some vage -> int_ vage = Ok a -> 0 <= a <= 150 ->
  validate_age (PDict d) = Ok (inr (PDict (<["age" := PInt a]> d))).
Proof.
  intros Ha Hi Hr. unfold validate_age, getitem, dict_getitem. rewrite Ha. cbn.
  rewrite Hi. cbn.
  replace (a <? 0) with false by (symmetry; apply Z.ltb_ge; lia).
  replace (150 <? a) with false by (symmetry; apply Z.ltb_ge; lia).
  reflexivity.
Qed.

Lemma name_not_blank d nm a :
  d !! "name" = Some (PStr nm) -> ~ whitespace_only nm ->
  name_is_blank (PDict (<["age" := PInt a]> d)) = Ok false.
Proof.
  intros Hn Hb. unfold name_is_blank, getitem, dict_getitem.
  rewrite lookup_insert_ne by done. rewrite Hn. cbn.
  destruct (strip nm) eqn:E; [|reflexivity].
  now apply strip_blank in E.
Qed.

Lemma add_student_fallback d nm a now w id :
  d !! "name" = Some (PStr nm) ->
  connected D w = None ->
  get_next_sample_id (SAMPLE_STUDENTS D w) = Ok id ->
  add_student D (PDict (<["age" := PInt a]> d)) now w =
    (set_samples D w (SAMPLE_STUDENTS D w ++ [created id nm a now]),
     Ok (created id nm a now)).
Proof.
  intros Hn Hc Hid. unfold add_student, getitem, dict_getitem.
  rewrite (lookup_insert_ne _ "age" "name") by done. rewrite Hn, lookup_insert_eq. cbn.
  rewrite Hc, Hid. reflexivity.
Qed.

Lemma add_student_connected d nm a now w c :
  d !! "name" = Some (PStr nm) ->
  connected D w = Some c ->
  add_student D (PDict (<["age" := PInt a]> d)) now w =
    (set_collection D w (fst (insert_one D c (new_document nm a now))),
     inserted_id ← snd (insert_one D c (new_document nm a now));
     Ok (<["_id" := PStr (str_of_ObjectId inserted_id)]> (new_document nm a now))).
Proof.
  intros Hn Hc. unfold add_student, getitem, dict_getitem.
  rewrite (lookup_insert_ne _ "age" "name") by done. rewrite Hn, lookup_insert_eq. cbn.
  rewrite Hc. unfold new_document. now destruct (insert_one D c _).
Qed.

Lemma add_valid_steps d nm vage a now w :
  d !! "name" = Some (PStr nm) -> d !! "age" = Some vage -> int_ vage = Ok a ->
  0 <= a <= 150 -> ~ whitespace_only nm ->
  add D (Ok (PDict d)) now w =
    match add_student D (PDict (<["age" := PInt a]> d)) now w with
    | (w', Raise _) => (w', jsonify_error "Failed to add student" 500)
    | (w', Ok student) => (w', (PDict student, 201))
    end.
Proof.
  intros Hn Ha Hi Hr Hb. unfold add.
  rewrite (dict_truthy d _ _ Hn). cbn [negb].
  rewrite (missing_fields_present d _ _ Hn Ha).
  rewrite (validate_age_in_range d _ a Ha Hi Hr).
  now rewrite (name_not_blank d nm a Hn Hb).
Qed.

Lemma add_fallback_valid d nm vage a now w :
  d !! "name" = Some (PStr nm) -> d !! "age" = Some vage -> int_ vage = Ok a ->
  0 <= a <= 150 -> ~ whitespace_only nm ->
  connected D w = None ->
  Forall stored (SAMPLE_STUDENTS D w) -> Forall room (SAMPLE_STUDENTS D w) ->
  exists id,
    get_next_sample_id (SAMPLE_STUDENTS D w) = Ok id /\
    add D (Ok (PDict d)) now w =
      (set_samples D w (SAMPLE_STUDENTS D w ++ [created id nm a now]),
       (PDict (created id nm a now), 201)).
Proof.
  intros Hn Ha Hi Hr Hb Hc Hs Hroom.
  destruct (next_id_exists _ Hs Hroom) as (id & Hid). exists id. split; [assumption|].
  rewrite (add_valid_steps d nm vage a now w Hn Ha Hi Hr Hb).
  now rewrite (add_student_fallback d nm a now w id Hn Hc Hid).
Qed.

(** What [validate_age] can answer. *)
Lemma validate_age_early data r :
  validate_age data = Ok (inl r) ->
  r = jsonify_error "Age must be between 0 and 150" 400.
Proof.
  unfold validate_age. destruct (getitem data "age") as [v|]; cbn; [|discriminate].
  destruct (int_ v) as [age|]; cbn; [|discriminate].
  destruct ((age <? 0) || (150 <? age)); cbn.
  - now intros [= <-].
  - destruct (setitem data "age" (PInt age)); cbn; discriminate.
Qed.

Lemma validate_age_continue data data' :
  validate_age data = Ok (inr data') ->
  exists d age, data = PDict d /\ data' = PDict (<["age" := PInt age]> d).
Proof.
  unfold validate_age. destruct (getitem data "age") as [v|]; cbn; [|discriminate].
  destruct (int_ v) as [age|]; cbn; [|discriminate].
  destruct ((age <? 0) || (150 <? age)); cbn; [discriminate|].
  destruct data; cbn; try discriminate. intros [= <-]. eauto.
Qed.

Lemma name_is_blank_false d age :
  name_is_blank (PDict (<["age" := PInt age]> d)) = Ok false ->
  exists nm, d !! "name" = Some (PStr nm).
Proof.
  unfold name_is_blank, getitem, dict_getitem.
  rewrite lookup_insert_ne by done.
  destruct (d !! "name") as [[]|]; cbn; try discriminate. eauto.
Qed.

(** In fallback mode a request to POST /students either leaves the state
    as it is and answers an error, or appends one record, with the next
    id, and answers it with status 201. *)
Lemma add_fallback_outcome request_json now w :
  connected D w = None ->
  (exists msg status,
      add D request_json now w = (w, jsonify_error msg status) /\ status <> 201) \/
  (exists id nm age,
      get_next_sample_id (SAMPLE_STUDENTS D w) = Ok id /\
      add D request_json now w =
        (set_samples D w (SAMPLE_STUDENTS D w ++ [created id nm age now]),
         (PDict (created id nm age now), 201))).
Proof.
  intros Hc. unfold add.
  destruct request_json as [data|e]; [|left; eexists _, _; split; [reflexivity | lia]].
  destruct (truthy data); cbn [negb]; [|left; eexists _, _; split; [reflexivity | lia]].
  destruct (missing_fields data) as [[]|];
    try (left; eexists _, _; split; [reflexivity | lia]).
  destruct (validate_age data) as [[early|data']|e] eqn:Hv.
  - apply validate_age_early in Hv as ->. left. eexists _, _; split; [reflexivity | lia].
  - apply validate_age_continue in Hv as (d & age & -> & ->).
    destruct (name_is_blank _) as [[]|] eqn:Hb;
      try (left; eexists _, _; split; [reflexivity | lia]).
    apply name_is_blank_false in Hb as [nm Hn].
    destruct (get_next_sample_id (SAMPLE_STUDENTS D w)) as [id|e] eqn:Hid.
    + right. exists id, nm, age. split; [reflexivity|].
      now rewrite (add_student_fallback d nm age now w id Hn Hc Hid).
    + left. unfold add_student, getitem, dict_getitem.
      rewrite (lookup_insert_ne _ "age" "name") by done. rewrite Hn, lookup_insert_eq. cbn.
      rewrite Hc, Hid. eexists _, _; split; [reflexivity | lia].
  - left. destruct e; eexists _, _; (split; [reflexivity | lia]).
Qed.

Lemma created_stored id nm age now z :
  int_of_str id = Ok z -> stored (created id nm age now).
Proof. intros Hz. split; [now exists id, z | now exists nm]. Qed.

Lemma created_id id nm age now : sample_id (created id nm age now) = Some id.
Proof. reflexivity. Qed.

Lemma sample_ids_snoc samples id nm age now :
  sample_ids (samples ++ [created id nm age now]) = sample_ids samples ++ [id].
Proof. now rewrite sample_ids_app. Qed.

(** *** Reads and deletes in fallback mode *)

Lemma get_all_fallback w :
  connected D w = None ->
  get_all D w = (w, (PList (PDict <$> SAMPLE_STUDENTS D w), 200)).
Proof. intros Hc. unfold get_all, get_students. now rewrite Hc. Qed.

Lemma get_student_by_id_fallback id w :
  connected D w = None ->
  get_student_by_id D id w = (w, next_by_id (SAMPLE_STUDENTS D w) id).
Proof.
  intros Hc. unfold get_student_by_id. rewrite Hc.
  now destruct (next_by_id (SAMPLE_STUDENTS D w) id).
Qed.

Lemma get_by_id_state id w : connected D w = None -> fst (get_by_id D id w) = w.
Proof.
  intros Hc. unfold get_by_id. rewrite (get_student_by_id_fallback id w Hc).
  destruct (next_by_id _ _) as [[s|]|]; try reflexivity.
  now destruct (truthy (PDict s)).
Qed.

Lemma get_by_id_absent id w :
  connected D w = None -> Forall stored (SAMPLE_STUDENTS D w) ->
  id ∉ sample_ids (SAMPLE_STUDENTS D w) ->
  get_by_id D id w = (w, jsonify_error "Student not found" 404).
Proof.
  intros Hc Hs Hid. unfold get_by_id. rewrite (get_student_by_id_fallback id w Hc).
  now rewrite (next_by_id_absent _ _ Hs Hid).
Qed.

Lemma search_fallback name w :
  connected D w = None ->
  search_students_by_name D name w = (w, search_samples name (SAMPLE_STUDENTS D w)).
Proof.
  intros Hc. unfold search_students_by_name. rewrite Hc.
  now destruct (search_samples name (SAMPLE_STUDENTS D w)).
Qed.

Lemma get_by_name_state name w : connected D w = None -> fst (get_by_name D name w) = w.
Proof.
  intros Hc. unfold get_by_name. rewrite (search_fallback name w Hc).
  destruct (search_samples _ _) as [l|]; [|reflexivity].
  now destruct (truthy _).
Qed.

Lemma delete_fallback_absent id w :
  connected D w = None -> Forall stored (SAMPLE_STUDENTS D w) ->
  id ∉ sample_ids (SAMPLE_STUDENTS D w) ->
  delete D id w = (w, jsonify_error "Student not found" 404).
Proof.
  intros Hc Hs Hid. unfold delete, delete_student. rewrite Hc.
  now rewrite (next_by_id_absent _ _ Hs Hid).
Qed.

Lemma delete_fallback_present id w :
  connected D w = None -> Forall stored (SAMPLE_STUDENTS D w) ->
  id ∈ sample_ids (SAMPLE_STUDENTS D w) ->
  delete D id w =
    (set_samples D w (remove_found (SAMPLE_STUDENTS D w) id), (PDict deleted, 200)).
Proof.
  intros Hc Hs Hid. unfold delete, delete_student. rewrite Hc.
  destruct (next_by_id_present _ _ Hs Hid) as (s & -> & Hin & _).
  rewrite Forall_forall in Hs. now rewrite (stored_truthy s (Hs s Hin)).
Qed.

(** *** The state invariant *)

Lemma initial_samples uri :
  SAMPLE_STUDENTS D (initial_world D uri) =
    [ sample "1" "John Doe" 20; sample "2" "Jane Smith" 22;
      sample "3" "Alice Johnson" 19; sample "4" "Bob Wilson" 21 ].
Proof. unfold initial_world. now destruct (connect_to_mongodb D uri). Qed.

Lemma initial_consistent uri : consistent (SAMPLE_STUDENTS D (initial_world D uri)).
Proof.
  rewrite initial_samples. split.
  - repeat constructor; eexists; try eexists; split; reflexivity.
  - change (NoDup seeded_ids). unfold seeded_ids. repeat (apply NoDup_cons; split);
      [rewrite ?elem_of_cons, ?elem_of_nil; intuition discriminate .. | apply NoDup_nil_2].
Qed.

Lemma initial_room uri : Forall room (SAMPLE_STUDENTS D (initial_world D uri)).
Proof.
  rewrite initial_samples.
  repeat constructor; intros id z H1 H2; vm_compute in H1; injection H1 as <-;
    vm_compute in H2; injection H2 as <-; vm_compute; discriminate.
Qed.

Lemma initial_ids uri :
  sample_ids (SAMPLE_STUDENTS D (initial_world D uri)) = seeded_ids.
Proof. now rewrite initial_samples. Qed.

Lemma add_fallback_step request_json now w :
  connected D w = None -> consistent (SAMPLE_STUDENTS D w) ->
  connected D (fst (add D request_json now w)) = None /\
  consistent (SAMPLE_STUDENTS D (fst (add D request_json now w))) /\
  sample_ids (SAMPLE_STUDENTS D (fst (add D request_json now w))) ⊆
    sample_ids (SAMPLE_STUDENTS D w) ++
    option_list (issued_id (POST_students request_json now)
                              (snd (add D request_json now w))).
Proof.
  intros Hc [Hs Hn].
  destruct (add_fallback_outcome request_json now w Hc)
    as [(msg & st & -> & _) | (id & nm & age & Hid & ->)]; cbn [fst snd].
  - split; [assumption|]. split; [now split|]. now apply list_subseteq_app_l.
  - split; [assumption|].
    destruct (next_id_numeric _ _ Hs Hid) as [z Hz].
    pose proof (next_id_fresh _ _ Hs Hid) as Hfresh.
    cbn [SAMPLE_STUDENTS set_samples]. rewrite sample_ids_snoc. split.
    + split.
      * apply Forall_app. split; [assumption|].
        constructor; [now apply (created_stored id nm age now z) | constructor].
      * rewrite sample_ids_snoc. apply NoDup_app.
        split; [assumption|]. split; [|apply NoDup_singleton].
        intros x Hx ->%list_elem_of_singleton. contradiction.
    + reflexivity.
Qed.

Lemma delete_fallback_step id w :
  connected D w = None -> consistent (SAMPLE_STUDENTS D w) ->
  connected D (fst (delete D id w)) = None /\
  consistent (SAMPLE_STUDENTS D (fst (delete D id w))) /\
  sample_ids (SAMPLE_STUDENTS D (fst (delete D id w))) ⊆ sample_ids (SAMPLE_STUDENTS D w).
Proof.
  intros Hc Hcons. pose proof Hcons as [Hs Hn].
  destruct (decide (id ∈ sample_ids (SAMPLE_STUDENTS D w))) as [Hin|Hout].
  - rewrite (delete_fallback_present id w Hc Hs Hin). cbn [fst SAMPLE_STUDENTS set_samples].
    pose proof (remove_found_sublist (SAMPLE_STUDENTS D w) id) as Hsub.
    split; [assumption|]. split; [now apply (consistent_sublist _ _ Hsub)|].
    now apply sublist_subseteq, sample_ids_sublist.
  - rewrite (delete_fallback_absent id w Hc Hs Hout). now cbn [fst].
Qed.

(** Serving a request in fallback mode keeps the list consistent, and
    every id in it was there before or has just been issued. *)
Lemma fallback_step rq w :
  connected D w = None -> consistent (SAMPLE_STUDENTS D w) ->
  connected D (fst (handle D rq w)) = None /\
  consistent (SAMPLE_STUDENTS D (fst (handle D rq w))) /\
  sample_ids (SAMPLE_STUDENTS D (fst (handle D rq w))) ⊆
    sample_ids (SAMPLE_STUDENTS D w) ++
    option_list (issued_id rq (snd (handle D rq w))).
Proof.
  intros Hc Hcons. destruct rq as [body now| |id|id|name]; cbn [handle].
  - now apply add_fallback_step.
  - rewrite (get_all_fallback w Hc). cbn. rewrite app_nil_r. auto.
  - rewrite (get_by_id_state id w Hc).
    replace (issued_id _ _) with (@None str) by now destruct (snd _) as [[] ?].
    cbn. rewrite app_nil_r. auto.
  - destruct (delete_fallback_step id w Hc Hcons) as (H1 & H2 & H3).
    split; [assumption|]. split; [assumption|]. now apply list_subseteq_app_l.
  - rewrite (get_by_name_state name w Hc).
    replace (issued_id _ _) with (@None str) by now destruct (snd _) as [[] ?].
    cbn. rewrite app_nil_r. auto.
Qed.

Lemma serve_cons rq rest w :
  fst (serve D (rq :: rest) w) = fst (serve D rest (fst (handle D rq w))).
Proof.
  cbn [serve]. destruct (handle D rq w) as [w1 r]. cbn [fst].
  now destruct (serve D rest w1).
Qed.

Lemma issued_ids_cons rq rest w :
  issued_ids D (rq :: rest) w =
    option_list (issued_id rq (snd (handle D rq w))) ++
    issued_ids D rest (fst (handle D rq w)).
Proof.
  cbn [issued_ids]. destruct (handle D rq w) as [w1 r]. cbn [fst snd].
  now destruct (issued_id rq r).
Qed.

Lemma fallback_serve rqs w :
  connected D w = None -> consistent (SAMPLE_STUDENTS D w) ->
  connected D (fst (serve D rqs w)) = None /\
  consistent (SAMPLE_STUDENTS D (fst (serve D rqs w))) /\
  sample_ids (SAMPLE_STUDENTS D (fst (serve D rqs w))) ⊆
    sample_ids (SAMPLE_STUDENTS D w) ++ issued_ids D rqs w.
Proof.
  revert w. induction rqs as [|rq rest IH]; intros w Hc Hcons.
  - cbn. rewrite app_nil_r. auto.
  - destruct (fallback_step rq w Hc Hcons) as (Hc1 & Hcons1 & Hsub1).
    destruct (IH _ Hc1 Hcons1) as (Hc2 & Hcons2 & Hsub2).
    rewrite serve_cons, issued_ids_cons. split; [assumption|]. split; [assumption|].
    intros x Hx. apply Hsub2 in Hx. apply elem_of_app in Hx as [Hx|Hx].
    + apply Hsub1 in Hx. rewrite app_assoc. apply elem_of_app. now left.
    + rewrite app_assoc. apply elem_of_app. now right.
Qed.

(** *** Connected mode *)

(** In connected mode the handlers never touch the fallback list, and the
    process stays connected. *)
Lemma connected_step rq w c :
  connected D w = Some c ->
  (exists c', connected D (fst (handle D rq w)) = Some c') /\
  SAMPLE_STUDENTS D (fst (handle D rq w)) = SAMPLE_STUDENTS D w.
Proof.
  destruct w as [[] [c0|] samples]; cbn; intros [= ->].
  destruct rq as [body now| |id|id|name]; cbn [handle];
    unfold add, get_all, get_by_id, delete, get_by_name, add_student, get_students,
      get_student_by_id, delete_student, search_students_by_name, connected,
      set_collection; cbn;
    repeat (case_match; cbn; simplify_eq); eauto.
Qed.

Lemma connected_serve rqs w c :
  connected D w = Some c ->
  (exists c', connected D (fst (serve D rqs w)) = Some c') /\
  SAMPLE_STUDENTS D (fst (serve D rqs w)) = SAMPLE_STUDENTS D w.
Proof.
  revert w c. induction rqs as [|rq rest IH]; intros w c Hc; [cbn; eauto|].
  destruct (connected_step rq w c Hc) as [[c1 Hc1] Hs1].
  destruct (IH _ _ Hc1) as [Hc2 Hs2].
  rewrite serve_cons. split; [assumption | congruence].
Qed.

(** ** Properties of the service *)

(** C1. A POST /students body whose age is an integer from 0 to 150 and
    whose name is not blank is answered 201 with a record that carries the
    name and the age as they were sent.  In fallback mode, on stored records
    with room for a next id, the record is appended to the list, and its id
    is a non-empty string that no record of the list has: "1" on an empty
    list, otherwise the decimal writing of the greatest id plus one.  In
    connected mode the id is the string of the ObjectId that [insert_one]
    returned: it is not empty, and when that ObjectId is the one of no
    document of the collection, the string is the id of none of them. *)
Theorem create_valid w d nm a now :
  d !! "name" = Some (PStr nm) -> d !! "age" = Some (PInt a) ->
  0 <= a <= 150 -> ~ whitespace_only nm ->
  (connected D w = None ->
   Forall stored (SAMPLE_STUDENTS D w) -> Forall room (SAMPLE_STUDENTS D w) ->
   exists id,
     add D (Ok (PDict d)) now w =
       (set_samples D w (SAMPLE_STUDENTS D w ++ [created id nm a now]),
        (PDict (created id nm a now), 201)) /\
     id <> [] /\
     (id ∉ sample_ids (SAMPLE_STUDENTS D w)) /\
     (SAMPLE_STUDENTS D w = [] -> id = u "1") /\
     (SAMPLE_STUDENTS D w <> [] ->
      exists nums m,
        res_mapM sample_number (SAMPLE_STUDENTS D w) = Ok nums /\
        greatest m nums /\ str_of_int (m + 1) = Ok id)) /\
  (forall c c' oid,
     connected D w = Some c ->
     insert_one D c (new_document nm a now) = (c', Ok oid) ->
     add D (Ok (PDict d)) now w =
       (set_collection D w c',
        (PDict (<["_id" := PStr (str_of_ObjectId oid)]> (new_document nm a now)),
         201)) /\
     str_of_ObjectId oid <> [] /\
     (forall docs,
        snd (find D c) = Ok docs -> (oid ∉ doc_id <$> docs) ->
        str_of_ObjectId oid ∉ (fun doc => str_of_ObjectId (doc_id doc)) <$> docs)).
Proof.
  intros Hn Ha Hr Hb. split.
  - intros Hc Hs Hroom.
    destruct (add_fallback_valid d nm (PInt a) a now w Hn Ha eq_refl Hr Hb Hc Hs Hroom)
      as (id & Hid & Hadd).
    exists id. split; [assumption|].
    destruct (next_id_shape _ _ Hs Hid) as [H0 H1].
    split; [|split; [now apply next_id_fresh | now split]].
    destruct (next_id_numeric _ _ Hs Hid) as [z Hz]. intros ->. discriminate.
  - intros c c' oid Hc Hins. split; [|split].
    + rewrite (add_valid_steps d nm (PInt a) a now w Hn Ha eq_refl Hr Hb).
      rewrite (add_student_connected d nm a now w c Hn Hc), Hins. reflexivity.
    + intros E. pose proof (str_of_ObjectId_length oid) as Hl. rewrite E in Hl.
      cbn in Hl. lia.
    + intros docs _ Hout (doc & E & Hin)%list_elem_of_fmap. apply Hout.
      apply str_of_ObjectId_inj in E. rewrite E. now apply list_elem_of_fmap_2.
Qed.

(** C2, at the place where the code departs from it.  In fallback mode, on
    stored records with room for a next id, the list answered by GET
    /students after a Create ends with the created record as it was stored:
    it has the field [created_at], next to [_id], [name] and [age]. *)
Theorem listing_keeps_created_at w d nm a now :
  d !! "name" = Some (PStr nm) -> d !! "age" = Some (PInt a) ->
  0 <= a <= 150 -> ~ whitespace_only nm ->
  connected D w = None ->
  Forall stored (SAMPLE_STUDENTS D w) -> Forall room (SAMPLE_STUDENTS D w) ->
  exists id,
    let w1 := fst (add D (Ok (PDict d)) now w) in
    get_all D w1 =
      (w1, (PList ((PDict <$> SAMPLE_STUDENTS D w) ++ [PDict (created id nm a now)]),
            200)) /\
    created id nm a now !! "created_at" = Some (PStr (isoformat now)) /\
    dom (created id nm a now) = {[ "_id"; "name"; "age"; "created_at" ]}.
Proof.
  intros Hn Ha Hr Hb Hc Hs Hroom.
  destruct (add_fallback_valid d nm (PInt a) a now w Hn Ha eq_refl Hr Hb Hc Hs Hroom)
    as (id & _ & ->).
  exists id. cbn [fst]. split; [|split; reflexivity].
  rewrite get_all_fallback by assumption.
  cbn [SAMPLE_STUDENTS set_samples]. now rewrite fmap_app.
Qed.

(** C10. When both fields are present and the age is an integer from 0 to
    150, a name that is not a string is answered 500 with the message
    "Failed to add student", and the state is as before. *)
Theorem non_string_name_fails w d vname a now :
  d !! "name" = Some vname -> d !! "age" = Some (PInt a) ->
  0 <= a <= 150 -> (forall s, vname <> PStr s) ->
  add D (Ok (PDict d)) now w = (w, jsonify_error "Failed to add student" 500).
Proof.
  intros Hn Ha Hr Hs. unfold add.
  rewrite (dict_truthy d _ _ Hn). cbn [negb].
  rewrite (missing_fields_present d _ _ Hn Ha).
  rewrite (validate_age_in_range d _ a Ha eq_refl Hr).
  unfold name_is_blank, getitem, dict_getitem.
  rewrite lookup_insert_ne by done. rewrite Hn. cbn.
  destruct vname; try reflexivity. now destruct (Hs s).
Qed.

(** C9, amended.  When both fields are present, the answer is 400 and the
    state is as before if [int(age)] raises ValueError or TypeError, or
    gives an integer below 0 or above 150, or gives an integer from 0 to 150
    while the name is a blank string. *)
Theorem invalid_input_rejected w d vname vage now :
  d !! "name" = Some vname -> d !! "age" = Some vage ->
  (int_ vage = Raise ValueError \/ int_ vage = Raise TypeError \/
   (exists z, int_ vage = Ok z /\ (z < 0 \/ 150 < z)) \/
   (exists z s, int_ vage = Ok z /\ 0 <= z <= 150 /\
                vname = PStr s /\ whitespace_only s)) ->
  exists msg, add D (Ok (PDict d)) now w = (w, jsonify_error msg 400).
Proof.
  intros Hn Ha Hcase. unfold add.
  rewrite (dict_truthy d _ _ Hn). cbn [negb].
  rewrite (missing_fields_present d _ _ Hn Ha).
  destruct Hcase as [E | [E | [(z & E & Hz) | (z & s & E & Hz & -> & Hb)]]].
  - unfold validate_age, getitem, dict_getitem. rewrite Ha. cbn. rewrite E. cbn. eauto.
  - unfold validate_age, getitem, dict_getitem. rewrite Ha. cbn. rewrite E. cbn. eauto.
  - unfold validate_age, getitem, dict_getitem. rewrite Ha. cbn. rewrite E. cbn.
    replace ((z <? 0) || (150 <? z)) with true; [eauto|].
    symmetry. apply orb_true_iff. rewrite !Z.ltb_lt. assumption.
  - rewrite (validate_age_in_range d _ z Ha E Hz).
    unfold name_is_blank, getitem, dict_getitem.
    rewrite lookup_insert_ne by done. rewrite Hn. cbn.
    apply strip_blank in Hb. rewrite Hb. cbn. eauto.
Qed.

(** C3, amended.  After any requests, GET /students/<id> is answered 404
    "Student not found" for an id that no seeded record has and that, in
    fallback mode, no Create of the process returned.  In connected mode
    that is the answer when the id is not an ObjectId or the lookup finds no
    document or raises. *)
Theorem unknown_id_not_found uri rqs id :
  id ∉ seeded_ids ->
  let w0 := initial_world D uri in
  let w := fst (serve D rqs w0) in
  (connected D w0 = None -> id ∉ issued_ids D rqs w0 ->
   get_by_id D id w = (w, jsonify_error "Student not found" 404)) /\
  (forall c0, connected D w0 = Some c0 ->
   exists c, connected D w = Some c /\
     ((exists e, new_ObjectId D id = Raise e) \/
      (exists oid, new_ObjectId D id = Ok oid /\
                   forall doc, snd (find_one D c oid) <> Ok (Some doc)) ->
      snd (get_by_id D id w) = jsonify_error "Student not found" 404)).
Proof.
  intros Hseed w0 w. split.
  - intros Hc Hissued.
    destruct (fallback_serve rqs w0 Hc (initial_consistent uri)) as (Hc' & [Hs _] & Hsub).
    apply get_by_id_absent; [assumption | assumption |].
    intros Hin. apply Hsub in Hin. unfold w0 in Hin. rewrite initial_ids in Hin.
    apply elem_of_app in Hin as [Hin|Hin]; contradiction.
  - intros c0 Hc0.
    destruct (connected_serve rqs w0 c0 Hc0) as [[c Hc] Hs]. fold w in Hc, Hs.
    exists c. split; [assumption|]. intros Hlookup.
    assert (Hscan : next_by_id (SAMPLE_STUDENTS D w) id = Ok None).
    { destruct (initial_consistent uri) as [Hst _]. rewrite Hs.
      apply next_by_id_absent; [assumption|]. unfold w0. now rewrite initial_ids. }
    unfold get_by_id, get_student_by_id. rewrite Hc.
    destruct Hlookup as [[e ->] | (oid & -> & Hnone)].
    + now rewrite Hscan.
    + destruct (find_one D c oid) as [c2 [[doc|]|e]]; cbn [snd] in *.
      * now destruct (Hnone doc).
      * reflexivity.
      * cbn. now rewrite Hscan.
Qed.

(** C4, at the place where the code departs from it.  In connected mode,
    when [delete_one] raises, DELETE /students/<id> is answered 404, with
    the message "Failed to delete student". *)
Theorem delete_failure_answers_404 w c id oid :
  connected D w = Some c -> new_ObjectId D id = Ok oid ->
  (exists e, snd (delete_one D c oid) = Raise e) ->
  delete D id w =
    (set_collection D w (fst (delete_one D c oid)),
     jsonify_error "Failed to delete student" 404).
Proof.
  intros Hc Hoid [e He]. unfold delete, delete_student. rewrite Hc, Hoid.
  destruct (delete_one D c oid) as [c' r]. cbn [fst snd] in *. now subst r.
Qed.

(** The other write: when [insert_one] raises, a valid POST /students is
    answered 500 with the message "Failed to add student". *)
Lemma create_failure_answers_500 w c d nm a now :
  d !! "name" = Some (PStr nm) -> d !! "age" = Some (PInt a) ->
  0 <= a <= 150 -> ~ whitespace_only nm ->
  connected D w = Some c ->
  (exists e, snd (insert_one D c (new_document nm a now)) = Raise e) ->
  add D (Ok (PDict d)) now w =
    (set_collection D w (fst (insert_one D c (new_document nm a now))),
     jsonify_error "Failed to add student" 500).
Proof.
  intros Hn Ha Hr Hb Hc [e He].
  rewrite (add_valid_steps d nm (PInt a) a now w Hn Ha eq_refl Hr Hb).
  rewrite (add_student_connected d nm a now w c Hn Hc), He. reflexivity.
Qed.

(** *** Search *)

Lemma name_matches_named query s :
  named s ->
  exists b, name_matches query s = Ok b /\
            (b = true <-> name_contains_lowered query s).
Proof.
  intros [n Hn]. unfold name_matches, dict_getitem. rewrite Hn. cbn.
  eexists. split; [reflexivity|]. rewrite contains_lowered_spec.
  unfold name_contains_lowered. split.
  - intros H. now exists n.
  - intros (n' & Hn' & H). rewrite Hn in Hn'. now injection Hn' as <-.
Qed.

(** The scan of the search keeps, in order, the records whose lower-cased
    name contains the lower-cased query. *)
Lemma search_samples_kept query samples :
  Forall named samples ->
  exists found, search_samples query samples = Ok found /\
                kept (name_contains_lowered query) samples found.
Proof.
  unfold search_samples. induction 1 as [|s r Hs _ (found & E & Hk)].
  - exists []. split; [reflexivity | constructor].
  - destruct (name_matches_named query s Hs) as (b & Hb & Hiff).
    cbn [res_filter]. rewrite Hb, E. destruct b.
    + exists (s :: found). split; [reflexivity|]. constructor; [now apply Hiff | assumption].
    + exists found. split; [reflexivity|]. constructor; [|assumption].
      intros H. apply Hiff in H. discriminate.
Qed.

Lemma kept_elem {A} (P : A -> Prop) l l' x :
  kept P l l' -> x ∈ l -> P x -> x ∈ l'.
Proof.
  induction 1 as [|y l l' Hy _ IH|y l l' Hy _ IH]; intros Hin HP.
  - assumption.
  - apply elem_of_cons in Hin as [->|Hin]; [apply list_elem_of_here|].
    apply list_elem_of_further. now apply IH.
  - apply elem_of_cons in Hin as [->|Hin]; [contradiction | now apply IH].
Qed.

Lemma kept_ext {A} (P Q : A -> Prop) l l' :
  Forall (fun x => P x <-> Q x) l -> kept P l l' -> kept Q l l'.
Proof.
  intros Hall Hk. induction Hk as [|y l l' Hy _ IH|y l l' Hy _ IH];
    [constructor | |]; apply Forall_cons in Hall as [Hiff Hall].
  - apply kept_yes; [now apply Hiff | now apply IH].
  - apply kept_no; [rewrite <- Hiff; assumption | now apply IH].
Qed.

Lemma ascii_named_contains query s :
  is_ascii query -> ascii_named s ->
  name_contains_lowered query s <-> name_contains query s.
Proof.
  intros Hq (n & Hn & Hascii). unfold name_contains_lowered, name_contains. split.
  - intros (n' & Hn' & H). exists n'. split; [assumption|].
    rewrite Hn in Hn'. injection Hn' as <-. now apply contains_lowered_ascii.
  - intros (n' & Hn' & H). exists n'. split; [assumption|].
    rewrite Hn in Hn'. injection Hn' as <-. now apply contains_lowered_ascii.
Qed.

(** C5, amended.  In fallback mode the search returns, in the order of the
    list, exactly the records whose name, put in lower case, contains the
    query put in lower case.  When the names and the query are ASCII text,
    these are exactly the records whose name contains the query as a
    substring ignoring case; a record named "Alice Johnson" is among them
    for the queries "alice", "Johnson" and "ce Jo". *)
Theorem search_by_name_fallback w query :
  connected D w = None -> Forall named (SAMPLE_STUDENTS D w) ->
  exists found,
    search_students_by_name D query w = (w, Ok found) /\
    kept (name_contains_lowered query) (SAMPLE_STUDENTS D w) found /\
    (is_ascii query -> Forall ascii_named (SAMPLE_STUDENTS D w) ->
     kept (name_contains query) (SAMPLE_STUDENTS D w) found) /\
    (forall s, s ∈ SAMPLE_STUDENTS D w ->
               s !! "name" = Some (PStr (u "Alice Johnson")) ->
               query ∈ [u "alice"; u "Johnson"; u "ce Jo"] -> s ∈ found).
Proof.
  intros Hc Hs. destruct (search_samples_kept query _ Hs) as (found & E & Hk).
  exists found. rewrite (search_fallback query w Hc). split; [now rewrite E|].
  split; [assumption|]. split.
  - intros Hq Hascii. apply (kept_ext (name_contains_lowered query)); [|assumption].
    eapply Forall_impl; [exact Hascii|]. intros s Ha. now apply ascii_named_contains.
  - intros s Hin Hn Hq. apply (kept_elem _ _ _ _ Hk Hin).
    exists (u "Alice Johnson"). split; [assumption|]. apply contains_lowered_spec.
    rewrite !elem_of_cons, elem_of_nil in Hq.
    destruct Hq as [-> | [-> | [-> | []]]]; vm_compute; reflexivity.
Qed.

(** C8. GET /students/name/<name> is answered 404 with an error body when
    the search finds no student, 200 with the students when it finds some,
    and never 200 with an empty array. *)
Theorem search_status w name :
  match search_students_by_name D name w with
  | (w', Ok []) =>
      get_by_name D name w =
        (w', jsonify_error "No students found with the given name" 404)
  | (w', Ok (s :: l)) =>
      get_by_name D name w = (w', (PList (PDict <$> s :: l), 200))
  | (w', Raise _) =>
      get_by_name D name w = (w', jsonify_error "Failed to search students" 500)
  end /\
  snd (get_by_name D name w) <> (PList [], 200).
Proof.
  unfold get_by_name.
  destruct (search_students_by_name D name w) as [w' [[|s l]|e]]; cbn; now split.
Qed.

(** *** Delete *)

Lemma filtered_ids samples id :
  id ∉ sample_ids (filter (fun s => sample_id s <> Some id) samples).
Proof.
  intros (s & Hin & Hid)%elem_of_sample_ids.
  apply list_elem_of_filter in Hin as [Hne _]. contradiction.
Qed.

(** C6. In fallback mode, with a consistent list: DELETE /students/<id> for
    an id of the list removes the record of that id and answers 200 with
    the success message, and the same request again answers 404; for an id
    that no record has, the answer is 404 and the list is unchanged.  In
    connected mode the answer follows the count that [delete_one] reports:
    200 when a document was deleted, 404 when none was. *)
Theorem delete_twice w id :
  (connected D w = None -> consistent (SAMPLE_STUDENTS D w) ->
   (id ∈ sample_ids (SAMPLE_STUDENTS D w) ->
    let w1 :=
      set_samples D w
        (filter (fun s => sample_id s <> Some id) (SAMPLE_STUDENTS D w)) in
    delete D id w = (w1, (PDict deleted, 200)) /\
    delete D id w1 = (w1, jsonify_error "Student not found" 404)) /\
   (id ∉ sample_ids (SAMPLE_STUDENTS D w) ->
    delete D id w = (w, jsonify_error "Student not found" 404))) /\
  (forall c oid c' n,
     connected D w = Some c -> new_ObjectId D id = Ok oid ->
     delete_one D c oid = (c', Ok n) ->
     delete D id w =
       (set_collection D w c',
        if 0 <? n then (PDict deleted, 200)
        else jsonify_error "Student not found" 404)).
Proof.
  split.
  - intros Hc [Hs Hn]. split.
    + intros Hin w1. split.
      * rewrite (delete_fallback_present id w Hc Hs Hin).
        now rewrite (remove_found_filter _ id Hs Hn).
      * apply delete_fallback_absent; [assumption | |apply filtered_ids].
        cbn [w1 SAMPLE_STUDENTS set_samples]. rewrite Forall_forall in *.
        intros s [_ Hin']%list_elem_of_filter. now apply Hs.
    + intros Hout. now apply delete_fallback_absent.
  - intros c oid c' n Hc Hoid Hdel. unfold delete, delete_student.
    rewrite Hc, Hoid, Hdel. now destruct (0 <? n).
Qed.

(** *** Reads when the driver raises *)

Lemma stored_named samples : Forall stored samples -> Forall named samples.
Proof. intros H. eapply Forall_impl; [eassumption | now intros s []]. Qed.

(** C7. In connected mode, when the driver raises during a read, the
    operation does not raise: it returns what the fallback list of stored
    records gives.  ListAll returns the whole list; GetById returns the
    first record whose [_id] is that very string, and nothing when no record
    has it; SearchByName returns, in order, exactly the records whose
    lower-cased name contains the lower-cased query, which for names and a
    query of ASCII text are the records whose name contains the query
    ignoring case. *)
Theorem reads_fall_back w c :
  connected D w = Some c -> Forall stored (SAMPLE_STUDENTS D w) ->
  (forall e, snd (find D c) = Raise e ->
     get_students D w =
       (set_collection D w (fst (find D c)), Ok (SAMPLE_STUDENTS D w))) /\
  (forall id e, new_ObjectId D id = Raise e ->
     exists r,
       get_student_by_id D id w = (w, Ok r) /\
       first_with_id id (SAMPLE_STUDENTS D w) r) /\
  (forall id oid e, new_ObjectId D id = Ok oid ->
     snd (find_one D c oid) = Raise e ->
     exists r,
       get_student_by_id D id w =
         (set_collection D w (fst (find_one D c oid)), Ok r) /\
       first_with_id id (SAMPLE_STUDENTS D w) r) /\
  (forall name e,
     snd (find_regex D c (u ".*" ++ name ++ u ".*") (u "i")) = Raise e ->
     exists found,
       search_students_by_name D name w =
         (set_collection D w (fst (find_regex D c (u ".*" ++ name ++ u ".*") (u "i"))),
          Ok found) /\
       kept (name_contains_lowered name) (SAMPLE_STUDENTS D w) found /\
       (is_ascii name -> Forall ascii_named (SAMPLE_STUDENTS D w) ->
        kept (name_contains name) (SAMPLE_STUDENTS D w) found)).
Proof.
  intros Hc Hs. repeat apply conj.
  - intros e He. unfold get_students. rewrite Hc.
    destruct (find D c) as [c' r]. cbn [fst snd] in *. now subst r.
  - intros id e He. destruct (next_by_id_first _ id Hs) as (r & E & Hfirst).
    exists r. split; [|assumption]. unfold get_student_by_id. now rewrite Hc, He, E.
  - intros id oid e Hoid He. destruct (next_by_id_first _ id Hs) as (r & E & Hfirst).
    exists r. split; [|assumption]. unfold get_student_by_id. rewrite Hc, Hoid.
    destruct (find_one D c oid) as [c' r']. cbn [fst snd] in *. subst r'.
    cbn [SAMPLE_STUDENTS set_collection]. now rewrite E.
  - intros name e He.
    destruct (search_samples_kept name _ (stored_named _ Hs)) as (found & E & Hk).
    exists found. split; [|split; [assumption|]].
    + unfold search_students_by_name. rewrite Hc.
      destruct (find_regex D c _ _) as [c' r]. cbn [fst snd] in *. subst r.
      cbn [mbind res_bind SAMPLE_STUDENTS set_collection]. now rewrite E.
    + intros Hq Hascii. apply (kept_ext (name_contains_lowered name)); [|assumption].
      eapply Forall_impl; [exact Hascii|]. intros s Ha. now apply ascii_named_contains.
Qed.

End Handlers.

(** ** The properties at concrete inputs *)

Lemma seeded_stored : Forall stored (SAMPLE_STUDENTS offline fallback_world).
Proof. exact (proj1 (initial_consistent offline None)). Qed.

Lemma seeded_room : Forall room (SAMPLE_STUDENTS offline fallback_world).
Proof. exact (initial_room offline None). Qed.

(** The seeded process without MONGO_URI, and a process on the collection
    in memory that holds one document, both serving POST /students for John
    Doe, 25. *)
Lemma create_valid_witness :
  (john !! "name" = Some (PStr (u "John Doe")) /\ john !! "age" = Some (PInt 25) /\
   0 <= 25 <= 150 /\ ~ whitespace_only (u "John Doe")) /\
  (exists id,
     add offline (Ok (PDict john)) noon fallback_world =
       (set_samples offline fallback_world
          (SAMPLE_STUDENTS offline fallback_world ++
           [created id (u "John Doe") 25 noon]),
        (PDict (created id (u "John Doe") 25 noon), 201)) /\
     id <> [] /\
     id ∉ sample_ids (SAMPLE_STUDENTS offline fallback_world)) /\
  snd (add memory (Ok (PDict john)) noon stocked_world) =
    (PDict (<["_id" := PStr (u "000000000000000000000001")]>
              (new_document (u "John Doe") 25 noon)), 201) /\
  u "000000000000000000000001" ∉ [u "000000000000000000000000"].
Proof.
  assert (Hb : ~ whitespace_only (u "John Doe")) by not_blank.
  assert (Hr : 0 <= 25 <= 150) by lia.
  split; [repeat split; solve [reflexivity | lia | exact Hb]|].
  destruct (create_valid offline fallback_world john (u "John Doe") 25 noon
              eq_refl eq_refl Hr Hb) as [Hf _].
  destruct (create_valid memory stocked_world john (u "John Doe") 25 noon
              eq_refl eq_refl Hr Hb) as [_ Hm].
  split; [|split].
  - destruct (Hf eq_refl seeded_stored seeded_room) as (id & H1 & H2 & H3 & _).
    exists id. auto.
  - now destruct (Hm _ _ (Oid 1) eq_refl eq_refl) as (-> & _).
  - destruct (Hm _ _ (Oid 1) eq_refl eq_refl) as (_ & _ & H).
    apply (H _ eq_refl). apply not_elem_of_cons. split; [discriminate|].
    apply not_elem_of_nil.
Defined.

(** POST /students for John Doe on the seeded list, then GET /students. *)
Lemma listing_keeps_created_at_witness :
  connected offline fallback_world = None /\
  exists id,
    snd (get_all offline (fst (add offline (Ok (PDict john)) noon fallback_world))) =
      (PList ((PDict <$> SAMPLE_STUDENTS offline fallback_world) ++
              [PDict (created id (u "John Doe") 25 noon)]), 200) /\
    created id (u "John Doe") 25 noon !! "created_at" =
      Some (PStr (u "2024-05-01T12:00:00")).
Proof.
  split; [reflexivity|].
  destruct (listing_keeps_created_at offline fallback_world john (u "John Doe") 25 noon)
    as (id & H1 & H2 & _);
    [reflexivity | reflexivity | lia | not_blank | reflexivity
    | exact seeded_stored | exact seeded_room |].
  exists id. split; [now rewrite H1 | exact H2].
Defined.

(** C3 as the specification has it fails on the seeded list: no Create has
    been served, and GET /students/1 is answered 200 with John Doe. *)
Lemma seeded_id_is_found :
  (u "1" ∉ issued_ids offline [] fallback_world) /\
  get_by_id offline (u "1") fallback_world =
    (fallback_world, (PDict (sample "1" "John Doe" 20), 200)).
Proof. split; [apply not_elem_of_nil | reflexivity]. Qed.

(** After a Create and a Delete, the id "9" is still unknown. *)
Lemma unknown_id_not_found_witness :
  (u "9" ∉ seeded_ids) /\
  snd (get_by_id offline (u "9")
         (fst (serve offline
                 [POST_students (Ok (PDict john)) noon; DELETE_student (u "2")]
                 fallback_world))) =
    jsonify_error "Student not found" 404.
Proof.
  assert (Hs : u "9" ∉ seeded_ids) by (unfold seeded_ids; absent).
  split; [exact Hs|].
  destruct (unknown_id_not_found offline None
              [POST_students (Ok (PDict john)) noon; DELETE_student (u "2")] (u "9") Hs)
    as [Hf _].
  unfold fallback_world. rewrite Hf; [reflexivity | reflexivity |].
  vm_compute issued_ids. absent.
Defined.

(** The server went away after the connection: DELETE of a well-formed id. *)
Lemma delete_failure_answers_404_witness :
  connected unreachable lost_world = Some tt /\
  delete unreachable some_oid lost_world =
    (lost_world, jsonify_error "Failed to delete student" 404).
Proof.
  split; [reflexivity|].
  rewrite (delete_failure_answers_404 unreachable lost_world tt some_oid some_ObjectId);
    [reflexivity | reflexivity | reflexivity | eexists; reflexivity].
Defined.

(** The query "ce Jo" on the seeded list finds Alice Johnson. *)
Lemma search_by_name_fallback_witness :
  Forall named (SAMPLE_STUDENTS offline fallback_world) /\
  exists found,
    search_students_by_name offline (u "ce Jo") fallback_world =
      (fallback_world, Ok found) /\
    sample "3" "Alice Johnson" 19 ∈ found.
Proof.
  assert (Hn : Forall named (SAMPLE_STUDENTS offline fallback_world)).
  { repeat constructor; eexists; reflexivity. }
  split; [exact Hn|].
  destruct (search_by_name_fallback offline fallback_world (u "ce Jo") eq_refl Hn)
    as (found & H1 & _ & _ & H3).
  exists found. split; [exact H1|]. apply H3; [|reflexivity|].
  - do 2 apply list_elem_of_further. apply list_elem_of_here.
  - do 2 apply list_elem_of_further. apply list_elem_of_here.
Defined.

(** C5 as the specification has it fails on Greek text.  The name ΑΣΑ
    contains the query ΑΣ as it stands, yet the search finds nothing and
    GET /students/name/ΑΣ is answered 404: in lower case the sigma that ends
    the query is a final sigma, ας, the one inside the name is not, ασα. *)
Lemma final_sigma_is_not_found :
  connected offline greek_world = None /\
  Forall named (SAMPLE_STUDENTS offline greek_world) /\
  Forall (name_contains as_) (SAMPLE_STUDENTS offline greek_world) /\
  lower as_ = [0x3B1; 0x3C2]%N /\ lower asa = [0x3B1; 0x3C3; 0x3B1]%N /\
  search_students_by_name offline as_ greek_world = (greek_world, Ok []) /\
  get_by_name offline as_ greek_world =
    (greek_world, jsonify_error "No students found with the given name" 404).
Proof.
  split; [reflexivity|]. split; [repeat constructor; eexists; reflexivity|].
  split; [|repeat split; reflexivity].
  repeat constructor. exists asa. split; [reflexivity|].
  exists [], as_, [0x391%N]. split; [reflexivity|]. cbn. repeat split; now left.
Qed.

(** DELETE /students/2 twice on the seeded list. *)
Lemma delete_twice_witness :
  u "2" ∈ sample_ids (SAMPLE_STUDENTS offline fallback_world) /\
  snd (delete offline (u "2") fallback_world) = (PDict deleted, 200) /\
  snd (delete offline (u "2") (fst (delete offline (u "2") fallback_world))) =
    jsonify_error "Student not found" 404.
Proof.
  assert (Hin : u "2" ∈ sample_ids (SAMPLE_STUDENTS offline fallback_world)).
  { apply list_elem_of_further, list_elem_of_here. }
  split; [exact Hin|].
  destruct (delete_twice offline fallback_world (u "2")) as [Hf _].
  destruct (Hf eq_refl (initial_consistent offline None)) as [Hp _].
  destruct (Hp Hin) as [H1 H2].
  rewrite H1. cbn [fst snd]. rewrite H2. split; reflexivity.
Defined.

(** The server went away after the connection: the reads answer from the
    seeded list.  The id "3" is no ObjectId, and the lookup of a well-formed
    one raises. *)
Lemma reads_fall_back_witness :
  connected unreachable lost_world = Some tt /\
  get_students unreachable lost_world =
    (lost_world, Ok (SAMPLE_STUDENTS unreachable lost_world)) /\
  (exists r,
     get_student_by_id unreachable (u "3") lost_world = (lost_world, Ok r) /\
     first_with_id (u "3") (SAMPLE_STUDENTS unreachable lost_world) r /\
     r = Some (sample "3" "Alice Johnson" 19)) /\
  (exists r,
     get_student_by_id unreachable some_oid lost_world = (lost_world, Ok r) /\
     r = None) /\
  (exists found,
     search_students_by_name unreachable (u "ce Jo") lost_world =
       (lost_world, Ok found) /\
     kept (name_contains_lowered (u "ce Jo"))
          (SAMPLE_STUDENTS unreachable lost_world) found /\
     found = [sample "3" "Alice Johnson" 19]).
Proof.
  split; [reflexivity|].
  destruct (reads_fall_back unreachable lost_world tt eq_refl
              (proj1 (initial_consistent unreachable (Some (u "mongodb://db")))))
    as (H1 & H2 & H3 & H4).
  split; [|split; [|split]].
  - rewrite (H1 DriverError eq_refl). reflexivity.
  - destruct (H2 (u "3") DriverError eq_refl) as (r & E & Hfirst).
    exists r. split; [exact E|]. split; [exact Hfirst|].
    assert (Hc : get_student_by_id unreachable (u "3") lost_world =
                 (lost_world, Ok (Some (sample "3" "Alice Johnson" 19))))
      by reflexivity.
    rewrite Hc in E. now injection E as <-.
  - destruct (H3 some_oid some_ObjectId DriverError eq_refl eq_refl) as (r & E & _).
    exists r. split; [exact E|].
    assert (Hc : get_student_by_id unreachable some_oid lost_world =
                 (lost_world, Ok None)) by reflexivity.
    rewrite Hc in E. now injection E as <-.
  - destruct (H4 (u "ce Jo") DriverError eq_refl) as (found & E & Hk & _).
    exists found. split; [exact E|]. split; [exact Hk|].
    assert (Hc : search_students_by_name unreachable (u "ce Jo") lost_world =
                 (lost_world, Ok [sample "3" "Alice Johnson" 19])) by reflexivity.
    rewrite Hc in E. now injection E as <-.
Defined.

(** C9 as the specification has it fails on the age -0.5: it lies outside
    the interval, [int] truncates it to 0, and the record is created. *)
Lemma fractional_age_is_accepted :
  outside_range minus_half /\
  add offline (Ok (PDict (jane minus_half))) noon fallback_world =
    (set_samples offline fallback_world
       (SAMPLE_STUDENTS offline fallback_world ++
        [created (u "5") (u "Jane Doe") 0 noon]),
     (PDict (created (u "5") (u "Jane Doe") 0 noon), 201)).
Proof. split; [cbn; lia | reflexivity]. Qed.

(** An infinite age is a case that [add] does not answer with 400:
    [int] raises OverflowError, which the inner [except] does not name. *)
Lemma infinite_age_answers_500 :
  add offline (Ok (PDict (jane (PFloat (FInf false))))) noon fallback_world =
    (fallback_world, jsonify_error "Failed to add student" 500).
Proof. reflexivity. Qed.

(** The age -5, the age "invalid", and a name of two spaces and a no-break
    space. *)
Lemma invalid_input_rejected_witness :
  (exists msg,
     add offline (Ok (PDict (jane (PInt (-5))))) noon fallback_world =
       (fallback_world, jsonify_error msg 400)) /\
  (exists msg,
     add offline (Ok (PDict (jane (PStr (u "invalid"))))) noon fallback_world =
       (fallback_world, jsonify_error msg 400)) /\
  (exists msg,
     add offline (Ok (PDict (body (PStr [32; 32; 0xA0]%N) (PInt 25)))) noon
         fallback_world =
       (fallback_world, jsonify_error msg 400)).
Proof.
  split; [|split].
  - apply (invalid_input_rejected offline fallback_world (jane (PInt (-5)))
             (PStr (u "Jane Doe")) (PInt (-5)) noon eq_refl eq_refl).
    right. right. left. exists (-5). split; [reflexivity | lia].
  - apply (invalid_input_rejected offline fallback_world (jane (PStr (u "invalid")))
             (PStr (u "Jane Doe")) (PStr (u "invalid")) noon eq_refl eq_refl).
    left. reflexivity.
  - apply (invalid_input_rejected offline fallback_world
             (body (PStr [32; 32; 0xA0]%N) (PInt 25))
             (PStr [32; 32; 0xA0]%N) (PInt 25) noon eq_refl eq_refl).
    right. right. right. exists 25, [32; 32; 0xA0]%N.
    split; [reflexivity|]. split; [lia|]. split; [reflexivity|].
    apply strip_blank. reflexivity.
Defined.

(** The name 5, a JSON number. *)
Lemma non_string_name_fails_witness :
  (forall s, PInt 5 <> PStr s) /\
  add offline (Ok (PDict (body (PInt 5) (PInt 7)))) noon fallback_world =
    (fallback_world, jsonify_error "Failed to add student" 500).
Proof.
  split; [discriminate|].
  apply (non_string_name_fails offline fallback_world
           (body (PInt 5) (PInt 7)) (PInt 5) 7 noon);
    [reflexivity | reflexivity | lia | discriminate].
Defined.

(** ** Further properties of the program *)

Section Coverage.

Context (D : Driver).
Implicit Types (w : world D) (d : pydict) (samples : list pydict).

(** *** Start-up and mode *)

(** X1. The process starts in connected mode exactly when MONGO_URI is set,
    not empty, and the connection with its ping succeeds; the collection is
    then the one the driver gave. *)
Theorem initial_mode uri c :
  connected D (initial_world D uri) = Some c <->
  exists s, uri = Some s /\ s <> [] /\ MongoClient D s = Ok c.
Proof.
  unfold initial_world, connect_to_mongodb. destruct uri as [s|]; cbn.
  - destruct s as [|a s]; cbn.
    + split; [discriminate|]. intros (s & [= <-] & Hs & _). now destruct Hs.
    + destruct (MongoClient D (a :: s)) as [c0|e] eqn:E; cbn.
      * split.
        -- intros [= ->]. now exists (a :: s).
        -- intros (s' & [= <-] & _ & H). congruence.
      * split; [discriminate|]. intros (s' & [= <-] & _ & H). congruence.
  - split; [discriminate|]. intros (s & H & _). discriminate.
Qed.

(** What serving one request keeps: the flag, the collection in fallback
    mode, the fallback list in connected mode. *)
Lemma handle_frame rq w :
  DB_CONNECTED D (fst (handle D rq w)) = DB_CONNECTED D w /\
  (connected D w = None ->
   students_collection D (fst (handle D rq w)) = students_collection D w) /\
  (forall c, connected D w = Some c ->
   SAMPLE_STUDENTS D (fst (handle D rq w)) = SAMPLE_STUDENTS D w /\
   exists c', students_collection D (fst (handle D rq w)) = Some c').
Proof.
  destruct w as [db coll samples].
  destruct rq as [body now| |id|id|name]; cbn [handle];
    unfold add, get_all, get_by_id, delete, get_by_name, add_student, get_students,
      get_student_by_id, delete_student, search_students_by_name, connected,
      set_collection, set_samples; cbn;
    destruct db, coll as [c0|]; cbn;
    repeat (case_match; cbn; simplify_eq);
    (split; [reflexivity|]); (split; [try reflexivity; try discriminate|]);
    try (intros c [= <-]); try discriminate; eauto.
Qed.

Lemma serve_frame rqs w :
  DB_CONNECTED D (fst (serve D rqs w)) = DB_CONNECTED D w /\
  (connected D w = None ->
   students_collection D (fst (serve D rqs w)) = students_collection D w) /\
  (forall c, connected D w = Some c ->
   SAMPLE_STUDENTS D (fst (serve D rqs w)) = SAMPLE_STUDENTS D w /\
   exists c', students_collection D (fst (serve D rqs w)) = Some c').
Proof.
  revert w. induction rqs as [|rq rest IH]; intros w.
  - cbn. split; [reflexivity|]. split; [reflexivity|]. intros c Hc. split; [reflexivity|].
    exists c. unfold connected in Hc. now destruct (DB_CONNECTED D w).
  - rewrite serve_cons. destruct (handle_frame rq w) as (Hdb & Hnone & Hsome).
    destruct (IH (fst (handle D rq w))) as (Hdb' & Hnone' & Hsome').
    split; [congruence|]. split.
    + intros Hc. rewrite Hnone'; [now apply Hnone|].
      unfold connected in *. rewrite Hdb. destruct (DB_CONNECTED D w); [|reflexivity].
      now rewrite Hnone.
    + intros c Hc. destruct (Hsome c Hc) as [Hs [c1 Hc1]].
      assert (Hc1' : connected D (fst (handle D rq w)) = Some c1).
      { unfold connected in *. rewrite Hdb. now destruct (DB_CONNECTED D w). }
      destruct (Hsome' c1 Hc1') as [Hs' Hex]. split; [congruence | assumption].
Qed.
(** X2. The mode is decided once: whatever requests are served, the
    connected flag keeps its value, and the process is in fallback mode
    afterwards exactly when it was before. *)
Theorem mode_is_fixed rqs w :
  DB_CONNECTED D (fst (serve D rqs w)) = DB_CONNECTED D w /\
  (connected D (fst (serve D rqs w)) = None <-> connected D w = None).
Proof.
  destruct (serve_frame rqs w) as (Hdb & Hnone & Hsome).
  split; [assumption|]. unfold connected in *. rewrite Hdb.
  destruct (DB_CONNECTED D w); [|tauto].
  destruct (students_collection D w) as [c|] eqn:E.
  - destruct (Hsome c eq_refl) as [_ [c' ->]]. split; discriminate.
  - rewrite (Hnone eq_refl). tauto.
Qed.

(** X3. The store that is not in use is never written: in connected mode
    no request changes the fallback list, in fallback mode no request
    changes the collection handle. *)
Theorem idle_store_untouched rqs w :
  (forall c, connected D w = Some c ->
     SAMPLE_STUDENTS D (fst (serve D rqs w)) = SAMPLE_STUDENTS D w) /\
  (connected D w = None ->
     students_collection D (fst (serve D rqs w)) = students_collection D w).
Proof.
  destruct (serve_frame rqs w) as (_ & Hnone & Hsome). split.
  - intros c Hc. now destruct (Hsome c Hc).
  - assumption.
Qed.

(** X4. In a process that started in fallback mode, after any requests,
    every record of the list has a string [_id] that reads as an integer
    and a string [name], and no two records have the same [_id]. *)
Theorem reachable_consistent uri rqs :
  connected D (initial_world D uri) = None ->
  consistent (SAMPLE_STUDENTS D (fst (serve D rqs (initial_world D uri)))).
Proof.
  intros Hc.
  now destruct (fallback_serve D rqs _ Hc (initial_consistent D uri)) as (_ & H & _).
Qed.

(** *** POST /students *)

(** X5. POST /students is answered 201, 400 or 500.  An answer 400 leaves
    the whole state as it was, any answer other than 201 leaves the fallback
    list as it was, and in fallback mode an answer 201 has appended exactly
    the answered record to the list. *)
Theorem add_answers request_json now w :
  let w' := fst (add D request_json now w) in
  let answer := snd (add D request_json now w) in
  (snd answer = 201 \/ snd answer = 400 \/ snd answer = 500) /\
  (snd answer = 400 -> w' = w) /\
  (snd answer <> 201 -> SAMPLE_STUDENTS D w' = SAMPLE_STUDENTS D w) /\
  (connected D w = None -> snd answer = 201 ->
   exists student,
     fst answer = PDict student /\
     SAMPLE_STUDENTS D w' = SAMPLE_STUDENTS D w ++ [student]).
Proof.
  unfold add.
  destruct request_json as [data|e];
    [|cbn; repeat split; auto; intros; discriminate].
  destruct (truthy data); cbn [negb];
    [|cbn; repeat split; auto; intros; discriminate].
  destruct (missing_fields data) as [[]|];
    try (cbn; repeat split; auto; intros; discriminate).
  destruct (validate_age data) as [[early|data']|e] eqn:Hv.
  - apply validate_age_early in Hv as ->.
    cbn; repeat split; auto; intros; discriminate.
  - apply validate_age_continue in Hv as (d & age & -> & ->).
    destruct (name_is_blank _) as [[]|] eqn:Hb;
      try (cbn; repeat split; auto; intros; discriminate).
    apply name_is_blank_false in Hb as [nm Hn].
    unfold add_student, getitem, dict_getitem.
    rewrite (lookup_insert_ne _ "age" "name") by done. rewrite Hn, lookup_insert_eq.
    cbn [mbind res_bind].
    destruct (connected D w) as [c|] eqn:Hc.
    + destruct (insert_one D c _) as [c' [oid|e]];
        cbn; repeat split; auto; intros; discriminate.
    + destruct (get_next_sample_id (SAMPLE_STUDENTS D w)) as [id|e];
        [|cbn; repeat split; auto; intros; discriminate].
      cbn. repeat split; auto; try (intros; discriminate).
      * intros H. now destruct H.
      * intros _ _. eexists. split; reflexivity.
  - destruct e; cbn; repeat split; auto; intros; discriminate.
Qed.

(** X6. A body that is not a JSON object never creates a record and leaves
    the state as it was.  A list or a string is answered 400, as are null,
    false and zero; any other scalar is answered 500. *)
Theorem non_object_body data now w :
  (forall d, data <> PDict d) ->
  exists msg,
    add D (Ok data) now w =
      (w, jsonify_error msg
            match data with
            | PList _ | PStr _ => 400
            | _ => if truthy data then 500 else 400
            end).
Proof.
  intros Hd. unfold add.
  destruct data as [|b|z|f|s|l|d|t]; try (cbn; eauto; fail).
  - destruct b; cbn; eauto.
  - cbn [truthy]. destruct (negb (z =? 0)); cbn; eauto.
  - destruct (truthy (PFloat f)); cbn; eauto.
  - destruct (truthy (PStr s)); cbn [negb]; [|eauto].
    unfold missing_fields, contains. cbn [mbind res_bind].
    destruct (str_contains s (u "name")); cbn [negb]; [|eauto].
    destruct (str_contains s (u "age")); cbn; eauto.
  - destruct (truthy (PList l)); cbn [negb]; [|eauto].
    unfold missing_fields, contains. cbn [mbind res_bind].
    destruct (existsb _ l); cbn [negb]; [|eauto].
    destruct (existsb _ l); cbn; eauto.
  - now destruct (Hd d).
Qed.

(** X7. A JSON object without [name] or without [age] is answered 400 and
    the state is as before; the message is "No JSON data provided" for the
    empty object and "Missing required fields: 'name' and 'age'" otherwise. *)
Theorem missing_field_rejected d now w :
  d !! "name" = None \/ d !! "age" = None ->
  add D (Ok (PDict d)) now w =
    (w, jsonify_error
          (if bool_decide (d = ∅) then "No JSON data provided"
           else "Missing required fields: 'name' and 'age'") 400).
Proof.
  intros Hm. unfold add. cbn [truthy].
  destruct (bool_decide (d = ∅)); cbn [negb]; [reflexivity|].
  unfold missing_fields, contains. cbn [mbind res_bind].
  destruct (d !! "name") as [vn|] eqn:En.
  - destruct Hm as [Hm|Hm]; [discriminate|]. rewrite Hm.
    rewrite bool_decide_eq_true_2 by eauto. cbn [negb].
    rewrite bool_decide_eq_false_2 by (intros [? ?]; discriminate). reflexivity.
  - rewrite bool_decide_eq_false_2 by (intros [? ?]; discriminate). reflexivity.
Qed.

(** X8. The age is stored as the integer that [int] gives: in fallback
    mode, on stored records with room for a next id, a body whose age
    coerces to an integer from 0 to 150 (a numeric string, a float, a
    boolean) and whose name is not blank creates the record with that
    integer as its age. *)
Theorem coerced_age_stored w d nm vage z now :
  d !! "name" = Some (PStr nm) -> d !! "age" = Some vage ->
  int_ vage = Ok z -> 0 <= z <= 150 -> ~ whitespace_only nm ->
  connected D w = None ->
  Forall stored (SAMPLE_STUDENTS D w) -> Forall room (SAMPLE_STUDENTS D w) ->
  exists id,
    add D (Ok (PDict d)) now w =
      (set_samples D w (SAMPLE_STUDENTS D w ++ [created id nm z now]),
       (PDict (created id nm z now), 201)).
Proof.
  intros Hn Ha Hi Hr Hb Hc Hs Hroom.
  destruct (add_fallback_valid D d nm vage z now w Hn Ha Hi Hr Hb Hc Hs Hroom)
    as (id & _ & Hadd).
  now exists id.
Qed.

(** *** Requests one after the other, fallback mode *)

Lemma next_by_id_app l1 l2 id :
  next_by_id (l1 ++ l2) id =
    match next_by_id l1 id with
    | Ok None => next_by_id l2 id
    | r => r
    end.
Proof.
  induction l1 as [|s r IH]; [reflexivity|]. cbn [app next_by_id].
  destruct (dict_getitem s "_id") as [v|]; [|reflexivity].
  now destruct (eq_str v id).
Qed.

Lemma next_by_id_created id nm age now id' :
  next_by_id [created id nm age now] id' =
    Ok (if str_eq id id' then Some (created id nm age now) else None).
Proof.
  cbn [next_by_id]. change (dict_getitem (created id nm age now) "_id") with (Ok (PStr id)).
  cbn [eq_str]. now destruct (str_eq id id').
Qed.

Lemma get_by_id_answer id w :
  connected D w = None ->
  snd (get_by_id D id w) =
    match next_by_id (SAMPLE_STUDENTS D w) id with
    | Ok (Some student) =>
        if truthy (PDict student) then (PDict student, 200)
        else jsonify_error "Student not found" 404
    | Ok None => jsonify_error "Student not found" 404
    | Raise _ => jsonify_error "Failed to retrieve student" 500
    end.
Proof.
  intros Hc. unfold get_by_id. rewrite (get_student_by_id_fallback D id w Hc).
  destruct (next_by_id _ _) as [[s|]|]; try reflexivity.
  now destruct (truthy (PDict s)).
Qed.

(** X9. In fallback mode, on stored records with room for a next id, a
    valid Create succeeds, and then GET /students/<id> with the id just
    issued is answered 200 with the very record that the Create answered,
    and GET for any other id is answered as before the Create. *)
Theorem get_after_create w d nm a now :
  d !! "name" = Some (PStr nm) -> d !! "age" = Some (PInt a) ->
  0 <= a <= 150 -> ~ whitespace_only nm ->
  connected D w = None ->
  Forall stored (SAMPLE_STUDENTS D w) -> Forall room (SAMPLE_STUDENTS D w) ->
  exists id,
    let w1 := fst (add D (Ok (PDict d)) now w) in
    snd (add D (Ok (PDict d)) now w) = (PDict (created id nm a now), 201) /\
    get_by_id D id w1 = (w1, (PDict (created id nm a now), 200)) /\
    (forall id', id' <> id -> snd (get_by_id D id' w1) = snd (get_by_id D id' w)).
Proof.
  intros Hn Ha Hr Hb Hc Hs Hroom.
  destruct (add_fallback_valid D d nm (PInt a) a now w Hn Ha eq_refl Hr Hb Hc Hs Hroom)
    as (id & Hid & ->).
  exists id. cbn [fst snd]. split; [reflexivity|].
  set (w1 := set_samples D w _).
  assert (Hc1 : connected D w1 = None) by exact Hc.
  pose proof (next_id_fresh _ _ Hs Hid) as Hfresh.
  split.
  - rewrite (surjective_pairing (get_by_id D id w1)).
    rewrite (get_by_id_state D id w1 Hc1), (get_by_id_answer id w1 Hc1).
    cbn [w1 SAMPLE_STUDENTS set_samples].
    rewrite next_by_id_app, (next_by_id_absent _ _ Hs Hfresh), next_by_id_created.
    now rewrite str_eq_refl.
  - intros id' Hne. rewrite (get_by_id_answer id' w1 Hc1), (get_by_id_answer id' w Hc).
    cbn [w1 SAMPLE_STUDENTS set_samples]. rewrite next_by_id_app, next_by_id_created.
    destruct (str_eq_spec id id') as [->|_]; [now destruct Hne|].
    now destruct (next_by_id (SAMPLE_STUDENTS D w) id') as [[s|]|].
Qed.

Lemma remove_found_last l id nm age now :
  Forall stored l -> id ∉ sample_ids l ->
  remove_found (l ++ [created id nm age now]) id = l.
Proof.
  induction 1 as [|s r Hs _ IH]; intros Hid.
  - cbn [app remove_found].
    change (dict_getitem (created id nm age now) "_id") with (Ok (PStr id)).
    cbn [eq_str]. now rewrite str_eq_refl.
  - destruct (stored_id s Hs) as (i & z & Hg & Hi & _).
    rewrite (sample_ids_cons _ _ _ Hi) in Hid. apply not_elem_of_cons in Hid as [Hne Hr].
    cbn [app remove_found]. rewrite Hg. cbn [eq_str].
    destruct (str_eq_spec i id); [congruence|]. now rewrite IH.
Qed.

(** X10. In fallback mode, on stored records with room for a next id,
    deleting the record that a Create has just made gives back the state
    from before the Create, so the next Create issues the same id again:
    ids of deleted records are reused. *)
Theorem create_then_delete w d nm a now :
  d !! "name" = Some (PStr nm) -> d !! "age" = Some (PInt a) ->
  0 <= a <= 150 -> ~ whitespace_only nm ->
  connected D w = None ->
  Forall stored (SAMPLE_STUDENTS D w) -> Forall room (SAMPLE_STUDENTS D w) ->
  exists id,
    let w1 := fst (add D (Ok (PDict d)) now w) in
    snd (add D (Ok (PDict d)) now w) = (PDict (created id nm a now), 201) /\
    delete D id w1 = (w, (PDict deleted, 200)) /\
    (forall later,
       snd (add D (Ok (PDict d)) later (fst (delete D id w1))) =
         (PDict (created id nm a later), 201)).
Proof.
  intros Hn Ha Hr Hb Hc Hs Hroom.
  destruct (add_fallback_valid D d nm (PInt a) a now w Hn Ha eq_refl Hr Hb Hc Hs Hroom)
    as (id & Hid & Hadd).
  exists id. rewrite Hadd. cbn [fst snd]. split; [reflexivity|].
  set (w1 := set_samples D w _).
  destruct (next_id_numeric _ _ Hs Hid) as [z Hz].
  pose proof (next_id_fresh _ _ Hs Hid) as Hfresh.
  assert (Hdel : delete D id w1 = (w, (PDict deleted, 200))).
  { rewrite (delete_fallback_present D id w1 Hc).
    - cbn [w1 SAMPLE_STUDENTS set_samples].
      rewrite (remove_found_last _ _ _ _ _ Hs Hfresh).
      unfold set_samples. cbn. now destruct w.
    - cbn [w1 SAMPLE_STUDENTS set_samples]. apply Forall_app. split; [assumption|].
      constructor; [now apply (created_stored id nm a now z) | constructor].
    - cbn [w1 SAMPLE_STUDENTS set_samples]. rewrite sample_ids_snoc.
      apply elem_of_app. right. apply list_elem_of_here. }
  split; [assumption|]. intros later. rewrite Hdel. cbn [fst].
  destruct (add_fallback_valid D d nm (PInt a) a later w Hn Ha eq_refl Hr Hb Hc Hs Hroom)
    as (id' & Hid' & ->).
  rewrite Hid in Hid'. now injection Hid' as <-.
Qed.

Lemma next_by_id_remove_other l id id' :
  id' <> id -> next_by_id (remove_found l id) id' = next_by_id l id'.
Proof.
  intros Hne. induction l as [|s r IH]; [reflexivity|]. cbn [remove_found next_by_id].
  destruct (dict_getitem s "_id") as [v|] eqn:Hg; [|cbn [next_by_id]; now rewrite Hg].
  destruct (eq_str v id) eqn:Ev.
  - destruct v; try discriminate. cbn [eq_str] in *.
    destruct (str_eq_spec s0 id) as [->|]; [|discriminate].
    destruct (str_eq_spec id id'); [congruence | reflexivity].
  - cbn [next_by_id]. rewrite Hg, IH. reflexivity.
Qed.

(** X11. In fallback mode, with a consistent list: after DELETE
    /students/<id>, GET for that id is answered 404, and GET for any other
    id is answered as before the Delete. *)
Theorem get_after_delete w id :
  connected D w = None -> consistent (SAMPLE_STUDENTS D w) ->
  let w1 := fst (delete D id w) in
  get_by_id D id w1 = (w1, jsonify_error "Student not found" 404) /\
  (forall id', id' <> id -> snd (get_by_id D id' w1) = snd (get_by_id D id' w)).
Proof.
  intros Hc [Hs Hn] w1.
  destruct (decide (id ∈ sample_ids (SAMPLE_STUDENTS D w))) as [Hin|Hout].
  - assert (E : w1 = set_samples D w (remove_found (SAMPLE_STUDENTS D w) id)).
    { unfold w1. now rewrite (delete_fallback_present D id w Hc Hs Hin). }
    assert (Hc1 : connected D w1 = None) by (rewrite E; exact Hc).
    split.
    + apply get_by_id_absent; [assumption | |]; rewrite E;
        cbn [SAMPLE_STUDENTS set_samples]; rewrite (remove_found_filter _ id Hs Hn).
      * rewrite Forall_forall in *. intros s [_ Hin']%list_elem_of_filter. now apply Hs.
      * apply filtered_ids.
    + intros id' Hne. rewrite (get_by_id_answer id' w1 Hc1), (get_by_id_answer id' w Hc).
      rewrite E. cbn [SAMPLE_STUDENTS set_samples].
      now rewrite (next_by_id_remove_other _ id id' Hne).
  - assert (E : w1 = w).
    { unfold w1. now rewrite (delete_fallback_absent D id w Hc Hs Hout). }
    rewrite E. split; [now apply get_by_id_absent | reflexivity].
Qed.

(** X12. In fallback mode GET /students/<id> for an id of the list is
    answered 200 with a record of the list whose [_id] is that id, and the
    state is as before. *)
Theorem get_present w id :
  connected D w = None -> Forall stored (SAMPLE_STUDENTS D w) ->
  id ∈ sample_ids (SAMPLE_STUDENTS D w) ->
  exists student,
    get_by_id D id w = (w, (PDict student, 200)) /\
    student ∈ SAMPLE_STUDENTS D w /\
    student !! "_id" = Some (PStr id).
Proof.
  intros Hc Hs Hin.
  destruct (next_by_id_present _ _ Hs Hin) as (s & E & Hs_in & Hid).
  exists s. split; [|split; [assumption|]].
  - rewrite (surjective_pairing (get_by_id D id w)).
    rewrite (get_by_id_state D id w Hc), (get_by_id_answer id w Hc), E.
    rewrite Forall_forall in Hs. now rewrite (stored_truthy s (Hs s Hs_in)).
  - unfold sample_id in Hid. destruct (s !! "_id") as [[]|]; congruence.
Qed.

(** *** Search *)

(** X13. In fallback mode, on stored records with room for a next id,
    after a valid Create, a search for the new student's whole name, with
    the letters A to Z in any case, is answered 200 with a list that
    contains the created record. *)
Theorem search_after_create w d nm a now query :
  d !! "name" = Some (PStr nm) -> d !! "age" = Some (PInt a) ->
  0 <= a <= 150 -> ~ whitespace_only nm ->
  connected D w = None ->
  Forall stored (SAMPLE_STUDENTS D w) -> Forall room (SAMPLE_STUDENTS D w) ->
  same_ignoring_case nm query ->
  exists id found,
    let w1 := fst (add D (Ok (PDict d)) now w) in
    snd (add D (Ok (PDict d)) now w) = (PDict (created id nm a now), 201) /\
    get_by_name D query w1 = (w1, (PList (PDict <$> found), 200)) /\
    created id nm a now ∈ found.
Proof.
  intros Hn Ha Hr Hb Hc Hs Hroom Hq.
  destruct (add_fallback_valid D d nm (PInt a) a now w Hn Ha eq_refl Hr Hb Hc Hs Hroom)
    as (id & Hid & ->).
  cbn [fst snd]. set (w1 := set_samples D w _).
  assert (Hnamed : Forall named (SAMPLE_STUDENTS D w1)).
  { cbn [w1 SAMPLE_STUDENTS set_samples]. apply Forall_app. split.
    - now apply stored_named.
    - constructor; [now exists nm | constructor]. }
  destruct (search_samples_kept query _ Hnamed) as (found & E & Hk).
  assert (Hin : created id nm a now ∈ found).
  { apply (kept_elem _ _ _ _ Hk).
    - cbn [w1 SAMPLE_STUDENTS set_samples]. apply elem_of_app. right.
      apply list_elem_of_here.
    - exists nm. split; [reflexivity|]. now apply contains_same. }
  exists id, found. split; [reflexivity|]. split; [|assumption].
  unfold get_by_name. rewrite (search_fallback D query w1 Hc), E.
  destruct found as [|s l]; [now apply elem_of_nil in Hin | reflexivity].
Qed.

Lemma res_filter_ext {A} (p q : A -> res bool) l :
  (forall x, p x = q x) -> res_filter p l = res_filter q l.
Proof.
  intros H. induction l as [|x r IH]; [reflexivity|]. cbn [res_filter].
  now rewrite H, IH.
Qed.

(** X14. In fallback mode the case of the query does not matter: two
    queries that are the same ignoring case (of the letters A to Z) are
    answered alike. *)
Theorem query_case_irrelevant w query query' :
  connected D w = None -> same_ignoring_case query query' ->
  get_by_name D query w = get_by_name D query' w.
Proof.
  intros Hc Hq. apply lower_same in Hq. unfold get_by_name.
  rewrite !(search_fallback D _ w Hc). unfold search_samples.
  rewrite (res_filter_ext (name_matches query) (name_matches query')); [reflexivity|].
  intros s. unfold name_matches. now rewrite Hq.
Qed.

Lemma str_contains_empty s : str_contains s [] = true.
Proof. now destruct s. Qed.

(** X15. The empty query matches every record: in fallback mode, on
    records with a string name, [search_students_by_name("")] returns the
    whole list. *)
Theorem empty_query_returns_all w :
  connected D w = None -> Forall named (SAMPLE_STUDENTS D w) ->
  search_students_by_name D [] w = (w, Ok (SAMPLE_STUDENTS D w)).
Proof.
  intros Hc Hn. rewrite (search_fallback D [] w Hc). f_equal.
  unfold search_samples. induction Hn as [|s r [n Hs] _ IH]; [reflexivity|].
  cbn [res_filter]. unfold name_matches at 1, dict_getitem. rewrite Hs.
  cbn [mbind res_bind lower_]. change (lower []) with (@nil N).
  now rewrite str_contains_empty, IH.
Qed.

(** *** GET /students *)

Lemma res_mapM_raises {A B} (f : A -> res B) l x e :
  x ∈ l -> f x = Raise e -> exists e', res_mapM f l = Raise e'.
Proof.
  intros Hin Hx. induction l as [|y r IH]; [now apply elem_of_nil in Hin|].
  cbn [res_mapM]. destruct (f y) as [b|e1] eqn:Ey; [|eauto].
  apply elem_of_cons in Hin as [->|Hin]; [congruence|].
  destruct (IH Hin) as [e' ->]. eauto.
Qed.

(** X16. GET /students is answered 200 with a list in every state and for
    every driver: [get_students] never raises, and it leaves the fallback
    list as it was. *)
Theorem list_always_answers w :
  exists students,
    snd (get_students D w) = Ok students /\
    snd (get_all D w) = (PList (PDict <$> students), 200) /\
    SAMPLE_STUDENTS D (fst (get_all D w)) = SAMPLE_STUDENTS D w.
Proof.
  unfold get_all, get_students. destruct (connected D w) as [c|].
  - destruct (find D c) as [c' r].
    destruct (r ≫= res_mapM project) as [students|e]; eexists; repeat split.
  - eexists; repeat split.
Qed.

(** X17. In connected mode, when one document of the collection has no
    [name] or no [age], GET /students answers the whole fallback list
    instead of the collection. *)
Theorem incomplete_document_hides_collection w c c' docs doc :
  connected D w = Some c -> find D c = (c', Ok docs) ->
  doc ∈ docs ->
  doc_fields doc !! "name" = None \/ doc_fields doc !! "age" = None ->
  get_all D w =
    (set_collection D w c', (PList (PDict <$> SAMPLE_STUDENTS D w), 200)).
Proof.
  intros Hc Hf Hin Hmiss.
  assert (Hp : exists e, project doc = Raise e).
  { unfold project, dict_getitem.
    destruct (doc_fields doc !! "name") as [vn|]; cbn; [|eauto].
    destruct Hmiss as [Hm|Hm]; [discriminate|]. rewrite Hm. cbn. eauto. }
  destruct Hp as [e Hp]. destruct (res_mapM_raises project docs doc e Hin Hp) as [e' Hr].
  unfold get_all, get_students. rewrite Hc, Hf. cbn [mbind res_bind]. now rewrite Hr.
Qed.

(** *** Connected mode *)

(** X18. In connected mode the seeded records stay reachable: whatever
    requests were served, GET /students/<id> for a seeded id that bson does
    not accept as an ObjectId is answered 200 with the seeded record, though
    the collection holds no such document. *)
Theorem seeded_record_served uri rqs id c0 :
  connected D (initial_world D uri) = Some c0 ->
  id ∈ seeded_ids ->
  (exists e, new_ObjectId D id = Raise e) ->
  exists student,
    student ∈ SAMPLE_STUDENTS D (initial_world D uri) /\
    student !! "_id" = Some (PStr id) /\
    snd (get_by_id D id (fst (serve D rqs (initial_world D uri)))) =
      (PDict student, 200).
Proof.
  intros Hc0 Hin [e He].
  destruct (connected_serve D rqs _ c0 Hc0) as [[c Hc] Hs].
  destruct (initial_consistent D uri) as [Hst _].
  rewrite <- (initial_ids D uri) in Hin.
  destruct (next_by_id_present _ _ Hst Hin) as (s & E & Hs_in & Hid).
  exists s. split; [assumption|]. split.
  - unfold sample_id in Hid. destruct (s !! "_id") as [[]|]; congruence.
  - unfold get_by_id, get_student_by_id. rewrite Hc, He, Hs, E. cbn [snd].
    rewrite Forall_forall in Hst. now rewrite (stored_truthy s (Hst s Hs_in)).
Qed.

(** X19. In connected mode DELETE /students/<id> is answered 200 or 404,
    and 200 exactly when the id is an ObjectId and [delete_one] reports a
    positive count; the fallback list is never changed. *)
Theorem connected_delete_answer w c id :
  connected D w = Some c ->
  (snd (snd (delete D id w)) = 200 <->
   exists oid n, new_ObjectId D id = Ok oid /\
                 snd (delete_one D c oid) = Ok n /\ 0 < n) /\
  (snd (snd (delete D id w)) = 200 \/ snd (snd (delete D id w)) = 404) /\
  SAMPLE_STUDENTS D (fst (delete D id w)) = SAMPLE_STUDENTS D w.
Proof.
  intros Hc. unfold delete, delete_student. rewrite Hc.
  destruct (new_ObjectId D id) as [oid|e].
  - destruct (delete_one D c oid) as [c' [n|e]] eqn:Hd; cbn [snd fst].
    + destruct (0 <? n) eqn:Hn; cbn.
      * split; [|split; [now left | reflexivity]].
        split; [|reflexivity]. intros _. exists oid, n. rewrite Hd.
        split; [reflexivity|]. split; [reflexivity | now apply Z.ltb_lt].
      * split; [|split; [now right | reflexivity]].
        split; [discriminate|]. intros (oid' & n' & [= <-] & E & Hpos).
        rewrite Hd in E. cbn in E. injection E as <-. apply Z.ltb_ge in Hn. lia.
    + cbn. split; [|split; [now right | reflexivity]].
      split; [discriminate|]. intros (oid' & n' & [= <-] & E & _).
      rewrite Hd in E. discriminate.
  - cbn. split; [|split; [now right | reflexivity]].
    split; [discriminate|]. intros (oid' & n' & E & _). discriminate.
Qed.

(** *** The status routes *)

Lemma list_students_total w :
  exists students w', get_students D w = (w', Ok students).
Proof.
  unfold get_students. destruct (connected D w) as [c|]; [|eauto].
  destruct (find D c) as [c' r]. destruct (r ≫= res_mapM project); eauto.
Qed.

(** X20. GET / is answered 200 in every state and for every driver; its
    [total_students] is the length of the list that GET /students answers
    in the same state, and its [database_status] follows the connected
    flag. *)
Theorem home_counts_the_list MONGO_URI now w :
  exists students,
    snd (get_all D w) = (PList (PDict <$> students), 200) /\
    home D MONGO_URI now w =
      (fst (get_all D w),
       (PDict (welcome
                 (if DB_CONNECTED D w then "Connected via GitHub/Jenkins Secrets"
                  else "Using Sample Data (No MongoDB Secret)")
                 (Z.of_nat (length students)) MONGO_URI now),
        200)).
Proof.
  unfold home, get_all.
  destruct (list_students_total w) as (students & w' & ->).
  exists students. split; reflexivity.
Qed.

(** X21. GET /health is answered 200 whatever happens.  The body is the
    degraded one, with [status] "healthy_with_fallback", exactly when the
    process is connected and the ping raises; otherwise it is the healthy
    one, whose [database] is "connected_via_secrets" in connected mode and
    "fallback_mode_no_secret" in fallback mode, also when MONGO_URI is set
    and only the connection failed. *)
Theorem health_always_200 ping str_of_exn MONGO_URI now w :
  snd (snd (health_check D ping str_of_exn MONGO_URI now w)) = 200 /\
  match connected D w with
  | Some c =>
      match snd (ping c) with
      | Raise e =>
          fst (snd (health_check D ping str_of_exn MONGO_URI now w)) =
            PDict (degraded str_of_exn e now)
      | Ok _ =>
          exists n,
            fst (snd (health_check D ping str_of_exn MONGO_URI now w)) =
              PDict (healthy "connected_via_secrets" n MONGO_URI now)
      end
  | None =>
      fst (snd (health_check D ping str_of_exn MONGO_URI now w)) =
        PDict (healthy "fallback_mode_no_secret"
                 (Z.of_nat (length (SAMPLE_STUDENTS D w))) MONGO_URI now)
  end.
Proof.
  unfold health_check. destruct (connected D w) as [c|] eqn:Hc.
  - destruct (ping c) as [c' [u|e]]; cbn [snd]; [|split; reflexivity].
    destruct (list_students_total (set_collection D w c')) as (students & w' & ->).
    cbn. split; [reflexivity | eauto].
  - unfold get_students. rewrite Hc. split; reflexivity.
Qed.

(** X22. Without a secret the service says so for its whole life: when
    MONGO_URI is unset or empty, after any requests, GET / reports "Using
    Sample Data (No MongoDB Secret)" and GET /health reports
    "fallback_mode_no_secret", both with the length of the fallback list
    and with the secret flag false. *)
Theorem no_secret_reported ping str_of_exn MONGO_URI rqs now :
  secret_configured MONGO_URI = false ->
  let w := fst (serve D rqs (initial_world D MONGO_URI)) in
  let n := Z.of_nat (length (SAMPLE_STUDENTS D w)) in
  home D MONGO_URI now w =
    (w, (PDict (welcome "Using Sample Data (No MongoDB Secret)" n MONGO_URI now),
         200)) /\
  health_check D ping str_of_exn MONGO_URI now w =
    (w, (PDict (healthy "fallback_mode_no_secret" n MONGO_URI now), 200)) /\
  welcome "Using Sample Data (No MongoDB Secret)" n MONGO_URI now
    !! "secret_configured" = Some (PBool false).
Proof.
  intros Hsec w n.
  assert (Hdb0 : DB_CONNECTED D (initial_world D MONGO_URI) = false).
  { unfold initial_world, connect_to_mongodb.
    destruct MONGO_URI as [s|]; [|reflexivity]. cbn [secret_configured] in Hsec.
    now rewrite Hsec. }
  destruct (serve_frame rqs (initial_world D MONGO_URI)) as (Hdb & _ & _).
  fold w in Hdb. rewrite Hdb0 in Hdb.
  assert (Hc : connected D w = None) by (unfold connected; now rewrite Hdb).
  split; [|split].
  - unfold home, get_students. now rewrite Hc, Hdb.
  - unfold health_check, get_students. now rewrite Hc.
  - change (Some (PBool (secret_configured MONGO_URI)) = Some (PBool false)).
    now rewrite Hsec.
Qed.

(** *** Ids that do not read as integers *)

(** X23. In fallback mode one stored record whose [_id] does not read as
    an integer blocks every Create: a valid POST /students is answered 500
    "Failed to add student" and nothing is stored. *)
Theorem unreadable_id_blocks_create w d nm a now s e :
  d !! "name" = Some (PStr nm) -> d !! "age" = Some (PInt a) ->
  0 <= a <= 150 -> ~ whitespace_only nm ->
  connected D w = None ->
  s ∈ SAMPLE_STUDENTS D w -> sample_number s = Raise e ->
  add D (Ok (PDict d)) now w = (w, jsonify_error "Failed to add student" 500).
Proof.
  intros Hn Ha Hr Hb Hc Hin Hs.
  destruct (res_mapM_raises sample_number _ s e Hin Hs) as [e' Hm].
  assert (Hid : get_next_sample_id (SAMPLE_STUDENTS D w) = Raise e').
  { unfold get_next_sample_id. rewrite Hm.
    destruct (SAMPLE_STUDENTS D w); [now apply elem_of_nil in Hin | reflexivity]. }
  rewrite (add_valid_steps D d nm (PInt a) a now w Hn Ha eq_refl Hr Hb).
  unfold add_student, getitem, dict_getitem.
  rewrite (lookup_insert_ne _ "age" "name") by done. rewrite Hn, lookup_insert_eq.
  cbn [mbind res_bind]. now rewrite Hc, Hid.
Qed.

End Coverage.


(** ** The further properties at concrete inputs *)

(** The short session served by the seeded process. *)
Lemma reachable_consistent_witness :
  connected offline (initial_world offline None) = None /\
  consistent
    (SAMPLE_STUDENTS offline (fst (serve offline session (initial_world offline None)))).
Proof.
  split; [reflexivity|]. apply (reachable_consistent offline None session eq_refl).
Defined.

(** The bodies [["name", "age"]] and [5]. *)
Lemma non_object_body_witness :
  (exists msg,
     add offline (Ok (PList [PStr (u "name"); PStr (u "age")])) noon fallback_world =
       (fallback_world, jsonify_error msg 400)) /\
  (exists msg,
     add offline (Ok (PInt 5)) noon fallback_world =
       (fallback_world, jsonify_error msg 500)).
Proof.
  split.
  - apply (non_object_body offline (PList [PStr (u "name"); PStr (u "age")]) noon
             fallback_world). discriminate.
  - apply (non_object_body offline (PInt 5) noon fallback_world). discriminate.
Defined.

(** The body with an age and no name. *)
Lemma missing_field_rejected_witness :
  only_age !! "name" = None /\
  add offline (Ok (PDict only_age)) noon fallback_world =
    (fallback_world,
     jsonify_error "Missing required fields: 'name' and 'age'" 400).
Proof.
  split; [reflexivity|].
  rewrite (missing_field_rejected offline only_age noon fallback_world);
    [reflexivity | left; reflexivity].
Defined.

(** The age " 42 ", a string, for the student Ann; the same age written
    with a no-break space and Arabic-Indic digits. *)
Lemma coerced_age_stored_witness :
  int_ (PStr (u " 42 ")) = Ok 42 /\
  int_ (PStr [0xA0; 0x664; 0x662]%N) = Ok 42 /\
  exists id,
    snd (add offline (Ok (PDict (body (PStr (u "Ann")) (PStr (u " 42 ")))))
           noon fallback_world) =
      (PDict (created id (u "Ann") 42 noon), 201).
Proof.
  split; [reflexivity|]. split; [reflexivity|].
  destruct (coerced_age_stored offline fallback_world
              (body (PStr (u "Ann")) (PStr (u " 42 ")))
              (u "Ann") (PStr (u " 42 ")) 42 noon) as [id Hid];
    [reflexivity | reflexivity | reflexivity | lia | not_blank | reflexivity
    | exact seeded_stored | exact seeded_room |].
  exists id. now rewrite Hid.
Defined.

(** John Doe is created on the seeded list, then fetched. *)
Lemma get_after_create_witness :
  exists id,
    snd (get_by_id offline id (fst (add offline (Ok (PDict john)) noon fallback_world))) =
      (PDict (created id (u "John Doe") 25 noon), 200).
Proof.
  destruct (get_after_create offline fallback_world john (u "John Doe") 25 noon)
    as (id & _ & H & _);
    [reflexivity | reflexivity | lia | not_blank | reflexivity | exact seeded_stored
    | exact seeded_room |].
  exists id. now rewrite H.
Defined.

(** John Doe is created on the seeded list, then deleted. *)
Lemma create_then_delete_witness :
  exists id,
    delete offline id (fst (add offline (Ok (PDict john)) noon fallback_world)) =
      (fallback_world, (PDict deleted, 200)).
Proof.
  destruct (create_then_delete offline fallback_world john (u "John Doe") 25 noon)
    as (id & _ & H & _);
    [reflexivity | reflexivity | lia | not_blank | reflexivity | exact seeded_stored
    | exact seeded_room |].
  exists id. exact H.
Defined.

(** DELETE /students/2 on the seeded list, then GET for "2" and for "3". *)
Lemma get_after_delete_witness :
  snd (get_by_id offline (u "2") (fst (delete offline (u "2") fallback_world))) =
    jsonify_error "Student not found" 404 /\
  snd (get_by_id offline (u "3") (fst (delete offline (u "2") fallback_world))) =
    (PDict (sample "3" "Alice Johnson" 19), 200).
Proof.
  destruct (get_after_delete offline fallback_world (u "2") eq_refl
              (initial_consistent offline None)) as [H1 H2].
  split.
  - now rewrite H1.
  - rewrite (H2 (u "3")); [reflexivity | discriminate].
Defined.

(** GET /students/3 on the seeded list. *)
Lemma get_present_witness :
  (u "3" ∈ sample_ids (SAMPLE_STUDENTS offline fallback_world)) /\
  exists student,
    get_by_id offline (u "3") fallback_world =
      (fallback_world, (PDict student, 200)) /\
    student !! "_id" = Some (PStr (u "3")).
Proof.
  assert (Hin : u "3" ∈ sample_ids (SAMPLE_STUDENTS offline fallback_world)).
  { do 2 apply list_elem_of_further. apply list_elem_of_here. }
  split; [exact Hin|].
  destruct (get_present offline fallback_world (u "3") eq_refl seeded_stored Hin)
    as (s & H1 & _ & H3).
  exists s. split; assumption.
Defined.

(** John Doe is created, then searched for as "JOHN DOE". *)
Lemma search_after_create_witness :
  same_ignoring_case (u "John Doe") (u "JOHN DOE") /\
  exists id found,
    snd (get_by_name offline (u "JOHN DOE")
           (fst (add offline (Ok (PDict john)) noon fallback_world))) =
      (PList (PDict <$> found), 200) /\
    created id (u "John Doe") 25 noon ∈ found.
Proof.
  assert (Hq : same_ignoring_case (u "John Doe") (u "JOHN DOE")) by same_case.
  split; [exact Hq|].
  destruct (search_after_create offline fallback_world john (u "John Doe") 25 noon
              (u "JOHN DOE")) as (id & found & _ & H2 & H3);
    [reflexivity | reflexivity | lia | not_blank | reflexivity | exact seeded_stored
    | exact seeded_room | exact Hq |].
  exists id, found. split; [now rewrite H2 | exact H3].
Defined.

(** The queries "alice" and "ALICE" on the seeded list. *)
Lemma query_case_irrelevant_witness :
  same_ignoring_case (u "alice") (u "ALICE") /\
  get_by_name offline (u "alice") fallback_world =
    get_by_name offline (u "ALICE") fallback_world.
Proof.
  assert (Hq : same_ignoring_case (u "alice") (u "ALICE")) by same_case.
  split; [exact Hq|].
  apply (query_case_irrelevant offline fallback_world (u "alice") (u "ALICE")
           eq_refl Hq).
Defined.

(** The empty query on the seeded list. *)
Lemma empty_query_returns_all_witness :
  Forall named (SAMPLE_STUDENTS offline fallback_world) /\
  snd (search_students_by_name offline [] fallback_world) =
    Ok (SAMPLE_STUDENTS offline fallback_world).
Proof.
  assert (Hn : Forall named (SAMPLE_STUDENTS offline fallback_world)).
  { repeat constructor; eexists; reflexivity. }
  split; [exact Hn|].
  now rewrite (empty_query_returns_all offline fallback_world eq_refl Hn).
Defined.

(** A collection whose one document has no name. *)
Lemma incomplete_document_hides_collection_witness :
  connected memory nameless_world =
    Some (1%nat, [Document (Oid 0) {[ "age" := PInt 30 ]}]) /\
  snd (get_all memory nameless_world) =
    (PList (PDict <$> SAMPLE_STUDENTS memory nameless_world), 200).
Proof.
  split; [reflexivity|].
  rewrite (incomplete_document_hides_collection memory nameless_world
             (1%nat, [Document (Oid 0) {[ "age" := PInt 30 ]}])
             (1%nat, [Document (Oid 0) {[ "age" := PInt 30 ]}])
             [Document (Oid 0) {[ "age" := PInt 30 ]}]
             (Document (Oid 0) {[ "age" := PInt 30 ]}));
    [reflexivity | reflexivity | reflexivity | apply list_elem_of_here
    | left; reflexivity].
Defined.

(** GET /students/1 in a connected process whose ids have 24 hexadecimal
    digits. *)
Lemma seeded_record_served_witness :
  connected strict strict_world = Some [] /\
  new_ObjectId strict (u "1") = Raise DriverError /\
  exists student,
    student !! "_id" = Some (PStr (u "1")) /\
    snd (get_by_id strict (u "1") (fst (serve strict session strict_world))) =
      (PDict student, 200).
Proof.
  split; [reflexivity|]. split; [reflexivity|].
  destruct (seeded_record_served strict (Some (u "mongodb://db")) session (u "1") [])
    as (s & _ & H2 & H3);
    [reflexivity | apply list_elem_of_here | eexists; reflexivity |].
  exists s. split; assumption.
Defined.

(** DELETE in a process whose server went away. *)
Lemma connected_delete_answer_witness :
  connected unreachable lost_world = Some tt /\
  (snd (snd (delete unreachable some_oid lost_world)) = 200 \/
   snd (snd (delete unreachable some_oid lost_world)) = 404).
Proof.
  split; [reflexivity|].
  now destruct (connected_delete_answer unreachable lost_world tt some_oid eq_refl)
    as (_ & H & _).
Defined.

(** The seeded process without MONGO_URI, after the short session. *)
Lemma no_secret_reported_witness :
  secret_configured None = false /\
  snd (health_check offline ping_lost exn_text None noon
         (fst (serve offline session (initial_world offline None)))) =
    (PDict (healthy "fallback_mode_no_secret" 4 None noon), 200).
Proof.
  split; [reflexivity|].
  destruct (no_secret_reported offline ping_lost exn_text None session noon eq_refl)
    as (_ & H & _).
  now rewrite H.
Defined.

(** The list with the id "abc". *)
Lemma unreadable_id_blocks_create_witness :
  sample_number (sample "abc" "Jane Smith" 22) = Raise ValueError /\
  add offline (Ok (PDict john)) noon odd_world =
    (odd_world, jsonify_error "Failed to add student" 500).
Proof.
  split; [reflexivity|].
  apply (unreadable_id_blocks_create offline odd_world john (u "John Doe") 25 noon
           (sample "abc" "Jane Smith" 22) ValueError);
    [reflexivity | reflexivity | lia | not_blank | reflexivity
    | apply list_elem_of_further, list_elem_of_here | reflexivity].
Defined.
